(** * wolfProvider: ECX key management (src/wp_ecx_kmgmt.c)

    A shallow embedding of the ECX (X25519, X448, Ed25519, Ed448) key
    manager: key objects with their reference count, the parameter
    import/export layer, matching, the generation parameters and the
    decoder entry point.

    The wolfSSL primitives and the OpenSSL parameter helpers are outside
    the file; the wolfSSL ones are an interface ([WolfCrypt]) the whole
    development is parametric in, the OpenSSL ones are small models. *)

From stdpp Require Import base option list gmap strings.
From Stdlib Require Import ZArith Lia.

Local Open Scope Z_scope.

(** ** Machine integers and bytes *)

Definition INT_MAX : Z := 2147483647.

(** A C [int] after an arithmetic step: two's complement wrap-around. *)
Definition wrap_int (z : Z) : Z := (z + 2 ^ 31) mod 2 ^ 32 - 2 ^ 31.

(** [unsigned char], a value in 0..255. *)
Definition byte : Type := Z.

(** [b & m] on a byte. *)
Definition byte_and (b m : byte) : byte := Z.land b m.

(** Pointers to key objects; NULL is [None] at the use sites. *)
Definition loc : Type := positive.

(** The provider context is an opaque pointer. *)
Definition WOLFPROV_CTX : Type := positive.

(** ** Constants of the OpenSSL and wolfSSL headers *)

Definition OSSL_KEYMGMT_SELECT_PRIVATE_KEY : Z := 1.
Definition OSSL_KEYMGMT_SELECT_PUBLIC_KEY : Z := 2.
Definition OSSL_KEYMGMT_SELECT_DOMAIN_PARAMETERS : Z := 4.
Definition OSSL_KEYMGMT_SELECT_OTHER_PARAMETERS : Z := 128.
Definition OSSL_KEYMGMT_SELECT_ALL_PARAMETERS : Z :=
  Z.lor OSSL_KEYMGMT_SELECT_DOMAIN_PARAMETERS OSSL_KEYMGMT_SELECT_OTHER_PARAMETERS.
Definition OSSL_KEYMGMT_SELECT_KEYPAIR : Z :=
  Z.lor OSSL_KEYMGMT_SELECT_PRIVATE_KEY OSSL_KEYMGMT_SELECT_PUBLIC_KEY.

(** Supported selections (key parts) in this key manager for ECX. *)
Definition WP_ECX_POSSIBLE_SELECTIONS : Z :=
  Z.lor OSSL_KEYMGMT_SELECT_KEYPAIR OSSL_KEYMGMT_SELECT_ALL_PARAMETERS.

Definition WP_KEY_TYPE_X25519 : Z := 1.
Definition WP_KEY_TYPE_X448 : Z := 2.
Definition WP_KEY_TYPE_ED25519 : Z := 3.
Definition WP_KEY_TYPE_ED448 : Z := 4.

Definition CURVE25519_KEYSIZE : Z := 32.
Definition CURVE448_KEY_SIZE : Z := 56.
Definition ED25519_KEY_SIZE : Z := 32.
Definition ED448_KEY_SIZE : Z := 57.

(** Maximum key size. Used for exporting when comparing keys. *)
Definition WP_MAX_KEY_SIZE : Z := ED448_KEY_SIZE.

Definition EC25519_LITTLE_ENDIAN : Z := 0.
Definition EC448_LITTLE_ENDIAN : Z := 0.

Definition WP_ENC_FORMAT_SPKI : Z := 1.
Definition WP_ENC_FORMAT_PKI : Z := 2.

Definition OSSL_OBJECT_PKEY : Z := 2.

(** Modelled from the spec: the values of the OpenSSL parameter-name macros
    are not in the source file; the specification lists the recognized names
    (bits, security-bits, max-size, encoded-public-key, public-key,
    private-key, group-name). *)
Definition OSSL_PKEY_PARAM_BITS : string := "bits".
Definition OSSL_PKEY_PARAM_SECURITY_BITS : string := "security-bits".
Definition OSSL_PKEY_PARAM_MAX_SIZE : string := "max-size".
Definition OSSL_PKEY_PARAM_ENCODED_PUBLIC_KEY : string := "encoded-public-key".
Definition OSSL_PKEY_PARAM_PUB_KEY : string := "public-key".
Definition OSSL_PKEY_PARAM_PRIV_KEY : string := "private-key".
Definition OSSL_PKEY_PARAM_GROUP_NAME : string := "group-name".
Definition OSSL_OBJECT_PARAM_TYPE : string := "type".
Definition OSSL_OBJECT_PARAM_DATA_TYPE : string := "data-type".
Definition OSSL_OBJECT_PARAM_REFERENCE : string := "reference".

Definition SN_X25519 : string := "X25519".
Definition SN_X448 : string := "X448".
Definition SN_ED25519 : string := "ED25519".
Definition SN_ED448 : string := "ED448".

(** ** Memory buffers *)

(** [memory + off]: what a pointer into a buffer sees. *)
Definition buf_at (off : Z) (buf : list byte) : list byte :=
  drop (Z.to_nat off) buf.

(** The buffer after the memory from [off] on was replaced by [tail]. *)
Definition buf_put (off : Z) (buf tail : list byte) : list byte :=
  take (Z.to_nat off) buf ++ tail.

(** The first [n] bytes of a buffer. *)
Definition buf_read (buf : list byte) (n : Z) : list byte :=
  take (Z.to_nat n) buf.

Definition bytes_eqb (a b : list byte) : bool := bool_decide (a = b).

(** [XMEMCMP(a, b, n)]: 0 when the first [n] bytes agree. *)
Definition XMEMCMP (a b : list byte) (n : Z) : Z :=
  if bytes_eqb (buf_read a n) (buf_read b n) then 0 else 1.

(** ** C strings *)

Definition XSTRLEN (s : string) : Z := Z.of_nat (String.length s).

Fixpoint strncmp_nat (a b : string) (n : nat) : Z :=
  match n with
  | O => 0
  | S n' =>
      match a, b with
      | EmptyString, EmptyString => 0
      | EmptyString, String _ _ => -1
      | String _ _, EmptyString => 1
      | String x a', String y b' =>
          if Ascii.eqb x y then strncmp_nat a' b' n'
          else Z.of_nat (Ascii.nat_of_ascii x) - Z.of_nat (Ascii.nat_of_ascii y)
      end
  end.

(** [XSTRNCMP(a, b, n)]: compares at most [n] characters, stopping at the
    terminating NUL. *)
Definition XSTRNCMP (a b : string) (n : Z) : Z := strncmp_nat a b (Z.to_nat n).

(** ** OSSL_PARAM *)

Inductive param_type : Type :=
  | OSSL_PARAM_INTEGER
  | OSSL_PARAM_UNSIGNED_INTEGER
  | OSSL_PARAM_REAL
  | OSSL_PARAM_UTF8_STRING
  | OSSL_PARAM_OCTET_STRING
  | OSSL_PARAM_UTF8_PTR
  | OSSL_PARAM_OCTET_PTR.

#[global] Instance param_type_eq_dec : EqDecision param_type.
Proof. solve_decision. Defined.

(** What the [data] pointer of a parameter refers to. *)
Inductive param_data : Type :=
  | DataInt (z : Z)
  | DataUtf8 (s : string)
  | DataOctet (b : list byte)
  | DataRef (p : loc).

(** One entry of a parameter array; [p_data = None] is a NULL [data]. *)
Record OSSL_PARAM : Type := mkParam {
  p_key : string;
  p_data_type : param_type;
  p_data : option param_data;
  p_data_size : Z;
  p_return_size : Z
}.

(** [OSSL_PARAM_locate]: index of the first entry named [key]. *)
Fixpoint OSSL_PARAM_locate (params : list OSSL_PARAM) (key : string) : option nat :=
  match params with
  | [] => None
  | p :: ps =>
      if String.eqb (p_key p) key then Some O
      else S <$> OSSL_PARAM_locate ps key
  end.

(** The entry [OSSL_PARAM_locate] points at. *)
Definition param_at (params : list OSSL_PARAM) (key : string) : option OSSL_PARAM :=
  i ← OSSL_PARAM_locate params key; params !! i.

(** [OSSL_PARAM_set_int]: an integer parameter takes the value (or, without
    a buffer, only reports the size of an [int]); an unsigned one takes it
    when it is not negative; other types are refused. *)
Definition OSSL_PARAM_set_int (p : OSSL_PARAM) (val : Z) : Z * OSSL_PARAM :=
  let store :=
    match p_data p with
    | None =>
        (1, mkParam (p_key p) (p_data_type p) None (p_data_size p) 4)
    | Some _ =>
        (1, mkParam (p_key p) (p_data_type p) (Some (DataInt val)) (p_data_size p) 4)
    end in
  match p_data_type p with
  | OSSL_PARAM_INTEGER => store
  | OSSL_PARAM_UNSIGNED_INTEGER => if 0 <=? val then store else (0, p)
  | _ => (0, p)
  end.

(** [(size_t)-1], the [return_size] of a freshly constructed entry. *)
Definition OSSL_PARAM_UNMODIFIED : Z := 2 ^ 64 - 1.

Definition OSSL_PARAM_construct_int (key : string) (val : Z) : OSSL_PARAM :=
  mkParam key OSSL_PARAM_INTEGER (Some (DataInt val)) 4 OSSL_PARAM_UNMODIFIED.

Definition OSSL_PARAM_construct_utf8_string (key : string) (buf : option string)
    (bsize : Z) : OSSL_PARAM :=
  mkParam key OSSL_PARAM_UTF8_STRING (DataUtf8 <$> buf)
    (match buf with
     | Some s => if bsize =? 0 then Z.of_nat (String.length s) else bsize
     | None => bsize
     end) OSSL_PARAM_UNMODIFIED.

(** [OSSL_PARAM_construct_octet_string(key, &ecx, sizeof(ecx))]: the octet
    string is the address of a key object. *)
Definition OSSL_PARAM_construct_octet_string_ref (key : string) (ecx : loc) : OSSL_PARAM :=
  mkParam key OSSL_PARAM_OCTET_STRING (Some (DataRef ecx)) 8 OSSL_PARAM_UNMODIFIED.

(** Modelled from the spec: [wp_param_set_octet_string_ptr] (wp_params.c)
    fills an entry of the transient parameter list with a named component:
    an octet string over the [len] bytes at [data]. *)
Definition wp_param_set_octet_string_ptr (key : string) (data : list byte) (len : Z)
    : OSSL_PARAM :=
  mkParam key OSSL_PARAM_OCTET_STRING (Some (DataOctet (buf_read data len))) len
    OSSL_PARAM_UNMODIFIED.

(** The memory a parameter's [data] points at, as bytes. *)
Definition param_buf (p : OSSL_PARAM) : list byte :=
  match p_data p with
  | Some (DataOctet b) => b
  | _ => []
  end.

(** The entries of a parameter array up to its end marker; a zeroed entry
    ([None]) has a NULL key and is the marker. *)
Fixpoint params_upto_end (arr : list (option OSSL_PARAM)) : list OSSL_PARAM :=
  match arr with
  | Some p :: rest => p :: params_upto_end rest
  | _ => []
  end.

(** Modelled from the spec: [wp_read_der_bio] (wp_internal.c) is the
    "read all bytes from source, return buffer+length, or fail"; the source
    is what reading it yields. The result is the return code, the buffer and
    its length. *)
Definition OSSL_CORE_BIO : Type := option (list byte).

Definition wp_read_der_bio (cin : OSSL_CORE_BIO) : Z * option (list byte) * Z :=
  match cin with
  | Some b => (1, Some b, Z.of_nat (length b))
  | None => (0, None, 0)
  end.

(** C truth of an integer. *)
Definition nz (z : Z) : bool := negb (z =? 0).

(** Modelled from the spec: [wp_params_get_octet_string_ptr] (wp_params.c) is
    the "parameter lookup by name returning pointer+length": an absent name
    leaves the pointer as it was and succeeds, an octet-string entry yields its
    buffer and length, an entry of another type is a failure. The result is
    the return code, the pointer ([None] is NULL) and the length. *)
Definition wp_params_get_octet_string_ptr (params : list OSSL_PARAM) (key : string)
    (data : option (list byte)) (len : Z) : Z * option (list byte) * Z :=
  match param_at params key with
  | None => (1, data, len)
  | Some p =>
      match p_data_type p, p_data p with
      | OSSL_PARAM_OCTET_STRING, Some (DataOctet b) => (1, Some b, p_data_size p)
      | OSSL_PARAM_OCTET_STRING, None => (1, None, p_data_size p)
      | _, _ => (0, data, len)
      end
  end.

(** Modelled from the spec: [wp_params_get_utf8_string_ptr] (wp_params.c), the
    same lookup for a UTF-8 string entry. *)
Definition wp_params_get_utf8_string_ptr (params : list OSSL_PARAM) (key : string)
    (data : option string) : Z * option string :=
  match param_at params key with
  | None => (1, data)
  | Some p =>
      match p_data_type p, p_data p with
      | OSSL_PARAM_UTF8_STRING, Some (DataUtf8 s) => (1, Some s)
      | OSSL_PARAM_UTF8_STRING, None => (1, None)
      | _, _ => (0, data)
      end
  end.

(** ** The wolfSSL primitives

    The curve arithmetic is outside this file. A key of any of the four
    families lives in the same storage (the [key] union of [wp_Ecx]); each
    primitive returns its return code together with what it left in the
    storage it was given. An export primitive receives the memory its [out]
    pointer refers to and the value of [*outLen], and returns the return code,
    that memory after the call and the new [*outLen]; it reads the key only. *)

Section Primitives.
Context (K R : Type).

(** Curve25519 and Curve448 (key exchange). *)
Record wc_curve_api : Type := {
  wc_curve_init : K → Z * K;
  wc_curve_free : K → K;
  wc_curve_make_key : R → Z → K → Z * K;
  wc_curve_import_public_ex : list byte → Z → K → Z → Z * K;
  wc_curve_export_public_ex : K → list byte → Z → Z → Z * list byte * Z;
  wc_curve_import_private_ex : list byte → Z → K → Z → Z * K;
  wc_curve_export_private_raw : K → list byte → Z → Z * list byte * Z;
  wc_curve_check_public : list byte → Z → Z → Z;
  wc_CurvePublicKeyDecode : list byte → Z → K → Z → Z * K;
  wc_CurvePrivateKeyDecode : list byte → Z → K → Z → Z * K
}.

(** Ed25519 and Ed448 (signatures). *)
Record wc_ed_api : Type := {
  wc_ed_init : K → Z * K;
  wc_ed_free : K → K;
  wc_ed_make_key : R → Z → K → Z * K;
  wc_ed_pubKeySet : K → bool;
  wc_ed_import_public : list byte → Z → K → Z * K;
  wc_ed_make_public : K → list byte → Z → Z * list byte;
  wc_ed_export_public : K → list byte → Z → Z * list byte * Z;
  wc_ed_import_private_only : list byte → Z → K → Z * K;
  wc_ed_export_private_only : K → list byte → Z → Z * list byte * Z;
  wc_ed_check_key : K → Z;
  wc_EdPublicKeyDecode : list byte → Z → K → Z → Z * K;
  wc_EdPrivateKeyDecode : list byte → Z → K → Z → Z * K
}.
End Primitives.

Arguments wc_curve_init {K R}.
Arguments wc_curve_free {K R}.
Arguments wc_curve_make_key {K R}.
Arguments wc_curve_import_public_ex {K R}.
Arguments wc_curve_export_public_ex {K R}.
Arguments wc_curve_import_private_ex {K R}.
Arguments wc_curve_export_private_raw {K R}.
Arguments wc_curve_check_public {K R}.
Arguments wc_CurvePublicKeyDecode {K R}.
Arguments wc_CurvePrivateKeyDecode {K R}.
Arguments wc_ed_init {K R}.
Arguments wc_ed_free {K R}.
Arguments wc_ed_make_key {K R}.
Arguments wc_ed_pubKeySet {K R}.
Arguments wc_ed_import_public {K R}.
Arguments wc_ed_make_public {K R}.
Arguments wc_ed_export_public {K R}.
Arguments wc_ed_import_private_only {K R}.
Arguments wc_ed_export_private_only {K R}.
Arguments wc_ed_check_key {K R}.
Arguments wc_EdPublicKeyDecode {K R}.
Arguments wc_EdPrivateKeyDecode {K R}.

Class WolfCrypt : Type := {
  (** the storage of the union of the four wolfSSL key structures *)
  key_union : Type;
  (** that storage as [OPENSSL_zalloc] leaves it *)
  key_zero : key_union;
  (** the random number generator *)
  WC_RNG : Type;
  wc_curve25519 : wc_curve_api key_union WC_RNG;
  wc_curve448 : wc_curve_api key_union WC_RNG;
  wc_ed25519 : wc_ed_api key_union WC_RNG;
  wc_ed448 : wc_ed_api key_union WC_RNG
}.

(** ** A reference implementation of the primitives

    The raw bytes are kept as they are given; an import checks the length,
    an export needs the component and room for it. It is used to run the
    key manager on concrete inputs. *)

Record RefKey : Type := mkRefKey {
  rk_pub : list byte;
  rk_pubSet : bool;
  rk_priv : list byte;
  rk_privSet : bool
}.

Definition BAD_FUNC_ARG : Z := -173.
Definition ECC_BAD_ARG_E : Z := -170.
Definition BUFFER_E : Z := -132.
Definition ASN_PARSE_E : Z := -140.

Definition ref_import_public (size : Z) (inb : list byte) (inLen : Z) (k : RefKey)
    : Z * RefKey :=
  if inLen =? size
  then (0, mkRefKey (buf_read inb size) true (rk_priv k) (rk_privSet k))
  else (ECC_BAD_ARG_E, k).

Definition ref_import_private (size : Z) (inb : list byte) (inLen : Z) (k : RefKey)
    : Z * RefKey :=
  if inLen =? size
  then (0, mkRefKey (rk_pub k) (rk_pubSet k) (buf_read inb size) true)
  else (ECC_BAD_ARG_E, k).

Definition ref_export (size : Z) (set : bool) (bytes out : list byte) (outLen : Z)
    : Z * list byte * Z :=
  if negb set then (ECC_BAD_ARG_E, out, outLen)
  else if outLen <? size then (BUFFER_E, out, size)
  else (0, bytes ++ drop (length bytes) out, Z.of_nat (length bytes)).

(** The reference decoders take the whole input as the raw key when it has
    the size of one, and reject it otherwise. *)
Definition ref_decode_public (size : Z) (input : list byte) (idx : Z) (k : RefKey)
    (inSz : Z) : Z * RefKey :=
  if inSz =? size then ref_import_public size input inSz k else (ASN_PARSE_E, k).

Definition ref_decode_private (size : Z) (input : list byte) (idx : Z) (k : RefKey)
    (inSz : Z) : Z * RefKey :=
  if inSz =? size then ref_import_private size input inSz k else (ASN_PARSE_E, k).

Definition ref_make_key (size : Z) (rng : list byte) (keySize : Z) (k : RefKey)
    : Z * RefKey :=
  if keySize =? size
  then (0, mkRefKey (buf_read rng size) true (buf_read (buf_at size rng) size) true)
  else (BAD_FUNC_ARG, k).

Definition ref_curve (size : Z) : wc_curve_api RefKey (list byte) := {|
  wc_curve_init := λ k, (0, mkRefKey [] false [] false);
  wc_curve_free := λ k, mkRefKey [] false [] false;
  wc_curve_make_key := ref_make_key size;
  wc_curve_import_public_ex := λ inb inLen k endian, ref_import_public size inb inLen k;
  wc_curve_export_public_ex := λ k out outLen endian,
    ref_export size (rk_pubSet k) (rk_pub k) out outLen;
  wc_curve_import_private_ex := λ inb inLen k endian, ref_import_private size inb inLen k;
  wc_curve_export_private_raw := λ k out outLen,
    ref_export size (rk_privSet k) (rk_priv k) out outLen;
  wc_curve_check_public := λ pub pubLen endian, if pubLen =? size then 0 else BUFFER_E;
  wc_CurvePublicKeyDecode := ref_decode_public size;
  wc_CurvePrivateKeyDecode := ref_decode_private size
|}.

Definition ref_ed (size : Z) : wc_ed_api RefKey (list byte) := {|
  wc_ed_init := λ k, (0, mkRefKey [] false [] false);
  wc_ed_free := λ k, mkRefKey [] false [] false;
  wc_ed_make_key := ref_make_key size;
  wc_ed_pubKeySet := rk_pubSet;
  wc_ed_import_public := ref_import_public size;
  wc_ed_make_public := λ k out outLen,
    if negb (rk_privSet k) then (ECC_BAD_ARG_E, out)
    else if outLen <? size then (BAD_FUNC_ARG, out)
    else (0, rk_priv k ++ drop (length (rk_priv k)) out);
  wc_ed_export_public := λ k out outLen,
    ref_export size (rk_pubSet k) (rk_pub k) out outLen;
  wc_ed_import_private_only := ref_import_private size;
  wc_ed_export_private_only := λ k out outLen,
    ref_export size (rk_privSet k) (rk_priv k) out outLen;
  wc_ed_check_key := λ k, if rk_pubSet k && rk_privSet k then 0 else ECC_BAD_ARG_E;
  wc_EdPublicKeyDecode := ref_decode_public size;
  wc_EdPrivateKeyDecode := ref_decode_private size
|}.

Definition RefCrypt : WolfCrypt := {|
  key_union := RefKey;
  key_zero := mkRefKey [] false [] false;
  WC_RNG := list byte;
  wc_curve25519 := ref_curve CURVE25519_KEYSIZE;
  wc_curve448 := ref_curve CURVE448_KEY_SIZE;
  wc_ed25519 := ref_ed ED25519_KEY_SIZE;
  wc_ed448 := ref_ed ED448_KEY_SIZE
|}.

(** ** The provider

    Whether the provider is running ([wolfssl_prov_is_running], defined in
    wp_wolfprov.c) is a parameter of the development. *)

Class Provider : Type := {
  wolfssl_prov_is_running : bool
}.

(** A running provider. *)
Definition Running : Provider := {| wolfssl_prov_is_running := true |}.

(** ** The key manager *)

Section Ecx.
Context `{WC : WolfCrypt} `{PV : Provider}.

(** *** ECX data and wolfSSL functions ([wp_EcxData]) *)

Record wp_EcxData : Type := mkEcxData {
  (** Type of key. *)
  keyType : Z;
  (** Number of bits in curve. *)
  bits : Z;
  (** Length of curve in bytes. *)
  len : Z;
  initKey : key_union → Z * key_union;
  freeKey : key_union → key_union;
  makeKey : WC_RNG → Z → key_union → Z * key_union;
  importPub : list byte → Z → key_union → Z → Z * key_union;
  exportPub : key_union → list byte → Z → Z → Z * list byte * Z;
  importPriv : list byte → Z → key_union → Z → Z * key_union;
  exportPriv : key_union → list byte → Z → Z * list byte * Z;
  (** NULL for the signature curves. *)
  checkPub : option (list byte → Z → Z → Z);
  (** NULL for the key exchange curves. *)
  checkKey : option (key_union → Z)
}.

(** *** ECX key ([struct wp_Ecx]); the mutex has no content of its own. *)

Record wp_Ecx : Type := mkEcx {
  key : key_union;
  data : wp_EcxData;
  refCnt : Z;
  provCtx : WOLFPROV_CTX;
  includePublic : Z;
  hasPub : bool;
  hasPriv : bool
}.

Definition set_key (k : key_union) (e : wp_Ecx) : wp_Ecx :=
  mkEcx k (data e) (refCnt e) (provCtx e) (includePublic e) (hasPub e) (hasPriv e).
Definition set_refCnt (c : Z) (e : wp_Ecx) : wp_Ecx :=
  mkEcx (key e) (data e) c (provCtx e) (includePublic e) (hasPub e) (hasPriv e).
Definition set_hasPub (b : bool) (e : wp_Ecx) : wp_Ecx :=
  mkEcx (key e) (data e) (refCnt e) (provCtx e) (includePublic e) b (hasPriv e).
Definition set_hasPriv (b : bool) (e : wp_Ecx) : wp_Ecx :=
  mkEcx (key e) (data e) (refCnt e) (provCtx e) (includePublic e) (hasPub e) b.

(** *** The state the functions run in

    [heap] holds the live key objects; [fates] the return codes of the
    system calls to come (locking, mutex creation, allocation), in call
    order, 0 being success and an exhausted list all successes; [junk] what
    freshly allocated memory happens to hold; [log] the calls that release
    something or hand data out. *)

Inductive Event : Type :=
  | EvFreeMutex (p : loc)
  | EvFreeKey (p : loc)
  | EvFree (p : loc)
  | EvCallback (params : list OSSL_PARAM)
  | EvClearFree (buf : list byte) (n : Z).

Record State : Type := mkState {
  heap : gmap loc wp_Ecx;
  fates : list Z;
  junk : list byte;
  log : list Event
}.

(** A computation either goes wrong ([None]: it touched an object that is
    not live) or returns a value and the next state. *)
Definition M (A : Type) : Type := State → option (A * State).

Definition ret {A : Type} (a : A) : M A := λ s, Some (a, s).

Definition bind {A B : Type} (m : M A) (f : A → M B) : M B := λ s,
  match m s with
  | Some (a, s') => f a s'
  | None => None
  end.

Notation "'do' x <- m ; k" := (bind m (λ x, k))
  (at level 20, x name, m at level 100, k at level 200, only parsing).
Notation "'run' m ; k" := (bind m (λ _, k))
  (at level 20, m at level 100, k at level 200, only parsing).

Definition next_fate : M Z := λ s,
  Some (hd 0 (fates s), mkState (heap s) (tail (fates s)) (junk s) (log s)).

Definition emit (e : Event) : M unit := λ s,
  Some (tt, mkState (heap s) (fates s) (junk s) (log s ++ [e])).

(** [*ecx] *)
Definition deref (ecx : loc) : M wp_Ecx := λ s,
  match heap s !! ecx with
  | Some e => Some (e, s)
  | None => None
  end.

(** [*ecx = e] *)
Definition assign (ecx : loc) (e : wp_Ecx) : M unit := λ s,
  match heap s !! ecx with
  | Some _ => Some (tt, mkState (<[ecx := e]> (heap s)) (fates s) (junk s) (log s))
  | None => None
  end.

(** A zero-filled key object at an address no live object has. The
    descriptor pointer, NULL in zeroed memory, is written before anything
    reads it and is taken here from the caller. *)
Definition zeroed_block (d : wp_EcxData) : M (option loc) := λ s,
  let p := fresh (dom (heap s)) in
  Some (Some p, mkState (<[p := mkEcx key_zero d 0 1%positive 0 false false]> (heap s))
                  (fates s) (junk s) (log s)).

(** [OPENSSL_zalloc(sizeof( *ecx))]: such a block, or NULL. *)
Definition OPENSSL_zalloc (d : wp_EcxData) : M (option loc) :=
  do rc <- next_fate;
  if rc =? 0 then zeroed_block d else ret None.

(** [OPENSSL_free(ecx)] *)
Definition OPENSSL_free (ecx : loc) : M unit := λ s,
  match heap s !! ecx with
  | Some _ =>
      Some (tt, mkState (delete ecx (heap s)) (fates s) (junk s) (log s ++ [EvFree ecx]))
  | None => None
  end.

(** [OPENSSL_malloc(n)]: [n] bytes of whatever the memory held, or NULL. *)
Definition OPENSSL_malloc (n : Z) : M (option (list byte)) :=
  do rc <- next_fate;
  if rc =? 0 then λ s, Some (Some (buf_read (junk s) n), s) else ret None.

(** [OPENSSL_clear_free(data, len)]; a NULL [data] is ignored. *)
Definition OPENSSL_clear_free (data : option (list byte)) (n : Z) : M unit :=
  match data with
  | Some buf => emit (EvClearFree buf n)
  | None => ret tt
  end.

Definition wc_LockMutex (ecx : loc) : M Z := run deref ecx; next_fate.
Definition wc_UnLockMutex (ecx : loc) : M unit := run deref ecx; ret tt.
Definition wc_InitMutex (ecx : loc) : M Z := run deref ecx; next_fate.
Definition wc_FreeMutex (ecx : loc) : M unit := run deref ecx; emit (EvFreeMutex ecx).

(** [( *data->freeKey)(&ecx->key)] *)
Definition call_freeKey (ecx : loc) : M unit :=
  do e <- deref ecx;
  run assign ecx (set_key (freeKey (data e) (key e)) e);
  emit (EvFreeKey ecx).

(** *** Reference counting and life cycle

    The functions are those of the build with the mutex (neither
    [WP_SINGLE_THREADED] nor [SINGLE_THREADED] defined); the build without it
    behaves as this one does when every lock call succeeds. *)

(** Increment reference count for key. Returns 1 on success, 0 when
    locking fails. *)
Definition wp_ecx_up_ref (ecx : loc) : M Z :=
  do rc <- wc_LockMutex ecx;
  let ok := if rc <? 0 then 0 else 1 in
  if negb (ok =? 0) then
    do e <- deref ecx;
    run assign ecx (set_refCnt (wrap_int (refCnt e + 1)) e);
    run wc_UnLockMutex ecx;
    ret ok
  else ret ok.

(** Create a new ECX key object. Base function. *)
Definition wp_ecx_new (provCtx : WOLFPROV_CTX) (data : wp_EcxData) : M (option loc) :=
  do ecx <- (if wolfssl_prov_is_running then OPENSSL_zalloc data else ret None);
  match ecx with
  | None => ret None
  | Some p =>
      do e <- deref p;
      let '(rc, k) := initKey data (key e) in
      run assign p (set_key k e);
      let ok := if negb (rc =? 0) then 0 else 1 in
      do ok <- (if negb (ok =? 0) then
                  do rc <- wc_InitMutex p;
                  if negb (rc =? 0) then
                    run call_freeKey p; ret 0
                  else ret ok
                else ret ok);
      run (if negb (ok =? 0) then
             do e <- deref p;
             assign p (mkEcx (key e) data 1 provCtx (includePublic e)
                         (hasPub e) (hasPriv e))
           else ret tt);
      if ok =? 0 then
        run OPENSSL_free p; ret None
      else ret (Some p)
  end.

(** Dispose of ECX key object. *)
Definition wp_ecx_free (ecx : option loc) : M unit :=
  match ecx with
  | None => ret tt
  | Some p =>
      do rc <- wc_LockMutex p;
      do e <- deref p;
      let cnt := wrap_int (refCnt e - 1) in
      run assign p (set_refCnt cnt e);
      run (if rc =? 0 then wc_UnLockMutex p else ret tt);
      if cnt =? 0 then
        run wc_FreeMutex p;
        run call_freeKey p;
        OPENSSL_free p
      else ret tt
  end.

(** Duplicate specific parts of a ECX key object. *)
Definition wp_ecx_dup (src : loc) (selection : Z) : M (option loc) :=
  do s <- deref src;
  do dst <- wp_ecx_new (provCtx s) (data s);
  match dst with
  | None => ret None
  | Some d =>
      do s <- deref src;
      do e <- deref d;
      run assign d (mkEcx (key s) (data e) (refCnt e) (provCtx e)
                      (includePublic s) (hasPub s) (hasPriv s));
      ret (Some d)
  end.

(** Load the ECX key: the object is taken out of the reference, which is
    left NULL. The result is the returned pointer and the new [*pEcx]. *)
Definition wp_ecx_load (pEcx : option loc) : option loc * option loc :=
  (pEcx, None).

(** *** Parameters of a key *)


(** Get the security bits for an ECX key. *)
Definition wp_ecx_get_security_bits (ecx : wp_Ecx) : Z :=
  let bits_ := 0 in
  if 448 <=? bits (data ecx) then 192
  else if 255 <=? bits (data ecx) then 128
  else bits_.

(** Get the encoded public key into parameters. The result is the return
    code and the parameter array after the call. *)
Definition wp_ecx_get_params_enc_pub_key (ecx : wp_Ecx) (params : list OSSL_PARAM)
    (key_ : string) : Z * list OSSL_PARAM :=
  let ok := 1 in
  match OSSL_PARAM_locate params key_ with
  | Some i =>
      match params !! i with
      | Some p =>
          let outLen := p_return_size p in
          match p_data p with
          | None =>
              let outLen := len (data ecx) in
              (ok, <[i := mkParam (p_key p) (p_data_type p) (p_data p)
                            (p_data_size p) outLen]> params)
          | Some _ =>
              let '(rc, out, outLen) :=
                exportPub (data ecx) (key ecx) (param_buf p) outLen
                  EC25519_LITTLE_ENDIAN in
              let ok := if nz rc then 0 else ok in
              (ok, <[i := mkParam (p_key p) (p_data_type p) (Some (DataOctet out))
                            (p_data_size p) outLen]> params)
          end
      | None => (ok, params)
      end
  | None => (ok, params)
  end.

(** Get the encoded private key into parameters. *)
Definition wp_ecx_get_params_priv_key (ecx : wp_Ecx) (params : list OSSL_PARAM)
    : Z * list OSSL_PARAM :=
  let ok := 1 in
  match OSSL_PARAM_locate params OSSL_PKEY_PARAM_PRIV_KEY with
  | Some i =>
      match params !! i with
      | Some p =>
          let outLen := p_return_size p in
          match p_data p with
          | None =>
              let outLen := len (data ecx) in
              (ok, <[i := mkParam (p_key p) (p_data_type p) (p_data p)
                            (p_data_size p) outLen]> params)
          | Some _ =>
              let '(rc, out, outLen) :=
                exportPriv (data ecx) (key ecx) (param_buf p) outLen in
              let ok := if nz rc then 0 else ok in
              (ok, <[i := mkParam (p_key p) (p_data_type p) (Some (DataOctet out))
                            (p_data_size p) outLen]> params)
          end
      | None => (ok, params)
      end
  | None => (ok, params)
  end.

(** [p = OSSL_PARAM_locate(params, key); (p != NULL) &&
    !OSSL_PARAM_set_int(p, val)]: whether the condition holds, and the
    array after it was evaluated. *)
Definition locate_set_int_fails (params : list OSSL_PARAM) (key_ : string) (val : Z)
    : bool * list OSSL_PARAM :=
  match OSSL_PARAM_locate params key_ with
  | Some i =>
      match params !! i with
      | Some p =>
          let '(r, p') := OSSL_PARAM_set_int p val in
          (r =? 0, <[i := p']> params)
      | None => (false, params)
      end
  | None => (false, params)
  end.

(** Get the ECX key parameters. *)
Definition wp_ecx_get_params (ecx : wp_Ecx) (params : list OSSL_PARAM)
    : Z * list OSSL_PARAM :=
  let ok := 1 in
  let '(bad, params) :=
    locate_set_int_fails params OSSL_PKEY_PARAM_MAX_SIZE (len (data ecx)) in
  let ok := if bad then 0 else ok in
  let '(ok, params) :=
    if nz ok then
      let '(bad, params) :=
        locate_set_int_fails params OSSL_PKEY_PARAM_BITS (bits (data ecx)) in
      (if bad then 0 else ok, params)
    else (ok, params) in
  let '(ok, params) :=
    if nz ok then
      let '(bad, params) :=
        locate_set_int_fails params OSSL_PKEY_PARAM_SECURITY_BITS
          (wp_ecx_get_security_bits ecx) in
      (if bad then 0 else ok, params)
    else (ok, params) in
  let '(ok, params) :=
    if nz ok then
      let '(r, params) :=
        wp_ecx_get_params_enc_pub_key ecx params OSSL_PKEY_PARAM_ENCODED_PUBLIC_KEY in
      (if r =? 0 then 0 else ok, params)
    else (ok, params) in
  let '(ok, params) :=
    if nz ok then
      let '(r, params) :=
        wp_ecx_get_params_enc_pub_key ecx params OSSL_PKEY_PARAM_PUB_KEY in
      (if r =? 0 then 0 else ok, params)
    else (ok, params) in
  let '(ok, params) :=
    if nz ok then
      let '(r, params) := wp_ecx_get_params_priv_key ecx params in
      (if r =? 0 then 0 else ok, params)
    else (ok, params) in
  (ok, params).

(** Check ECX key object has the components required. *)
Definition wp_ecx_has (ecx : option wp_Ecx) (selection : Z) : Z :=
  let ok := 1 in
  let ok := if negb wolfssl_prov_is_running then 0 else ok in
  match ecx with
  | None => 0
  | Some e =>
      if nz ok && nz (Z.land selection WP_ECX_POSSIBLE_SELECTIONS) then
        let ok :=
          if nz (Z.land selection OSSL_KEYMGMT_SELECT_PUBLIC_KEY)
          then Z.land ok (Z.b2z (hasPub e)) else ok in
        let ok :=
          if nz (Z.land selection OSSL_KEYMGMT_SELECT_PRIVATE_KEY)
          then Z.land ok (Z.b2z (hasPriv e)) else ok in
        ok
      else ok
  end.

(** *** Matching

    [key1] and [key2] are automatic arrays without an initializer: what
    they hold before the export is an argument. *)

(** Check that two ECX key objects' private keys match. *)
Definition wp_ecx_match_priv_key (key1 key2 : list byte) (ecx1 ecx2 : wp_Ecx) : Z :=
  let ok := 1 in
  let ok := Z.land ok (Z.b2z (hasPriv ecx1 && hasPriv ecx2)) in
  let '(ok, key1, len1) :=
    if nz ok then
      let len1 := len (data ecx1) in
      let '(rc, key1, len1) := exportPriv (data ecx1) (key ecx1) key1 len1 in
      (if nz rc then 0 else ok, key1, len1)
    else (ok, key1, 0) in
  let '(ok, key2, len2) :=
    if nz ok then
      let len2 := len (data ecx2) in
      let '(rc, key2, len2) := exportPriv (data ecx2) (key ecx2) key2 len2 in
      (if nz rc then 0 else ok, key2, len2)
    else (ok, key2, 0) in
  let ok := if nz ok && negb (len1 =? len2) then 0 else ok in
  let ok := if nz ok && nz (XMEMCMP key1 key2 len1) then 0 else ok in
  ok.

(** Check that two ECX key objects' public keys match. *)
Definition wp_ecx_match_pub_key (key1 key2 : list byte) (ecx1 ecx2 : wp_Ecx) : Z :=
  let ok := 1 in
  let ok := Z.land ok (Z.b2z (hasPub ecx1 && hasPub ecx2)) in
  let '(ok, key1, len1) :=
    if nz ok then
      let len1 := len (data ecx1) in
      let '(rc, key1, len1) :=
        exportPub (data ecx1) (key ecx1) key1 len1 EC25519_LITTLE_ENDIAN in
      (if nz rc then 0 else ok, key1, len1)
    else (ok, key1, 0) in
  let '(ok, key2, len2) :=
    if nz ok then
      let len2 := len (data ecx2) in
      let '(rc, key2, len2) :=
        exportPub (data ecx2) (key ecx2) key2 len2 EC25519_LITTLE_ENDIAN in
      (if nz rc then 0 else ok, key2, len2)
    else (ok, key2, 0) in
  let ok := if nz ok && negb (len1 =? len2) then 0 else ok in
  let ok := if nz ok && nz (XMEMCMP key1 key2 len1) then 0 else ok in
  ok.

(** The arrays of the two helpers' frames. *)
Record MatchFrames : Type := mkFrames {
  priv_key1 : list byte;
  priv_key2 : list byte;
  pub_key1 : list byte;
  pub_key2 : list byte
}.

(** Check that two ECX key objects match for the components specified. *)
Definition wp_ecx_match (fr : MatchFrames) (ecx1 ecx2 : wp_Ecx) (selection : Z) : Z :=
  let ok := 1 in
  let ok := if negb wolfssl_prov_is_running then 0 else ok in
  let ok :=
    if nz ok && negb (selection =? 0)
    then Z.land ok (Z.b2z (keyType (data ecx1) =? keyType (data ecx2)))
    else ok in
  let ok :=
    if nz ok && nz (Z.land selection OSSL_KEYMGMT_SELECT_PRIVATE_KEY)
       && negb (nz (wp_ecx_match_priv_key (priv_key1 fr) (priv_key2 fr) ecx1 ecx2))
    then 0 else ok in
  let ok :=
    if nz ok && nz (Z.land selection OSSL_KEYMGMT_SELECT_PUBLIC_KEY)
       && negb (nz (wp_ecx_match_pub_key (pub_key1 fr) (pub_key2 fr) ecx1 ecx2))
    then 0 else ok in
  ok.

(** *** Import *)

(** Import the key into ECX key object from parameters. The result is the
    return code and the key object after the call. *)
Definition wp_ecx_import (ecx : option wp_Ecx) (selection : Z)
    (params : list OSSL_PARAM) : Z * option wp_Ecx :=
  let ok := 1 in
  let privData : option (list byte) := None in
  let pubData : option (list byte) := None in
  let len_ := 0 in
  let ok :=
    if negb wolfssl_prov_is_running || bool_decide (ecx = None :> option wp_Ecx)
    then 0 else ok in
  let ok :=
    if nz ok && (Z.land selection WP_ECX_POSSIBLE_SELECTIONS =? 0) then 0 else ok in
  let '(ok, privData, len_, ecx) :=
    if nz ok && nz (Z.land selection OSSL_KEYMGMT_SELECT_PRIVATE_KEY) then
      let '(r, privData, len_) :=
        wp_params_get_octet_string_ptr params OSSL_PKEY_PARAM_PRIV_KEY privData len_ in
      let ok := if r =? 0 then 0 else ok in
      match privData, ecx with
      | Some d, Some e =>
          if nz ok then
            let '(rc, k) :=
              importPriv (data e) d len_ (key e) EC25519_LITTLE_ENDIAN in
            let e := set_key k e in
            let ok := if nz rc then 0 else ok in
            let e := if nz ok then set_hasPub true (set_hasPriv true e) else e in
            (ok, privData, len_, Some e)
          else (ok, privData, len_, ecx)
      | _, _ => (ok, privData, len_, ecx)
      end
    else (ok, privData, len_, ecx) in
  let '(ok, pubData, len_, ecx) :=
    if nz ok && nz (Z.land selection OSSL_KEYMGMT_SELECT_PUBLIC_KEY) then
      let '(r, pubData, len_) :=
        wp_params_get_octet_string_ptr params OSSL_PKEY_PARAM_PUB_KEY pubData len_ in
      let ok := if r =? 0 then 0 else ok in
      match pubData, ecx with
      | Some d, Some e =>
          if nz ok then
            let '(rc, k) :=
              importPub (data e) d len_ (key e) EC25519_LITTLE_ENDIAN in
            let e := set_key k e in
            let ok := if nz rc then 0 else ok in
            let e := if nz ok then set_hasPub true e else e in
            (ok, pubData, len_, Some e)
          else (ok, pubData, len_, ecx)
      | _, _ => (ok, pubData, len_, ecx)
      end
    else (ok, pubData, len_, ecx) in
  let ok :=
    if nz ok && bool_decide (privData = None) && bool_decide (pubData = None)
    then 0 else ok in
  (ok, ecx).

(** *** Export *)

(** Get the size of allocated data needed for key pair. *)
Definition wp_ecx_export_keypair_alloc_size (ecx : wp_Ecx) (priv : Z) : Z :=
  let len_ := len (data ecx) in
  if nz priv then len_ + len (data ecx) else len_.

(** Put the ECX key pair data into the parameter. The result is the return
    code, the parameter array, [*pIdx], the data buffer and [*idx] after the
    call. An entry refers to the bytes at [data + *idx]; nothing written
    later reaches below that offset. *)
Definition wp_ecx_export_keypair (ecx : wp_Ecx) (params : list (option OSSL_PARAM))
    (pIdx : Z) (data_ : list byte) (idx : Z) (priv : Z)
    : Z * list (option OSSL_PARAM) * Z * list byte * Z :=
  let ok := 1 in
  let i := pIdx in
  let outLen := len (data ecx) in
  let '(rc, out, outLen) :=
    exportPub (data ecx) (key ecx) (buf_at idx data_) outLen EC25519_LITTLE_ENDIAN in
  let data_ := buf_put idx data_ out in
  let ok := if nz rc then 0 else ok in
  let '(params, i, idx) :=
    if nz ok then
      (<[Z.to_nat i := Some (wp_param_set_octet_string_ptr OSSL_PKEY_PARAM_PUB_KEY
                               (buf_at idx data_) outLen)]> params,
       i + 1, idx + outLen)
    else (params, i, idx) in
  let '(params, i, data_) :=
    if nz ok && nz priv then
      let outLen := len (data ecx) in
      let '(rc, out, outLen) :=
        exportPriv (data ecx) (key ecx) (buf_at idx data_) outLen in
      let data_ := buf_put idx data_ out in
      if nz ok then
        (<[Z.to_nat i := Some (wp_param_set_octet_string_ptr OSSL_PKEY_PARAM_PUB_KEY
                                 (buf_at idx data_) outLen)]> params,
         i + 1, data_)
      else (params, i, data_)
    else (params, i, data_) in
  (ok, params, i, data_, idx).

(** A call of a callback: it is logged with the parameters it received. *)
Definition call_cb (cb : list OSSL_PARAM → Z) (params : list OSSL_PARAM) : M Z :=
  run emit (EvCallback params);
  ret (cb params).

(** Export the ECX key. Key data placed in parameters and then passed to
    callback. *)
Definition wp_ecx_export (ecx : wp_Ecx) (selection : Z) (paramCb : list OSSL_PARAM → Z)
    : M Z :=
  let ok := 1 in
  let params : list (option OSSL_PARAM) := replicate 3 None in
  let paramsSz := 0 in
  let len_ := 0 in
  let expPriv := Z.b2z (nz (Z.land selection OSSL_KEYMGMT_SELECT_PRIVATE_KEY)) in
  do data_ <- OPENSSL_malloc (wp_ecx_export_keypair_alloc_size ecx expPriv);
  let ok := if bool_decide (data_ = None) then 0 else ok in
  let '(ok, params, paramsSz, data_, len_) :=
    match data_ with
    | Some d =>
        if nz ok then
          let '(r, params, paramsSz, d, len_) :=
            wp_ecx_export_keypair ecx params paramsSz d len_ expPriv in
          (if r =? 0 then 0 else ok, params, paramsSz, Some d, len_)
        else (ok, params, paramsSz, data_, len_)
    | None => (ok, params, paramsSz, data_, len_)
    end in
  do ok <- (if nz ok then call_cb paramCb (params_upto_end params) else ret ok);
  run OPENSSL_clear_free data_ len_;
  ret ok.

(** *** Generation context *)

Record wp_EcxGenCtx : Type := mkGenCtx {
  gen_rng : WC_RNG;
  gen_data : wp_EcxData;
  gen_provCtx : WOLFPROV_CTX;
  gen_selection : Z;
  (** Name of group. *)
  gen_name : string
}.

(** Sets the parameters into the ECX generation context object. *)
Definition wp_ecx_gen_set_params (ctx : wp_EcxGenCtx) (params : list OSSL_PARAM) : Z :=
  let ok := 1 in
  let name : option string := None in
  let '(r, name) :=
    wp_params_get_utf8_string_ptr params OSSL_PKEY_PARAM_GROUP_NAME name in
  let ok := if r =? 0 then 0 else ok in
  let ok :=
    match name with
    | Some n =>
        if nz ok && nz (XSTRNCMP n (gen_name ctx) (XSTRLEN n)) then 0 else ok
    | None => ok
    end in
  ok.

(** *** The four curves *)

Definition wc_curve25519_import_public_ex := wc_curve_import_public_ex wc_curve25519.
Definition wc_curve448_import_public_ex := wc_curve_import_public_ex wc_curve448.
Definition wc_curve25519_import_private_ex := wc_curve_import_private_ex wc_curve25519.
Definition wc_curve448_import_private_ex := wc_curve_import_private_ex wc_curve448.

(** Import the X25519 public key. OpenSSL masks off top bit of public key.
    A read of [in[CURVE25519_KEYSIZE - 1]] past the end of a shorter input
    is not modelled: it gives 0. *)
Definition wp_x25519_import_public (inb : list byte) (inLen : Z) (key_ : key_union)
    (endian : Z) : Z * key_union :=
  let last := Z.to_nat (CURVE25519_KEYSIZE - 1) in
  let inb :=
    if nz (byte_and (inb !!! last) 128) then
      let data_ := buf_read inb CURVE25519_KEYSIZE in
      <[last := byte_and (data_ !!! last) 127]> data_
    else inb in
  wc_curve25519_import_public_ex inb inLen key_ endian.

(** X25519 data and wolfSSL functions. *)
Definition x25519Data : wp_EcxData := {|
  keyType := WP_KEY_TYPE_X25519;
  bits := 255;
  len := CURVE25519_KEYSIZE;
  initKey := wc_curve_init wc_curve25519;
  freeKey := wc_curve_free wc_curve25519;
  makeKey := wc_curve_make_key wc_curve25519;
  importPub := wp_x25519_import_public;
  exportPub := wc_curve_export_public_ex wc_curve25519;
  importPriv := wc_curve25519_import_private_ex;
  exportPriv := wc_curve_export_private_raw wc_curve25519;
  checkPub := Some (wc_curve_check_public wc_curve25519);
  checkKey := None
|}.

(** X448 data and wolfSSL functions. *)
Definition x448Data : wp_EcxData := {|
  keyType := WP_KEY_TYPE_X448;
  bits := 448;
  len := CURVE448_KEY_SIZE;
  initKey := wc_curve_init wc_curve448;
  freeKey := wc_curve_free wc_curve448;
  makeKey := wc_curve_make_key wc_curve448;
  importPub := wc_curve448_import_public_ex;
  exportPub := wc_curve_export_public_ex wc_curve448;
  importPriv := wc_curve448_import_private_ex;
  exportPriv := wc_curve_export_private_raw wc_curve448;
  checkPub := Some (wc_curve_check_public wc_curve448);
  checkKey := None
|}.

(** The Ed25519 and Ed448 adapters differ in the primitives only. *)
Definition wp_ed_import_public (ed : wc_ed_api key_union WC_RNG) (inb : list byte)
    (inLen : Z) (key_ : key_union) (endian : Z) : Z * key_union :=
  wc_ed_import_public ed inb inLen key_.

Definition wp_ed_export_public (ed : wc_ed_api key_union WC_RNG) (key_ : key_union)
    (out : list byte) (outLen : Z) (endian : Z) : Z * list byte * Z :=
  if negb (wc_ed_pubKeySet ed key_) then
    let '(ret_, out) := wc_ed_make_public ed key_ out outLen in
    (ret_, out, outLen)
  else wc_ed_export_public ed key_ out outLen.

Definition wp_ed_import_private (ed : wc_ed_api key_union WC_RNG) (inb : list byte)
    (inLen : Z) (key_ : key_union) (endian : Z) : Z * key_union :=
  wc_ed_import_private_only ed inb inLen key_.

Definition wp_ed25519_import_public := wp_ed_import_public wc_ed25519.
Definition wp_ed25519_export_public := wp_ed_export_public wc_ed25519.
Definition wp_ed25519_import_private := wp_ed_import_private wc_ed25519.
Definition wp_ed448_import_public := wp_ed_import_public wc_ed448.
Definition wp_ed448_export_public := wp_ed_export_public wc_ed448.
Definition wp_ed448_import_private := wp_ed_import_private wc_ed448.

(** Ed25519 data and wolfSSL functions. *)
Definition ed25519Data : wp_EcxData := {|
  keyType := WP_KEY_TYPE_ED25519;
  bits := 255;
  len := ED25519_KEY_SIZE;
  initKey := wc_ed_init wc_ed25519;
  freeKey := wc_ed_free wc_ed25519;
  makeKey := wc_ed_make_key wc_ed25519;
  importPub := wp_ed25519_import_public;
  exportPub := wp_ed25519_export_public;
  importPriv := wp_ed25519_import_private;
  exportPriv := wc_ed_export_private_only wc_ed25519;
  checkPub := None;
  checkKey := Some (wc_ed_check_key wc_ed25519)
|}.

(** Ed448 data and wolfSSL functions. *)
Definition ed448Data : wp_EcxData := {|
  keyType := WP_KEY_TYPE_ED448;
  bits := 448;
  len := ED448_KEY_SIZE;
  initKey := wc_ed_init wc_ed448;
  freeKey := wc_ed_free wc_ed448;
  makeKey := wc_ed_make_key wc_ed448;
  importPub := wp_ed448_import_public;
  exportPub := wp_ed448_export_public;
  importPriv := wp_ed448_import_private;
  exportPriv := wc_ed_export_private_only wc_ed448;
  checkPub := None;
  checkKey := Some (wc_ed_check_key wc_ed448)
|}.

Definition wp_x25519_new (provCtx : WOLFPROV_CTX) : M (option loc) :=
  wp_ecx_new provCtx x25519Data.
Definition wp_x448_new (provCtx : WOLFPROV_CTX) : M (option loc) :=
  wp_ecx_new provCtx x448Data.
Definition wp_ed25519_new (provCtx : WOLFPROV_CTX) : M (option loc) :=
  wp_ecx_new provCtx ed25519Data.
Definition wp_ed448_new (provCtx : WOLFPROV_CTX) : M (option loc) :=
  wp_ecx_new provCtx ed448Data.

(** *** Decoding *)

(** Type for function that decodes a key into a wolfSSL key. *)
Definition WP_ECX_DECODE : Type := list byte → Z → key_union → Z → Z * key_union.

(** Encode/decode ECX public/private key; there is no encoder yet. *)
Record wp_EcxEncDecCtx : Type := mkEncDecCtx {
  decode : WP_ECX_DECODE;
  dec_provCtx : WOLFPROV_CTX;
  dec_selection : Z;
  dec_keyType : Z;
  format : Z;
  encoder : Z
}.

(** Create a new ECX encoder/decoder context. *)
Definition wp_ecx_enc_dec_new (provCtx : WOLFPROV_CTX) (keyType_ format_ : Z)
    (decode_ : WP_ECX_DECODE) : M (option wp_EcxEncDecCtx) :=
  do rc <- (if wolfssl_prov_is_running then next_fate else ret 1);
  if rc =? 0 then ret (Some (mkEncDecCtx decode_ provCtx 0 keyType_ format_ 0))
  else ret None.

(** Construct parameters from ECX key and pass off to callback. *)
Definition wp_ecx_dec_send_params (ecx : loc) (dataType : option string)
    (dataCb : list OSSL_PARAM → Z) : M Z :=
  let ok := 1 in
  let object_type := OSSL_OBJECT_PKEY in
  let params :=
    [ OSSL_PARAM_construct_int OSSL_OBJECT_PARAM_TYPE object_type;
      OSSL_PARAM_construct_utf8_string OSSL_OBJECT_PARAM_DATA_TYPE dataType 0;
      OSSL_PARAM_construct_octet_string_ref OSSL_OBJECT_PARAM_REFERENCE ecx ] in
  do r <- call_cb dataCb params;
  ret (if r =? 0 then 0 else ok).

(** Decode the data in the core BIO. The result is the return code and the
    context after the call. *)
Definition wp_ecx_dec_decode (ctx : wp_EcxEncDecCtx) (cin : OSSL_CORE_BIO)
    (selection : Z) (dataCb : list OSSL_PARAM → Z) : M (Z * wp_EcxEncDecCtx) :=
  let ok := 1 in
  let decoded := 1 in
  let ctx := mkEncDecCtx (decode ctx) (dec_provCtx ctx) selection (dec_keyType ctx)
               (format ctx) (encoder ctx) in
  do made <-
    (if dec_keyType ctx =? WP_KEY_TYPE_X25519 then
       do ecx <- wp_x25519_new (dec_provCtx ctx); ret (ecx, Some "X25519"%string)
     else if dec_keyType ctx =? WP_KEY_TYPE_ED25519 then
       do ecx <- wp_ed25519_new (dec_provCtx ctx); ret (ecx, Some "ED25519"%string)
     else if dec_keyType ctx =? WP_KEY_TYPE_X448 then
       do ecx <- wp_x448_new (dec_provCtx ctx); ret (ecx, Some "X448"%string)
     else if dec_keyType ctx =? WP_KEY_TYPE_ED448 then
       do ecx <- wp_ed448_new (dec_provCtx ctx); ret (ecx, Some "ED448"%string)
     else ret (None, None));
  let '(ecx, dataType) := made in
  let ok := if bool_decide (ecx = None) then 0 else ok in
  let '(ok, data_, len_) :=
    if nz ok then wp_read_der_bio cin else (ok, None, 0) in
  do flags <-
    (match ecx, data_ with
     | Some p, Some d =>
         if nz ok then
           do e <- deref p;
           let '(rc, k) := decode ctx d 0 (key e) len_ in
           run assign p (set_key k e);
           ret (if nz rc then (0, 0) else (ok, decoded))
         else ret (ok, decoded)
     | _, _ => ret (ok, decoded)
     end);
  let '(ok, decoded) := flags in
  run (match ecx with
       | Some p =>
           run (if nz ok && (format ctx =? WP_ENC_FORMAT_SPKI) then
                  do e <- deref p; assign p (set_hasPub true e)
                else ret tt);
           if nz ok && (format ctx =? WP_ENC_FORMAT_PKI) then
             do e <- deref p; assign p (set_hasPriv true (set_hasPub true e))
           else ret tt
       | None => ret tt
       end);
  run OPENSSL_clear_free data_ len_;
  do ok <-
    (match ecx with
     | Some p =>
         if nz ok then
           do r <- wp_ecx_dec_send_params p dataType dataCb;
           ret (if r =? 0 then 0 else ok)
         else ret ok
     | None => ret ok
     end);
  if ok =? 0 then
    run wp_ecx_free ecx;
    ret (if decoded =? 0 then 1 else ok, ctx)
  else ret (ok, ctx).

(** The decoders of the key exchange curves load the trailing bytes of the
    input a second time, little-endian. *)
Definition wp_x25519_pub_deocde : WP_ECX_DECODE := λ input inOutIdx key_ inSz,
  let '(ret_, key_) := wc_CurvePublicKeyDecode wc_curve25519 input inOutIdx key_ inSz in
  if ret_ =? 0 then
    wc_curve25519_import_public_ex (buf_at (inSz - CURVE25519_KEYSIZE) input)
      CURVE25519_KEYSIZE key_ EC25519_LITTLE_ENDIAN
  else (ret_, key_).

Definition wp_x25519_priv_deocde : WP_ECX_DECODE := λ input inOutIdx key_ inSz,
  let '(ret_, key_) := wc_CurvePrivateKeyDecode wc_curve25519 input inOutIdx key_ inSz in
  if ret_ =? 0 then
    wc_curve25519_import_private_ex (buf_at (inSz - CURVE25519_KEYSIZE) input)
      CURVE25519_KEYSIZE key_ EC25519_LITTLE_ENDIAN
  else (ret_, key_).

Definition wp_x448_pub_deocde : WP_ECX_DECODE := λ input inOutIdx key_ inSz,
  let '(ret_, key_) := wc_CurvePublicKeyDecode wc_curve448 input inOutIdx key_ inSz in
  if ret_ =? 0 then
    wc_curve448_import_public_ex (buf_at (inSz - CURVE448_KEY_SIZE) input)
      CURVE448_KEY_SIZE key_ EC448_LITTLE_ENDIAN
  else (ret_, key_).

Definition wp_x448_priv_deocde : WP_ECX_DECODE := λ input inOutIdx key_ inSz,
  let '(ret_, key_) := wc_CurvePrivateKeyDecode wc_curve448 input inOutIdx key_ inSz in
  if ret_ =? 0 then
    wc_curve448_import_private_ex (buf_at (inSz - CURVE448_KEY_SIZE) input)
      CURVE448_KEY_SIZE key_ EC448_LITTLE_ENDIAN
  else (ret_, key_).

Definition wp_x25519_spki_dec_new (provCtx : WOLFPROV_CTX) :=
  wp_ecx_enc_dec_new provCtx WP_KEY_TYPE_X25519 WP_ENC_FORMAT_SPKI wp_x25519_pub_deocde.
Definition wp_x25519_pki_dec_new (provCtx : WOLFPROV_CTX) :=
  wp_ecx_enc_dec_new provCtx WP_KEY_TYPE_X25519 WP_ENC_FORMAT_PKI wp_x25519_priv_deocde.
Definition wp_ed25519_spki_dec_new (provCtx : WOLFPROV_CTX) :=
  wp_ecx_enc_dec_new provCtx WP_KEY_TYPE_ED25519 WP_ENC_FORMAT_SPKI
    (wc_EdPublicKeyDecode wc_ed25519).
Definition wp_ed25519_pki_dec_new (provCtx : WOLFPROV_CTX) :=
  wp_ecx_enc_dec_new provCtx WP_KEY_TYPE_ED25519 WP_ENC_FORMAT_PKI
    (wc_EdPrivateKeyDecode wc_ed25519).
Definition wp_x448_spki_dec_new (provCtx : WOLFPROV_CTX) :=
  wp_ecx_enc_dec_new provCtx WP_KEY_TYPE_X448 WP_ENC_FORMAT_SPKI wp_x448_pub_deocde.
Definition wp_x448_pki_dec_new (provCtx : WOLFPROV_CTX) :=
  wp_ecx_enc_dec_new provCtx WP_KEY_TYPE_X448 WP_ENC_FORMAT_PKI wp_x448_priv_deocde.
Definition wp_ed448_spki_dec_new (provCtx : WOLFPROV_CTX) :=
  wp_ecx_enc_dec_new provCtx WP_KEY_TYPE_ED448 WP_ENC_FORMAT_SPKI
    (wc_EdPublicKeyDecode wc_ed448).
Definition wp_ed448_pki_dec_new (provCtx : WOLFPROV_CTX) :=
  wp_ecx_enc_dec_new provCtx WP_KEY_TYPE_ED448 WP_ENC_FORMAT_PKI
    (wc_EdPrivateKeyDecode wc_ed448).

(** *** Sequences of calls *)

(** [n] calls of the same function, one after the other. *)
Fixpoint times {A : Type} (n : nat) (m : M A) : M unit :=
  match n with
  | O => ret tt
  | S n' => run m; times n' m
  end.

(** [n] share attempts, then [k] releases, of the same key object. *)
Definition share_then_release (ecx : loc) (n k : nat) : M unit :=
  run times n (wp_ecx_up_ref ecx);
  times k (wp_ecx_free (Some ecx)).

(** How often an event occurs in a log. *)
Definition is_freeKey (p : loc) (ev : Event) : bool :=
  match ev with
  | EvFreeKey q => bool_decide (q = p)
  | _ => false
  end.
Definition is_free (p : loc) (ev : Event) : bool :=
  match ev with
  | EvFree q => bool_decide (q = p)
  | _ => false
  end.
Definition is_callback (ev : Event) : bool :=
  match ev with
  | EvCallback _ => true
  | _ => false
  end.
Definition count (f : Event → bool) (l : list Event) : nat :=
  length (List.filter f l).


(** *** Exported representations

    What an export hands to its caller when it succeeds: the first
    [*outLen] bytes of the buffer, and that length. *)

Definition exported_priv (buf : list byte) (e : wp_Ecx) : option (list byte * Z) :=
  let '(rc, out, n) := exportPriv (data e) (key e) buf (len (data e)) in
  if rc =? 0 then Some (buf_read out n, n) else None.

Definition exported_pub (buf : list byte) (e : wp_Ecx) : option (list byte * Z) :=
  let '(rc, out, n) :=
    exportPub (data e) (key e) buf (len (data e)) EC25519_LITTLE_ENDIAN in
  if rc =? 0 then Some (buf_read out n, n) else None.

(** Two exported representations agree: same length, same bytes. *)
Definition same_export (x y : option (list byte * Z)) : bool :=
  match x, y with
  | Some (bx, nx), Some (by_, ny) => (nx =? ny) && bytes_eqb bx by_
  | _, _ => false
  end.

(** The exports of a key do not depend on what the buffer held before. *)
Definition export_determined (e : wp_Ecx) : Prop :=
  ∀ b1 b2, exported_priv b1 e = exported_priv b2 e ∧
           exported_pub b1 e = exported_pub b2 e.

(** An update that keeps every name and every entry not named [k]. *)
Definition updates_only (k : string) (params params' : list OSSL_PARAM) : Prop :=
  map p_key params' = map p_key params ∧
  ∀ i p, params !! i = Some p → p_key p ≠ k → params' !! i = Some p.

(** The octet string a parameter array holds under a name, with its
    length, when there is one. *)
Definition octet_of (params : list OSSL_PARAM) (key_ : string)
    : option (list byte * Z) :=
  match wp_params_get_octet_string_ptr params key_ None 0 with
  | (_, Some d, n) => Some (d, n)
  | _ => None
  end.

(** The descriptor and the type tag the decoder uses for a key type. *)
Definition decoder_target (kt : Z) : option (wp_EcxData * string) :=
  if kt =? WP_KEY_TYPE_X25519 then Some (x25519Data, "X25519"%string)
  else if kt =? WP_KEY_TYPE_ED25519 then Some (ed25519Data, "ED25519"%string)
  else if kt =? WP_KEY_TYPE_X448 then Some (x448Data, "X448"%string)
  else if kt =? WP_KEY_TYPE_ED448 then Some (ed448Data, "ED448"%string)
  else None.

(** The parameters the decoder hands to the data callback. *)
Definition decoded_params (ecx : loc) (tag : string) : list OSSL_PARAM :=
  [ OSSL_PARAM_construct_int OSSL_OBJECT_PARAM_TYPE OSSL_OBJECT_PKEY;
    OSSL_PARAM_construct_utf8_string OSSL_OBJECT_PARAM_DATA_TYPE (Some tag) 0;
    OSSL_PARAM_construct_octet_string_ref OSSL_OBJECT_PARAM_REFERENCE ecx ].

(** The same bytes with the top bit of the last byte cleared. *)
Definition clear_top_bit (inb : list byte) : list byte :=
  let last := Nat.pred (length inb) in
  <[last := byte_and (inb !!! last) 127]> inb.

(** A UTF-8 string entry, as a caller passes a group name. *)
Definition group_name_param (name : string) : OSSL_PARAM :=
  OSSL_PARAM_construct_utf8_string OSSL_PKEY_PARAM_GROUP_NAME (Some name) 0.


(** *** Validation

    [key] is an automatic array without an initializer: what it holds before
    the export is an argument. A call through a function pointer that the
    descriptor leaves NULL goes wrong: [None]. *)

(** Validate the ECX public key - X25519 and X448 only. *)
Definition wp_ecx_validate_pub_key (key_ : list byte) (ecx : wp_Ecx) : option Z :=
  let ok := 1 in
  let len_ := len (data ecx) in
  let ok := Z.land ok (Z.b2z (hasPub ecx)) in
  let '(ok, key_, len_) :=
    if nz ok then
      let '(rc, key_, len_) :=
        exportPub (data ecx) (key ecx) key_ len_ EC25519_LITTLE_ENDIAN in
      (if nz rc then 0 else ok, key_, len_)
    else (ok, key_, len_) in
  if nz ok then
    match checkPub (data ecx) with
    | Some check =>
        let rc := check key_ len_ EC25519_LITTLE_ENDIAN in
        Some (if nz rc then 0 else ok)
    | None => None
    end
  else Some ok.

(** Validate the ECX key - X25519 and X448 only. *)
Definition wp_ecx_x_validate (key_ : list byte) (ecx : wp_Ecx) (selection checkType : Z)
    : option Z :=
  let ok := 1 in
  match
    (if nz ok && nz (Z.land selection OSSL_KEYMGMT_SELECT_PUBLIC_KEY) then
       match wp_ecx_validate_pub_key key_ ecx with
       | Some r => Some (if r =? 0 then 0 else ok)
       | None => None
       end
     else Some ok)
  with
  | Some ok =>
      Some (if nz ok && nz (Z.land selection OSSL_KEYMGMT_SELECT_PRIVATE_KEY)
            then Z.land ok (Z.b2z (hasPriv ecx))
            else ok)
  | None => None
  end.

(** Validate the ECX key - Ed25519 and Ed448 only. *)
Definition wp_ecx_ed_validate (ecx : wp_Ecx) (selection checkType : Z) : option Z :=
  let ok := 1 in
  let ok :=
    if nz ok && nz (Z.land selection OSSL_KEYMGMT_SELECT_PUBLIC_KEY)
    then Z.land ok (Z.b2z (hasPub ecx)) else ok in
  let ok :=
    if nz ok && nz (Z.land selection OSSL_KEYMGMT_SELECT_PRIVATE_KEY)
    then Z.land ok (Z.b2z (hasPriv ecx)) else ok in
  if nz ok && (Z.land selection OSSL_KEYMGMT_SELECT_KEYPAIR =? OSSL_KEYMGMT_SELECT_KEYPAIR)
  then
    match checkKey (data ecx) with
    | Some check =>
        let rc := check (key ecx) in
        Some (if nz rc then 0 else ok)
    | None => None
    end
  else Some ok.

(** *** The schemas of import and export *)

(** ECX private key parameters. *)
Definition WP_ECX_PRIVATE_KEY_PARAMS : OSSL_PARAM :=
  mkParam OSSL_PKEY_PARAM_PRIV_KEY OSSL_PARAM_UNSIGNED_INTEGER None 0
    OSSL_PARAM_UNMODIFIED.

(** ECX public key parameters. *)
Definition WP_ECX_PUBLIC_KEY_PARAMS : OSSL_PARAM :=
  mkParam OSSL_PKEY_PARAM_PUB_KEY OSSL_PARAM_OCTET_STRING None 0
    OSSL_PARAM_UNMODIFIED.

(** Table of key parameters for difference selections; [None] is
    [OSSL_PARAM_END]. *)
Definition wp_ecx_key_params : list (option OSSL_PARAM) :=
  [ (* 0 *) None;
    (* 1 *) Some WP_ECX_PRIVATE_KEY_PARAMS; None;
    (* 3 *) Some WP_ECX_PUBLIC_KEY_PARAMS; None;
    (* 5 *) Some WP_ECX_PRIVATE_KEY_PARAMS; Some WP_ECX_PUBLIC_KEY_PARAMS; None ].

(** Get the key parameters for a selection: the table from [idx] on. *)
Definition wp_ecx_key_types (selection : Z) : list (option OSSL_PARAM) :=
  let idx := 0 in
  let extra := 0 in
  let '(idx, extra) :=
    if nz (Z.land selection OSSL_KEYMGMT_SELECT_PUBLIC_KEY)
    then (idx + 3, extra + 1) else (idx, extra) in
  let idx :=
    if nz (Z.land selection OSSL_KEYMGMT_SELECT_PRIVATE_KEY)
    then idx + (1 + extra) else idx in
  drop (Z.to_nat idx) wp_ecx_key_params.

Definition wp_ecx_import_types (selection : Z) : list (option OSSL_PARAM) :=
  wp_ecx_key_types selection.

Definition wp_ecx_export_types (selection : Z) : list (option OSSL_PARAM) :=
  wp_ecx_key_types selection.

(** *** Generation *)

(** Generate ECX key pair using wolfSSL. The progress callback is unused;
    what the generator does to the random number generator is not
    followed. *)
Definition wp_ecx_gen (ctx : wp_EcxGenCtx) : M (option loc) :=
  let keyPair := nz (Z.land (gen_selection ctx) OSSL_KEYMGMT_SELECT_KEYPAIR) in
  do ecx <- wp_ecx_new (gen_provCtx ctx) (gen_data ctx);
  match ecx with
  | Some p =>
      if keyPair then
        do e <- deref p;
        let '(rc, k) :=
          makeKey (gen_data ctx) (gen_rng ctx) (len (gen_data ctx)) (key e) in
        run assign p (set_key k e);
        if nz rc then
          run wp_ecx_free (Some p); ret None
        else
          do e <- deref p;
          run assign p (set_hasPriv true (set_hasPub true e));
          ret (Some p)
      else ret ecx
  | None => ret ecx
  end.

(** *** What the decoders handle, and the export of a decoded object *)

(** Export the ECX key object. *)
Definition wp_ecx_export_object (ctx : wp_EcxEncDecCtx) (ecx : wp_Ecx)
    (exportCb : list OSSL_PARAM → Z) : M Z :=
  wp_ecx_export ecx (dec_selection ctx) exportCb.

(** Return whether the SPKI decoder/encoder handles this part of the key. *)
Definition wp_ecx_spki_dec_does_selection (selection : Z) : Z :=
  if selection =? 0 then 1
  else Z.b2z (nz (Z.land selection OSSL_KEYMGMT_SELECT_PUBLIC_KEY)).

(** Return whether the PKI decoder/encoder handles this part of the key. *)
Definition wp_ecx_pki_dec_does_selection (selection : Z) : Z :=
  if selection =? 0 then 1
  else Z.b2z (nz (Z.land selection OSSL_KEYMGMT_SELECT_PRIVATE_KEY)).

End Ecx.

(** ** The key manager on the reference primitives *)

(** [n] zero bytes. *)
Definition zeros (n : nat) : list byte := replicate n 0.

(** An empty store: nothing allocated, every system call succeeds. *)
Definition ref_state : @State RefCrypt := mkState ∅ [] [] [].

(** An X25519 key object holding both components. *)
Definition ref_full_key : @wp_Ecx RefCrypt :=
  @mkEcx RefCrypt (mkRefKey (replicate 32 7) true (replicate 32 9) true)
    x25519Data 1 1%positive 0 true true.

(** An X25519 key object holding nothing yet. *)
Definition ref_empty_key : @wp_Ecx RefCrypt :=
  @mkEcx RefCrypt key_zero x25519Data 1 1%positive 0 false false.

(** The first object allocated from the empty store. *)
Definition ref_first_state : @State RefCrypt :=
  mkState (<[1%positive := ref_empty_key]> ∅) [] [] [].

(** An octet-string entry holding [b]. *)
Definition octet_param (name : string) (b : list byte) : OSSL_PARAM :=
  mkParam name OSSL_PARAM_OCTET_STRING (Some (DataOctet b)) (Z.of_nat (length b))
    OSSL_PARAM_UNMODIFIED.

(** A store holding one fully populated key. *)
Definition ref_full_state : @State RefCrypt :=
  mkState (<[1%positive := ref_full_key]> ∅) [] [] [].

(** Another X25519 key: same private key, another public key. *)
Definition ref_other_key : @wp_Ecx RefCrypt :=
  @mkEcx RefCrypt (mkRefKey (replicate 32 8) true (replicate 32 9) true)
    x25519Data 1 1%positive 0 true true.

(** Stack frames whose arrays happen to hold zeros. *)
Definition ref_frames : MatchFrames :=
  mkFrames (zeros 57) (zeros 57) (zeros 57) (zeros 57).

(** A request for the bits and the security bits, with buffers. *)
Definition ref_secbits_params : list OSSL_PARAM :=
  [ mkParam OSSL_PKEY_PARAM_BITS OSSL_PARAM_INTEGER (Some (DataInt 0)) 4
      OSSL_PARAM_UNMODIFIED;
    mkParam OSSL_PKEY_PARAM_SECURITY_BITS OSSL_PARAM_INTEGER (Some (DataInt 0)) 4
      OSSL_PARAM_UNMODIFIED ].

(** The X25519 public-key decoder. *)
Definition ref_spki_ctx : @wp_EcxEncDecCtx RefCrypt :=
  mkEncDecCtx wp_x25519_pub_deocde 1%positive 0 WP_KEY_TYPE_X25519 WP_ENC_FORMAT_SPKI 0.

(** A key whose private part cannot be exported: the public part is there,
    the private part is not. *)
Definition ref_public_only_key : @wp_Ecx RefCrypt :=
  @mkEcx RefCrypt (mkRefKey (replicate 32 7) true [] false)
    x25519Data 1 1%positive 0 true false.

(** An empty store whose fresh memory holds zeros. *)
Definition ref_malloc_state : @State RefCrypt := mkState ∅ [] (zeros 64) [].


(** An X448 public key with the top bit of its last byte set. *)
Definition ref_x448_top_set : list byte := zeros 55 ++ [128].

(** An X25519 public key with the top bit of its last byte set. *)
Definition ref_x25519_top_set : list byte := zeros 31 ++ [255].

(** A store holding one fully populated key whose lock cannot be taken. *)
Definition ref_locked_state : @State RefCrypt :=
  mkState (<[1%positive := ref_full_key]> ∅) [-1] [] [].

(** The duplicate of [ref_full_key], and the store after duplicating it. *)
Definition ref_dup_key : @wp_Ecx RefCrypt :=
  @mkEcx RefCrypt (mkRefKey (replicate 32 7) true (replicate 32 9) true)
    x25519Data 1 1%positive 0 true true.

Definition ref_dup_state : @State RefCrypt :=
  mkState (<[2%positive := ref_dup_key]> (<[1%positive := ref_full_key]> ∅)) [] [] [].

(** An Ed25519 key object holding both components. *)
Definition ref_ed_key : @wp_Ecx RefCrypt :=
  @mkEcx RefCrypt (mkRefKey (replicate 32 7) true (replicate 32 9) true)
    ed25519Data 1 1%positive 0 true true.

(** A request for the maximum size and the bits, with buffers. *)
Definition ref_size_params : list OSSL_PARAM :=
  [ mkParam OSSL_PKEY_PARAM_MAX_SIZE OSSL_PARAM_INTEGER (Some (DataInt 0)) 4
      OSSL_PARAM_UNMODIFIED;
    mkParam OSSL_PKEY_PARAM_BITS OSSL_PARAM_INTEGER (Some (DataInt 0)) 4
      OSSL_PARAM_UNMODIFIED ].

(** * Properties *)

Section Properties.
Context `{WC : WolfCrypt} `{PV : Provider}.

(** ** Reference counting and life cycle *)

Lemma wrap_int_id z : - 2 ^ 31 ≤ z < 2 ^ 31 → wrap_int z = z.
Proof. intros. unfold wrap_int. rewrite Z.mod_small; lia. Qed.

(** Open the state-passing operations of a run. *)
Ltac unfold_m :=
  unfold wc_LockMutex, wc_UnLockMutex, wc_InitMutex, wc_FreeMutex, call_freeKey,
    OPENSSL_free, OPENSSL_zalloc, zeroed_block, OPENSSL_malloc, OPENSSL_clear_free,
    call_cb, bind, deref, next_fate, assign, emit, ret; simpl.

(** Resolve the lookups of a run against what is known of the heap. *)
Ltac heap_steps :=
  repeat (first [ progress rewrite lookup_insert_eq
                | progress rewrite lookup_delete_eq
                | match goal with
                  | H : heap _ !! _ = _ |- _ => progress rewrite H
                  | H : _ !! _ = _ |- _ => progress rewrite H
                  end ]; simpl).

Lemma up_ref_step p e s :
  heap s !! p = Some e → 0 ≤ hd 0 (fates s) →
  wp_ecx_up_ref p s =
    Some (1, mkState (<[p := set_refCnt (wrap_int (refCnt e + 1)) e]> (heap s))
               (tail (fates s)) (junk s) (log s)).
Proof.
  intros Hp Hrc. unfold wp_ecx_up_ref. unfold_m. heap_steps.
  destruct (Z.ltb_spec (hd 0 (fates s)) 0); [lia|]. simpl. heap_steps.
  reflexivity.
Qed.

(** A share attempt whose lock fails returns 0 and leaves the count alone. *)
Lemma up_ref_lock_failure p e s :
  heap s !! p = Some e → hd 0 (fates s) < 0 →
  wp_ecx_up_ref p s =
    Some (0, mkState (heap s) (tail (fates s)) (junk s) (log s)).
Proof.
  intros Hp Hrc. unfold wp_ecx_up_ref. unfold_m. heap_steps.
  destruct (Z.ltb_spec (hd 0 (fates s)) 0); [reflexivity|lia].
Qed.

Lemma free_step_keep p e s :
  heap s !! p = Some e → wrap_int (refCnt e - 1) ≠ 0 →
  wp_ecx_free (Some p) s =
    Some (tt, mkState (<[p := set_refCnt (wrap_int (refCnt e - 1)) e]> (heap s))
                (tail (fates s)) (junk s) (log s)).
Proof.
  intros Hp Hc. unfold wp_ecx_free. unfold_m. heap_steps.
  destruct (Z.eqb_spec (wrap_int (refCnt e - 1)) 0); [done|].
  destruct (hd 0 (fates s) =? 0); simpl; heap_steps; reflexivity.
Qed.

Lemma free_step_last p e s :
  heap s !! p = Some e → wrap_int (refCnt e - 1) = 0 →
  ∃ h, wp_ecx_free (Some p) s =
    Some (tt, mkState h (tail (fates s)) (junk s)
                (log s ++ [EvFreeMutex p; EvFreeKey p; EvFree p]))
    ∧ h !! p = None ∧ ∀ q, q ≠ p → h !! q = heap s !! q.
Proof.
  intros Hp Hc. unfold wp_ecx_free. unfold_m. heap_steps. rewrite Hc. simpl.
  eexists. split.
  - destruct (hd 0 (fates s) =? 0); simpl; heap_steps; 
      rewrite <- !app_assoc; simpl; reflexivity.
  - split; [apply lookup_delete_eq|].
    intros q Hq. rewrite lookup_delete_ne by done.
    rewrite !lookup_insert_ne by done. reflexivity.
Qed.

Lemma fresh_not_live (h : gmap loc wp_Ecx) : h !! fresh (dom h) = None.
Proof. apply not_elem_of_dom. apply is_fresh. Qed.

(** What [wp_ecx_new] returns when it returns an object. *)
Lemma wp_ecx_new_some pc d s0 p s1 :
  wp_ecx_new pc d s0 = Some (Some p, s1) →
  heap s0 !! p = None ∧
  heap s1 = <[p := mkEcx (initKey d key_zero).2 d 1 pc 0 false false]> (heap s0) ∧
  (initKey d key_zero).1 = 0 ∧
  log s1 = log s0 ∧ junk s1 = junk s0 ∧ fates s1 = tail (tail (fates s0)).
Proof.
  unfold wp_ecx_new. unfold_m.
  destruct wolfssl_prov_is_running; simpl; [|discriminate].
  destruct (hd 0 (fates s0) =? 0); simpl; [|discriminate].
  heap_steps. destruct (initKey d key_zero) as [rc k] eqn:Hi. simpl. heap_steps.
  destruct (Z.eqb_spec rc 0) as [->|Hrc]; simpl; heap_steps.
  - destruct (hd 0 (tail (fates s0)) =? 0); simpl; heap_steps.
    + intros [= <- <-]. simpl. rewrite !insert_insert_eq.
      split; [apply fresh_not_live|]. done.
    + discriminate.
  - discriminate.
Qed.

Lemma up_refs_run n : ∀ p e s,
  heap s !! p = Some e →
  Forall (λ rc, 0 ≤ rc) (take n (fates s)) →
  0 ≤ refCnt e → refCnt e + Z.of_nat n ≤ INT_MAX →
  ∃ s', times n (wp_ecx_up_ref p) s = Some (tt, s') ∧
        heap s' !! p = Some (set_refCnt (refCnt e + Z.of_nat n) e) ∧
        fates s' = drop n (fates s) ∧ log s' = log s.
Proof.
  induction n as [|n IH]; intros p e s Hp Hf H0 Hmax.
  - exists s. simpl. unfold ret. rewrite Z.add_0_r, drop_0.
    destruct e; simpl in *. done.
  - cbn [times]. unfold bind.
    assert (Hhd : 0 ≤ hd 0 (fates s)).
    { destruct (fates s); simpl in *; [lia|]. by inversion Hf. }
    rewrite (up_ref_step p e s Hp Hhd).
    set (s1 := mkState _ _ _ _).
    destruct (IH p (set_refCnt (wrap_int (refCnt e + 1)) e) s1) as (s' & Hrun & Hh & Hfa & Hl).
    + subst s1. simpl. apply lookup_insert_eq.
    + subst s1. simpl. destruct (fates s); simpl in *; [by rewrite take_nil|].
      by inversion Hf.
    + simpl. rewrite wrap_int_id; unfold INT_MAX in *; lia.
    + simpl. rewrite wrap_int_id; unfold INT_MAX in *; lia.
    + exists s'. split; [done|]. split; [|split].
      * rewrite Hh. simpl. rewrite wrap_int_id by (unfold INT_MAX in *; lia).
        unfold set_refCnt. simpl. f_equal. f_equal. lia.
      * rewrite Hfa. subst s1. simpl. destruct (fates s); simpl; [by rewrite drop_nil|done].
      * rewrite Hl. done.
Qed.

Lemma frees_keep k : ∀ p e s,
  heap s !! p = Some e →
  Z.of_nat k < refCnt e → refCnt e ≤ INT_MAX →
  ∃ s', times k (wp_ecx_free (Some p)) s = Some (tt, s') ∧
        heap s' !! p = Some (set_refCnt (refCnt e - Z.of_nat k) e) ∧
        fates s' = drop k (fates s) ∧ log s' = log s.
Proof.
  induction k as [|k IH]; intros p e s Hp Hk Hmax.
  - exists s. simpl. unfold ret. rewrite Z.sub_0_r, drop_0.
    destruct e; simpl in *. done.
  - cbn [times]. unfold bind.
    assert (Hw : wrap_int (refCnt e - 1) = refCnt e - 1)
      by (apply wrap_int_id; unfold INT_MAX in *; lia).
    rewrite (free_step_keep p e s Hp) by lia.
    set (s1 := mkState _ _ _ _).
    destruct (IH p (set_refCnt (wrap_int (refCnt e - 1)) e) s1) as (s' & Hrun & Hh & Hfa & Hl).
    + subst s1. simpl. apply lookup_insert_eq.
    + simpl. lia.
    + simpl. lia.
    + exists s'. split; [done|]. split; [|split].
      * rewrite Hh. simpl. rewrite Hw. unfold set_refCnt. simpl. f_equal. f_equal. lia.
      * rewrite Hfa. subst s1. simpl. destruct (fates s); simpl; [by rewrite drop_nil|done].
      * rewrite Hl. done.
Qed.

Lemma times_S_last {A} (m : M A) n s :
  times (S n) m s = bind (times n m) (λ _, bind m (λ _, ret tt)) s.
Proof.
  revert s. induction n as [|n IH]; intros s.
  - simpl. unfold bind, ret. destruct (m s) as [[a s']|]; reflexivity.
  - change (times (S (S n)) m s) with (bind m (λ _, times (S n) m) s).
    unfold bind at 1. change (times (S n) m) with (bind m (λ _, times n m)) at 2.
    unfold bind at 1 2. destruct (m s) as [[a s']|]; [|reflexivity].
    rewrite IH. reflexivity.
Qed.

(** C1. For every N >= 1 within the range of the [int] counter: from a key
    object returned by [wp_ecx_new] (reference count 1), N-1 successful
    calls of [wp_ecx_up_ref] followed by N calls of [wp_ecx_free] run
    without touching a dead object; after any k < N of the releases the
    object is still live and nothing was released; the N-th release frees
    the mutex and the key material and deallocates the object, once. *)
Theorem C1_destroyed_exactly_at_last_release (N : nat) pc d s0 p s1 :
  (1 ≤ N)%nat → Z.of_nat N ≤ INT_MAX →
  wp_ecx_new pc d s0 = Some (Some p, s1) →
  Forall (λ rc, 0 ≤ rc) (take (N - 1) (fates s1)) →
  (∀ k, (k < N)%nat →
     ∃ s, share_then_release p (N - 1) k s1 = Some (tt, s) ∧
          is_Some (heap s !! p) ∧ log s = log s1) ∧
  (∃ s, share_then_release p (N - 1) N s1 = Some (tt, s) ∧
        heap s !! p = None ∧
        log s = log s1 ++ [EvFreeMutex p; EvFreeKey p; EvFree p] ∧
        count (is_freeKey p) (log s) = S (count (is_freeKey p) (log s1)) ∧
        count (is_free p) (log s) = S (count (is_free p) (log s1))).
Proof.
  intros HN Hmax Hnew Hlocks.
  destruct (wp_ecx_new_some _ _ _ _ _ Hnew) as (_ & Hh & _ & _ & _ & _).
  set (e := mkEcx (initKey d key_zero).2 d 1 pc 0 false false) in Hh.
  assert (Hp : heap s1 !! p = Some e) by (rewrite Hh; apply lookup_insert_eq).
  destruct (up_refs_run (N - 1) p e s1 Hp Hlocks) as (s2 & Hup & Hh2 & Hf2 & Hl2).
  { simpl. lia. } { simpl. lia. }
  simpl in Hh2. replace (1 + Z.of_nat (N - 1)) with (Z.of_nat N) in Hh2 by lia.
  split.
  - intros k Hk. unfold share_then_release, bind. rewrite Hup.
    destruct (frees_keep k p _ s2 Hh2) as (s3 & Hfr & Hh3 & _ & Hl3).
    { simpl. lia. } { simpl. lia. }
    exists s3. rewrite Hfr, Hh3, Hl3, Hl2. eauto.
  - unfold share_then_release. destruct N as [|n]; [lia|].
    unfold bind at 1. rewrite Hup. rewrite times_S_last. unfold bind at 1.
    destruct (frees_keep n p _ s2 Hh2) as (s3 & Hfr & Hh3 & _ & Hl3).
    { simpl. lia. } { simpl. lia. }
    rewrite Hfr. unfold bind at 1.
    destruct (free_step_last p _ s3 Hh3) as (h & Hlast & Hgone & _).
    { simpl. replace (Z.of_nat (S n) - Z.of_nat n - 1) with 0 by lia. reflexivity. }
    rewrite Hlast. eexists. split; [reflexivity|]. simpl.
    rewrite Hl3, Hl2. split; [done|]. split; [done|].
    unfold count. rewrite !List.filter_app, !length_app. simpl.
    rewrite !bool_decide_eq_true_2 by done. simpl. lia.
Qed.

(** [wp_ecx_new] never touches a dead object. *)
Lemma wp_ecx_new_defined pc d s : is_Some (wp_ecx_new pc d s).
Proof.
  unfold wp_ecx_new. unfold_m.
  destruct wolfssl_prov_is_running; simpl; [|eauto].
  destruct (hd 0 (fates s) =? 0); simpl; [|eauto].
  heap_steps. destruct (initKey d key_zero) as [rc k]. simpl. heap_steps.
  destruct (Z.eqb_spec rc 0) as [->|Hrc]; simpl; heap_steps; [|eauto].
  destruct (hd 0 (tail (fates s)) =? 0); simpl; heap_steps; eauto.
Qed.

(** When [wp_ecx_new] returns an object. *)
Lemma wp_ecx_new_some_iff pc d s r s' :
  wp_ecx_new pc d s = Some (r, s') →
  (is_Some r ↔
     wolfssl_prov_is_running = true ∧ hd 0 (fates s) = 0 ∧
     (initKey d key_zero).1 = 0 ∧ hd 0 (tail (fates s)) = 0).
Proof.
  unfold wp_ecx_new. unfold_m.
  destruct wolfssl_prov_is_running; simpl.
  2:{ intros [= <- <-]. split; [intros [? [=]]|intros [[=] _]]. }
  destruct (Z.eqb_spec (hd 0 (fates s)) 0) as [Ha|Ha]; simpl.
  2:{ intros [= <- <-]. split; [intros [? [=]]|tauto]. }
  heap_steps. destruct (initKey d key_zero) as [rc k]. simpl. heap_steps.
  destruct (Z.eqb_spec rc 0) as [->|Hrc]; simpl; heap_steps.
  - destruct (Z.eqb_spec (hd 0 (tail (fates s))) 0) as [Hm|Hm]; simpl; heap_steps.
    + intros [= <- <-]. split; [done|eauto].
    + intros [= <- <-]. split; [intros [? [=]]|tauto].
  - intros [= <- <-]. split; [intros [? [=]]|tauto].
Qed.

(** C3. [wp_ecx_dup] never goes wrong on a live source. It returns a
    duplicate exactly when the provider is running, the allocation succeeds,
    the key initializer of the source's curve returns 0 and the mutex is
    created; otherwise it returns NULL as [wp_ecx_new] does. The duplicate
    is a distinct object bound to the same descriptor with the same key
    material and the same hasPub, hasPriv and includePublic, the source is
    left as it was, and [wp_ecx_has] for the private key agrees on both,
    whatever the selection; the selection has no influence on the outcome
    at all. *)
Theorem C3_dup_is_full_copy (src : loc) (selection : Z) (s : State) (e : wp_Ecx) :
  heap s !! src = Some e →
  (∃ r s', wp_ecx_dup src selection s = Some (r, s') ∧
     (is_Some r ↔
        wolfssl_prov_is_running = true ∧ hd 0 (fates s) = 0 ∧
        (initKey (data e) key_zero).1 = 0 ∧ hd 0 (tail (fates s)) = 0) ∧
     match r with
     | Some d =>
         ∃ e', heap s' !! d = Some e' ∧ d ≠ src ∧ heap s' !! src = Some e ∧
               data e' = data e ∧ key e' = key e ∧
               hasPub e' = hasPub e ∧ hasPriv e' = hasPriv e ∧
               includePublic e' = includePublic e ∧
               provCtx e' = provCtx e ∧ refCnt e' = 1 ∧
               wp_ecx_has (Some e') OSSL_KEYMGMT_SELECT_PRIVATE_KEY =
                 wp_ecx_has (Some e) OSSL_KEYMGMT_SELECT_PRIVATE_KEY
     | None => wp_ecx_new (provCtx e) (data e) s = Some (None, s')
     end) ∧
  (∀ selection', wp_ecx_dup src selection' s = wp_ecx_dup src selection s).
Proof.
  intros Hsrc. split; [|reflexivity].
  unfold wp_ecx_dup. unfold bind at 1. unfold deref at 1. rewrite Hsrc.
  unfold bind at 1.
  destruct (wp_ecx_new_defined (provCtx e) (data e) s) as [[[d|] s1] Hnew];
    rewrite Hnew.
  - pose proof (wp_ecx_new_some_iff _ _ _ _ _ Hnew) as Hiff.
    destruct (wp_ecx_new_some _ _ _ _ _ Hnew) as (Hfresh & Hh & _).
    assert (Hne : d ≠ src) by (intros ->; congruence).
    unfold_m. rewrite Hh. rewrite lookup_insert_ne by done. rewrite Hsrc.
    simpl. rewrite Hh, lookup_insert_eq. simpl. rewrite Hh, lookup_insert_eq.
    eexists _, _. split; [reflexivity|]. split; [exact Hiff|]. simpl.
    eexists. rewrite lookup_insert_eq. split; [reflexivity|].
    rewrite !lookup_insert_ne by done. simpl.
    repeat split; try done.
  - pose proof (wp_ecx_new_some_iff _ _ _ _ _ Hnew) as Hiff.
    eexists _, _. split; [reflexivity|]. split; [exact Hiff|]. reflexivity.
Qed.

(** ** Parameter arrays *)

Lemma locate_Some params k i :
  OSSL_PARAM_locate params k = Some i →
  ∃ p, params !! i = Some p ∧ p_key p = k.
Proof.
  revert i. induction params as [|q ps IH]; intros i; simpl; [discriminate|].
  destruct (String.eqb_spec (p_key q) k) as [Hk|Hk].
  - intros [= <-]. eauto.
  - destruct (OSSL_PARAM_locate ps k) as [j|]; simpl; [|discriminate].
    intros [= <-]. simpl. apply IH. reflexivity.
Qed.

Lemma locate_same_keys params params' k :
  map p_key params' = map p_key params →
  OSSL_PARAM_locate params' k = OSSL_PARAM_locate params k.
Proof.
  revert params'. induction params as [|q ps IH]; intros [|q' ps']; simpl;
    try discriminate; [reflexivity|].
  intros [= Hq Hps]. rewrite Hq. destruct (String.eqb (p_key q) k); [reflexivity|].
  by rewrite (IH ps' Hps).
Qed.

Lemma updates_only_refl k params : updates_only k params params.
Proof. split; [reflexivity|]. auto. Qed.

Lemma updates_only_insert k params i p p' :
  params !! i = Some p → p_key p = k → p_key p' = k →
  updates_only k params (<[i := p']> params).
Proof.
  intros Hi Hk Hk'. split.
  - rewrite list_fmap_insert. apply list_insert_id.
    rewrite list_lookup_fmap, Hi. simpl. congruence.
  - intros j q Hj Hq. rewrite list_lookup_insert_ne; [done|].
    intros ->. congruence.
Qed.

Lemma locate_set_int_fails_updates params k val :
  updates_only k params (locate_set_int_fails params k val).2.
Proof.
  unfold locate_set_int_fails.
  destruct (OSSL_PARAM_locate params k) as [i|] eqn:Hl; [|apply updates_only_refl].
  destruct (locate_Some _ _ _ Hl) as (p & Hp & Hk). rewrite Hp.
  destruct (OSSL_PARAM_set_int p val) as [r p'] eqn:Hs. simpl.
  apply (updates_only_insert k params i p p' Hp Hk).
  unfold OSSL_PARAM_set_int in Hs.
  destruct (p_data_type p), (p_data p); try destruct (0 <=? val);
    inversion Hs; subst; simpl; done.
Qed.

Lemma get_params_enc_pub_key_updates ecx params k :
  updates_only k params (wp_ecx_get_params_enc_pub_key ecx params k).2.
Proof.
  unfold wp_ecx_get_params_enc_pub_key.
  destruct (OSSL_PARAM_locate params k) as [i|] eqn:Hl; [|apply updates_only_refl].
  destruct (locate_Some _ _ _ Hl) as (p & Hp & Hk). rewrite Hp.
  destruct (p_data p).
  - destruct (exportPub _ _ _ _ _) as [[rc out] n]. simpl.
    by apply (updates_only_insert k params i p _ Hp Hk).
  - simpl. by apply (updates_only_insert k params i p _ Hp Hk).
Qed.

Lemma get_params_priv_key_updates ecx params :
  updates_only OSSL_PKEY_PARAM_PRIV_KEY params (wp_ecx_get_params_priv_key ecx params).2.
Proof.
  unfold wp_ecx_get_params_priv_key.
  destruct (OSSL_PARAM_locate params _) as [i|] eqn:Hl; [|apply updates_only_refl].
  destruct (locate_Some _ _ _ Hl) as (p & Hp & Hk). rewrite Hp.
  destruct (p_data p).
  - destruct (exportPriv _ _ _ _) as [[rc out] n]. simpl.
    by apply (updates_only_insert _ params i p _ Hp Hk).
  - simpl. by apply (updates_only_insert _ params i p _ Hp Hk).
Qed.

(** C5. The security bits of a key are 192 when the curve has at least 448
    bits, 128 when it has at least 255 but fewer than 448, and 0 below; and
    that is the value a successful [wp_ecx_get_params] leaves in an integer
    "security-bits" entry that has a buffer. *)
Theorem C5_security_bits (ecx : wp_Ecx) :
  (448 ≤ bits (data ecx) → wp_ecx_get_security_bits ecx = 192) ∧
  (255 ≤ bits (data ecx) < 448 → wp_ecx_get_security_bits ecx = 128) ∧
  (bits (data ecx) < 255 → wp_ecx_get_security_bits ecx = 0) ∧
  (∀ params i p ok params',
     OSSL_PARAM_locate params OSSL_PKEY_PARAM_SECURITY_BITS = Some i →
     params !! i = Some p →
     p_data_type p = OSSL_PARAM_INTEGER → is_Some (p_data p) →
     wp_ecx_get_params ecx params = (ok, params') → ok ≠ 0 →
     ∃ p', params' !! i = Some p' ∧
           p_key p' = OSSL_PKEY_PARAM_SECURITY_BITS ∧
           p_data p' = Some (DataInt (wp_ecx_get_security_bits ecx))).
Proof.
  unfold wp_ecx_get_security_bits.
  split; [|split; [|split]].
  - intros H. destruct (Z.leb_spec 448 (bits (data ecx))); [done|lia].
  - intros H. destruct (Z.leb_spec 448 (bits (data ecx))); [lia|].
    destruct (Z.leb_spec 255 (bits (data ecx))); [done|lia].
  - intros H. destruct (Z.leb_spec 448 (bits (data ecx))); [lia|].
    destruct (Z.leb_spec 255 (bits (data ecx))); [lia|done].
  - fold (wp_ecx_get_security_bits ecx).
    intros params i p ok params' Hloc Hi Hty [d0 Hd] Hget Hok.
    destruct (locate_Some _ _ _ Hloc) as (p0 & Hp0 & Hkey).
    assert (p0 = p) by congruence. subst p0.
    unfold wp_ecx_get_params in Hget.
    pose proof (locate_set_int_fails_updates params OSSL_PKEY_PARAM_MAX_SIZE
                  (len (data ecx))) as [Hk1 Hu1].
    destruct (locate_set_int_fails params OSSL_PKEY_PARAM_MAX_SIZE _) as [b1 ps1].
    simpl in Hk1, Hu1.
    destruct b1; simpl in Hget; [inversion Hget; subst; done|].
    pose proof (locate_set_int_fails_updates ps1 OSSL_PKEY_PARAM_BITS
                  (bits (data ecx))) as [Hk2 Hu2].
    destruct (locate_set_int_fails ps1 OSSL_PKEY_PARAM_BITS _) as [b2 ps2].
    simpl in Hk2, Hu2.
    destruct b2; simpl in Hget; [inversion Hget; subst; done|].
    assert (Hi2 : ps2 !! i = Some p).
    { apply Hu2; [apply Hu1; [done|]|]; rewrite Hkey; done. }
    assert (Hloc2 : OSSL_PARAM_locate ps2 OSSL_PKEY_PARAM_SECURITY_BITS = Some i).
    { rewrite (locate_same_keys ps1 ps2) by done.
      rewrite (locate_same_keys params ps1) by done. done. }
    unfold locate_set_int_fails in Hget at 1. rewrite Hloc2, Hi2 in Hget.
    unfold OSSL_PARAM_set_int in Hget. rewrite Hty, Hd in Hget. simpl in Hget.
    set (p3 := mkParam _ _ _ _ _) in Hget.
    set (ps3 := <[i := p3]> ps2) in Hget.
    assert (Hi3 : ps3 !! i = Some p3).
    { apply list_lookup_insert_eq. by apply lookup_lt_Some in Hi2. }
    assert (Hk3 : p_key p3 = OSSL_PKEY_PARAM_SECURITY_BITS) by done.
    pose proof (get_params_enc_pub_key_updates ecx ps3
                  OSSL_PKEY_PARAM_ENCODED_PUBLIC_KEY) as [Hk4 Hu4].
    destruct (wp_ecx_get_params_enc_pub_key ecx ps3 _) as [r4 ps4].
    simpl in Hk4, Hu4.
    destruct (r4 =? 0); simpl in Hget; [inversion Hget; subst; done|].
    pose proof (get_params_enc_pub_key_updates ecx ps4
                  OSSL_PKEY_PARAM_PUB_KEY) as [Hk5 Hu5].
    destruct (wp_ecx_get_params_enc_pub_key ecx ps4 _) as [r5 ps5].
    simpl in Hk5, Hu5.
    destruct (r5 =? 0); simpl in Hget; [inversion Hget; subst; done|].
    pose proof (get_params_priv_key_updates ecx ps5) as [Hk6 Hu6].
    destruct (wp_ecx_get_params_priv_key ecx ps5) as [r6 ps6].
    simpl in Hk6, Hu6.
    destruct (r6 =? 0); simpl in Hget; [inversion Hget; subst; done|].
    inversion Hget; subst. exists p3. split; [|done].
    apply Hu6; [apply Hu5; [apply Hu4; [done|]|]|]; rewrite Hk3; done.
Qed.

(** ** Matching *)

Lemma same_export_sym x y : same_export x y = same_export y x.
Proof.
  destruct x as [[bx nx]|], y as [[by_ ny]|]; simpl; try reflexivity.
  rewrite (Z.eqb_sym nx ny). f_equal. unfold bytes_eqb.
  apply bool_decide_ext. split; congruence.
Qed.

Lemma same_export_refl x : is_Some x → same_export x x = true.
Proof.
  intros [[bx nx] ->]. simpl. rewrite Z.eqb_refl. unfold bytes_eqb.
  by rewrite bool_decide_eq_true_2.
Qed.

Lemma same_export_true x y :
  same_export x y = true ↔ ∃ bs n, x = Some (bs, n) ∧ y = Some (bs, n).
Proof.
  destruct x as [[bx nx]|], y as [[by_ ny]|]; simpl;
    try (split; [discriminate|intros (? & ? & ? & ?); discriminate]).
  rewrite andb_true_iff, Z.eqb_eq. unfold bytes_eqb. rewrite bool_decide_eq_true.
  split.
  - intros [-> ->]. eauto.
  - intros (bs & n & [= -> ->] & [= -> ->]). done.
Qed.

Lemma match_priv_key_spec key1 key2 a b :
  wp_ecx_match_priv_key key1 key2 a b =
    Z.b2z (hasPriv a && hasPriv b &&
           same_export (exported_priv key1 a) (exported_priv key2 b)).
Proof.
  unfold wp_ecx_match_priv_key, exported_priv, same_export, XMEMCMP, nz.
  destruct (hasPriv a), (hasPriv b); simpl; try reflexivity.
  destruct (exportPriv (data a) _ _ _) as [[rc1 o1] n1].
  destruct (Z.eqb_spec rc1 0); simpl; [|reflexivity].
  destruct (exportPriv (data b) _ _ _) as [[rc2 o2] n2].
  destruct (Z.eqb_spec rc2 0); simpl; [|reflexivity].
  destruct (Z.eqb_spec n1 n2) as [->|]; simpl; [|reflexivity].
  destruct (bytes_eqb _ _); reflexivity.
Qed.

Lemma match_pub_key_spec key1 key2 a b :
  wp_ecx_match_pub_key key1 key2 a b =
    Z.b2z (hasPub a && hasPub b &&
           same_export (exported_pub key1 a) (exported_pub key2 b)).
Proof.
  unfold wp_ecx_match_pub_key, exported_pub, same_export, XMEMCMP, nz.
  destruct (hasPub a), (hasPub b); simpl; try reflexivity.
  destruct (exportPub (data a) _ _ _ _) as [[rc1 o1] n1].
  destruct (Z.eqb_spec rc1 0); simpl; [|reflexivity].
  destruct (exportPub (data b) _ _ _ _) as [[rc2 o2] n2].
  destruct (Z.eqb_spec rc2 0); simpl; [|reflexivity].
  destruct (Z.eqb_spec n1 n2) as [->|]; simpl; [|reflexivity].
  destruct (bytes_eqb _ _); reflexivity.
Qed.

Lemma match_spec fr a b selection :
  wp_ecx_match fr a b selection =
    Z.b2z (wolfssl_prov_is_running &&
           ((selection =? 0) || (keyType (data a) =? keyType (data b))) &&
           (negb (nz (Z.land selection OSSL_KEYMGMT_SELECT_PRIVATE_KEY)) ||
            (hasPriv a && hasPriv b &&
             same_export (exported_priv (priv_key1 fr) a)
                         (exported_priv (priv_key2 fr) b))) &&
           (negb (nz (Z.land selection OSSL_KEYMGMT_SELECT_PUBLIC_KEY)) ||
            (hasPub a && hasPub b &&
             same_export (exported_pub (pub_key1 fr) a)
                         (exported_pub (pub_key2 fr) b)))).
Proof.
  unfold wp_ecx_match.
  rewrite match_priv_key_spec, match_pub_key_spec.
  destruct wolfssl_prov_is_running; simpl; [|reflexivity].
  destruct (selection =? 0); simpl;
    [|destruct (keyType (data a) =? keyType (data b)); simpl; [|reflexivity]];
    destruct (nz (Z.land selection OSSL_KEYMGMT_SELECT_PRIVATE_KEY)); simpl;
    try destruct (hasPriv a && hasPriv b && same_export _ _); simpl;
    destruct (nz (Z.land selection OSSL_KEYMGMT_SELECT_PUBLIC_KEY)); simpl;
    try destruct (hasPub a && hasPub b && same_export _ _); reflexivity.
Qed.

Lemma b2z_1 (x : bool) : Z.b2z x = 1 ↔ x = true.
Proof. destruct x; simpl; split; (done || lia). Qed.

Lemma nz_true z : nz z = true ↔ z ≠ 0.
Proof. unfold nz. destruct (Z.eqb_spec z 0); simpl; split; (done || lia). Qed.

Lemma selected_or (P : Prop) z (x : bool) :
  (x = true ↔ P) → (negb (nz z) || x = true ↔ (z ≠ 0 → P)).
Proof.
  intros HP. rewrite orb_true_iff, negb_true_iff, <- HP.
  destruct (nz z) eqn:Hz.
  - apply nz_true in Hz. split; [intros [|]; done|auto].
  - split; [|auto]. intros _ Hne. apply nz_true in Hne. congruence.
Qed.

Lemma priv_ok fr a b :
  hasPriv a && hasPriv b &&
    same_export (exported_priv (priv_key1 fr) a) (exported_priv (priv_key2 fr) b) = true ↔
  hasPriv a = true ∧ hasPriv b = true ∧
    ∃ bs n, exported_priv (priv_key1 fr) a = Some (bs, n) ∧
            exported_priv (priv_key2 fr) b = Some (bs, n).
Proof. rewrite !andb_true_iff, same_export_true. tauto. Qed.

Lemma pub_ok fr a b :
  hasPub a && hasPub b &&
    same_export (exported_pub (pub_key1 fr) a) (exported_pub (pub_key2 fr) b) = true ↔
  hasPub a = true ∧ hasPub b = true ∧
    ∃ bs n, exported_pub (pub_key1 fr) a = Some (bs, n) ∧
            exported_pub (pub_key2 fr) b = Some (bs, n).
Proof. rewrite !andb_true_iff, same_export_true. tauto. Qed.

(** C4. The private (public) key helper returns 1 exactly when both keys
    have the private (public) component and their exports succeed with the
    same length and the same bytes over that whole length.
    [wp_ecx_match] returns 1 or 0. With a nonzero selection it returns
    1 only for keys of the same type. It returns 1 exactly when the provider
    is running, the types agree (for a nonzero selection), and for each of
    the private and the public component that is selected both keys have the
    component and their exports succeed with the same length and the same
    bytes over that whole length. Hence a fully populated key (both
    components present and exportable) matches itself on both components,
    and the result does not depend on the order of the two keys; for these
    two the exports must not depend on what the buffers held before. *)
Theorem C4_match (fr : MatchFrames) (a b : wp_Ecx) (selection : Z) :
  (wp_ecx_match_priv_key (priv_key1 fr) (priv_key2 fr) a b = 1 ↔
     hasPriv a = true ∧ hasPriv b = true ∧
     ∃ bs n, exported_priv (priv_key1 fr) a = Some (bs, n) ∧
             exported_priv (priv_key2 fr) b = Some (bs, n)) ∧
  (wp_ecx_match_pub_key (pub_key1 fr) (pub_key2 fr) a b = 1 ↔
     hasPub a = true ∧ hasPub b = true ∧
     ∃ bs n, exported_pub (pub_key1 fr) a = Some (bs, n) ∧
             exported_pub (pub_key2 fr) b = Some (bs, n)) ∧
  (selection ≠ 0 → wp_ecx_match fr a b selection ≠ 0 →
     keyType (data a) = keyType (data b)) ∧
  (wp_ecx_match fr a b selection = 1 ∨ wp_ecx_match fr a b selection = 0) ∧
  (wp_ecx_match fr a b selection = 1 ↔
     wolfssl_prov_is_running = true ∧
     (selection ≠ 0 → keyType (data a) = keyType (data b)) ∧
     (Z.land selection OSSL_KEYMGMT_SELECT_PRIVATE_KEY ≠ 0 →
        hasPriv a = true ∧ hasPriv b = true ∧
        ∃ bs n, exported_priv (priv_key1 fr) a = Some (bs, n) ∧
                exported_priv (priv_key2 fr) b = Some (bs, n)) ∧
     (Z.land selection OSSL_KEYMGMT_SELECT_PUBLIC_KEY ≠ 0 →
        hasPub a = true ∧ hasPub b = true ∧
        ∃ bs n, exported_pub (pub_key1 fr) a = Some (bs, n) ∧
                exported_pub (pub_key2 fr) b = Some (bs, n))) ∧
  (wolfssl_prov_is_running = true → hasPub a = true → hasPriv a = true →
     export_determined a →
     is_Some (exported_priv (priv_key1 fr) a) →
     is_Some (exported_pub (pub_key1 fr) a) →
     wp_ecx_match fr a a OSSL_KEYMGMT_SELECT_KEYPAIR = 1) ∧
  (export_determined a → export_determined b →
     ∀ fr', wp_ecx_match fr' b a selection = wp_ecx_match fr a b selection).
Proof.
  split; [|split; [|split; [|split; [|split; [|split]]]]].
  - rewrite match_priv_key_spec, b2z_1. apply priv_ok.
  - rewrite match_pub_key_spec, b2z_1. apply pub_ok.
  - intros Hsel. rewrite match_spec.
    destruct (Z.eqb_spec selection 0); [done|]. simpl.
    destruct (Z.eqb_spec (keyType (data a)) (keyType (data b))); [done|].
    rewrite andb_false_r. simpl. done.
  - rewrite match_spec. destruct (_ && _); simpl; auto.
  - rewrite match_spec, b2z_1, !andb_true_iff.
    rewrite (selected_or _ _ _ (priv_ok fr a b)), (selected_or _ _ _ (pub_ok fr a b)).
    rewrite orb_true_iff, !Z.eqb_eq. split.
    + intros [[[Hrun Hty] Hpriv] Hpub]. split; [done|]. split; [|done].
      intros Hsel. destruct Hty; done.
    + intros (Hrun & Hty & Hpriv & Hpub). split; [split; [split; [done|]|done]|done].
      destruct (Z.eq_dec selection 0); auto.
  - intros Hrun Hpub Hpriv Hdet Hxp Hxq. rewrite match_spec, b2z_1.
    rewrite Hrun, Hpub, Hpriv. rewrite Z.eqb_refl. simpl.
    destruct (Hdet (priv_key1 fr) (priv_key2 fr)) as [<- _].
    destruct (Hdet (pub_key1 fr) (pub_key2 fr)) as [_ <-].
    rewrite !same_export_refl by done. reflexivity.
  - intros Ha Hb fr'. rewrite !match_spec.
    rewrite (Z.eqb_sym (keyType (data b))).
    rewrite (andb_comm (hasPriv b)), (andb_comm (hasPub b)).
    rewrite (same_export_sym (exported_priv (priv_key1 fr') b)).
    rewrite (same_export_sym (exported_pub (pub_key1 fr') b)).
    destruct (Ha (priv_key2 fr') (priv_key1 fr)) as [-> _].
    destruct (Ha (pub_key2 fr') (pub_key1 fr)) as [_ ->].
    destruct (Hb (priv_key1 fr') (priv_key2 fr)) as [-> _].
    destruct (Hb (pub_key1 fr') (pub_key2 fr)) as [_ ->].
    reflexivity.
Qed.

(** ** Import *)

(** One case split of a run of [wp_ecx_import], outermost condition first. *)
Ltac import_case :=
  match goal with
  | |- context [Z.land ?s WP_ECX_POSSIBLE_SELECTIONS =? 0] =>
      destruct (Z.land s WP_ECX_POSSIBLE_SELECTIONS =? 0) eqn:?
  | |- context [nz (Z.land ?s ?k)] => destruct (nz (Z.land s k)) eqn:?
  | |- context [wp_params_get_octet_string_ptr ?a ?b ?c ?d] =>
      destruct (wp_params_get_octet_string_ptr a b c d) as [[? [?|]] ?] eqn:?
  | |- context [importPriv ?a ?b ?c ?d ?e] =>
      destruct (importPriv a b c d e) as [? ?] eqn:?
  | |- context [importPub ?a ?b ?c ?d ?e] =>
      destruct (importPub a b c d e) as [? ?] eqn:?
  | |- context [?r =? 0] => is_var r; destruct (Z.eqb_spec r 0)
  | |- context [nz ?r] => is_var r; destruct (nz r) eqn:?
  end; simpl.

Lemma get_octet_len_indep params key_ n :
  (wp_params_get_octet_string_ptr params key_ None n).1.2 =
    (wp_params_get_octet_string_ptr params key_ None 0).1.2 ∧
  ((wp_params_get_octet_string_ptr params key_ None n).1.2 ≠ None →
   wp_params_get_octet_string_ptr params key_ None n =
     wp_params_get_octet_string_ptr params key_ None 0).
Proof.
  unfold wp_params_get_octet_string_ptr.
  destruct (param_at params key_) as [p|]; simpl; [|done].
  destruct (p_data_type p); simpl; try done.
  destruct (p_data p) as [[]|]; simpl; done.
Qed.

Lemma octet_of_other_len params key_ n r d m :
  wp_params_get_octet_string_ptr params key_ None n = (r, Some d, m) →
  octet_of params key_ = Some (d, m).
Proof.
  intros H. unfold octet_of.
  destruct (get_octet_len_indep params key_ n) as [_ Heq].
  rewrite <- Heq, H; [done|]. rewrite H. done.
Qed.




(** ** Export *)

(** C10. With the private key selected, the buffer allocated and the public
    export accepted, [wp_ecx_export] invokes the callback once, on a list of
    two entries, and returns what the callback returns, whatever return
    code [rcp] the private export primitive gave: that code is not
    looked at, [wp_ecx_export_keypair] reports success all the same, and
    the second entry is built from whatever the primitive left in the
    buffer. *)
Theorem C10_private_export_code_ignored (ecx : wp_Ecx) (selection : Z)
    (paramCb : list OSSL_PARAM → Z) (s : State)
    (out : list byte) (n rcp : Z) (outp : list byte) (np : Z) :
  Z.land selection OSSL_KEYMGMT_SELECT_PRIVATE_KEY ≠ 0 →
  hd 0 (fates s) = 0 →
  let buf := buf_read (junk s) (len (data ecx) + len (data ecx)) in
  exportPub (data ecx) (key ecx) buf (len (data ecx)) EC25519_LITTLE_ENDIAN
    = (0, out, n) →
  exportPriv (data ecx) (key ecx) (buf_at n out) (len (data ecx)) = (rcp, outp, np) →
  let params :=
    [ wp_param_set_octet_string_ptr OSSL_PKEY_PARAM_PUB_KEY out n;
      wp_param_set_octet_string_ptr OSSL_PKEY_PARAM_PUB_KEY
        (buf_at n (buf_put n out outp)) np ] in
  (wp_ecx_export_keypair ecx (replicate 3 None) 0 buf 0 1).1.1.1.1 = 1 ∧
  wp_ecx_export ecx selection paramCb s =
    Some (paramCb params,
          mkState (heap s) (tail (fates s)) (junk s)
            (log s ++ [EvCallback params; EvClearFree (buf_put n out outp) n])).
Proof.
  intros Hsel Hfate buf Hpub Hpriv params.
  apply nz_true in Hsel.
  assert (Hkp : wp_ecx_export_keypair ecx (replicate 3 None) 0 buf 0 1 =
                  (1, [Some (wp_param_set_octet_string_ptr OSSL_PKEY_PARAM_PUB_KEY out n);
                       Some (wp_param_set_octet_string_ptr OSSL_PKEY_PARAM_PUB_KEY
                               (buf_at n (buf_put n out outp)) np);
                       None], 2, buf_put n out outp, n)).
  { unfold wp_ecx_export_keypair. 
    change (buf_at 0 buf) with buf. rewrite Hpub.
    change (buf_put 0 buf out) with out. cbn [nz Z.eqb negb andb].
    change (0 + n) with n. rewrite Hpriv. reflexivity. }
  split; [by rewrite Hkp|].
  unfold wp_ecx_export. unfold_m. rewrite Hfate. simpl.
  unfold wp_ecx_export_keypair_alloc_size. rewrite Hsel. simpl.
  fold buf. change [None; None; None] with (replicate 3 (@None OSSL_PARAM)).
  rewrite Hkp. simpl. rewrite <- app_assoc. reflexivity.
Qed.

(** Without the private selection the list handed over is the public
    component alone. *)
Lemma export_public_only (ecx : wp_Ecx) (selection : Z)
    (paramCb : list OSSL_PARAM → Z) (s : State) (out : list byte) (n : Z) :
  Z.land selection OSSL_KEYMGMT_SELECT_PRIVATE_KEY = 0 →
  hd 0 (fates s) = 0 →
  let buf := buf_read (junk s) (len (data ecx)) in
  exportPub (data ecx) (key ecx) buf (len (data ecx)) EC25519_LITTLE_ENDIAN
    = (0, out, n) →
  let params := [ wp_param_set_octet_string_ptr OSSL_PKEY_PARAM_PUB_KEY out n ] in
  wp_ecx_export ecx selection paramCb s =
    Some (paramCb params,
          mkState (heap s) (tail (fates s)) (junk s)
            (log s ++ [EvCallback params; EvClearFree out n])).
Proof.
  intros Hsel Hfate buf Hpub params.
  unfold wp_ecx_export. unfold_m. rewrite Hfate, Hsel. simpl.
  unfold wp_ecx_export_keypair_alloc_size, wp_ecx_export_keypair. simpl.
  fold buf. change (buf_at 0 buf) with buf. rewrite Hpub. simpl.
  rewrite <- app_assoc. reflexivity.
Qed.

(** Whatever the key and the selection, every entry [wp_ecx_export] hands
    to the callback carries the public-key name. *)
Lemma export_entries_named_public (ecx : wp_Ecx) (selection : Z)
    (paramCb : list OSSL_PARAM → Z) (s : State) r s' :
  wp_ecx_export ecx selection paramCb s = Some (r, s') →
  ∀ params, EvCallback params ∈ drop (length (log s)) (log s') →
            Forall (λ p, p_key p = OSSL_PKEY_PARAM_PUB_KEY) params.
Proof.
  unfold wp_ecx_export. unfold_m.
  destruct (hd 0 (fates s) =? 0); simpl.
  - unfold wp_ecx_export_keypair. simpl.
    destruct (exportPub _ _ _ _ _) as [[rc out] n]. simpl.
    destruct (nz rc) eqn:Hrc; simpl.
    + intros [= <- <-] params. simpl. rewrite drop_app_length.
      intros Hin. apply list_elem_of_singleton in Hin. discriminate.
    + destruct (nz (Z.b2z (nz (Z.land selection _)))) eqn:Hp; simpl.
      * destruct (exportPriv _ _ _ _) as [[rcp outp] np]. simpl.
        intros [= <- <-] params. simpl. rewrite <- app_assoc, drop_app_length.
        intros Hin. apply elem_of_cons in Hin as [[= ->]|Hin].
        -- repeat constructor.
        -- apply list_elem_of_singleton in Hin. discriminate.
      * intros [= <- <-] params. simpl. rewrite <- app_assoc, drop_app_length.
        intros Hin. apply elem_of_cons in Hin as [[= ->]|Hin].
        -- repeat constructor.
        -- apply list_elem_of_singleton in Hin. discriminate.
  - intros [= <- <-] params. simpl. rewrite drop_ge by lia.
    intros Hin. by apply elem_of_nil in Hin.
Qed.

(** ** Decoding *)

Lemma bind_Some {A B} (m : M A) (f : A → M B) s a s' :
  m s = Some (a, s') → bind m f s = f a s'.
Proof. intros H. unfold bind. by rewrite H. Qed.

Lemma decoder_makes ctx d tag s p s1 :
  decoder_target (dec_keyType ctx) = Some (d, tag) →
  wp_ecx_new (dec_provCtx ctx) d s = Some (Some p, s1) →
  (if dec_keyType ctx =? WP_KEY_TYPE_X25519 then
     bind (wp_x25519_new (dec_provCtx ctx)) (λ ecx, ret (ecx, Some "X25519"%string))
   else if dec_keyType ctx =? WP_KEY_TYPE_ED25519 then
     bind (wp_ed25519_new (dec_provCtx ctx)) (λ ecx, ret (ecx, Some "ED25519"%string))
   else if dec_keyType ctx =? WP_KEY_TYPE_X448 then
     bind (wp_x448_new (dec_provCtx ctx)) (λ ecx, ret (ecx, Some "X448"%string))
   else if dec_keyType ctx =? WP_KEY_TYPE_ED448 then
     bind (wp_ed448_new (dec_provCtx ctx)) (λ ecx, ret (ecx, Some "ED448"%string))
   else ret (None, None)) s = Some ((Some p, Some tag), s1).
Proof.
  unfold decoder_target, wp_x25519_new, wp_ed25519_new, wp_x448_new, wp_ed448_new.
  intros Ht Hnew.
  repeat match type of Ht with
         | (if ?c then _ else _) = _ => destruct c
         end; try discriminate;
    injection Ht as <- <-; unfold bind; rewrite Hnew; reflexivity.
Qed.

(** C8. Once the key object is created and the input read: when the decode
    primitive rejects the bytes, [wp_ecx_dec_decode] does not call the data
    callback, disposes of the key object (mutex, key material and memory
    are released) and returns 1; when the bytes decode and the callback then
    fails, the object is disposed of as well and the result is 0. *)
Theorem C8_decode_rejection_and_late_failure (ctx : wp_EcxEncDecCtx)
    (cin : OSSL_CORE_BIO) (selection : Z) (dataCb : list OSSL_PARAM → Z)
    (s : State) (d : wp_EcxData) (tag : string) (p : loc) (s1 : State)
    (bytes : list byte) :
  decoder_target (dec_keyType ctx) = Some (d, tag) →
  wp_ecx_new (dec_provCtx ctx) d s = Some (Some p, s1) →
  cin = Some bytes →
  let ctx' := mkEncDecCtx (decode ctx) (dec_provCtx ctx) selection (dec_keyType ctx)
                (format ctx) (encoder ctx) in
  let n := Z.of_nat (length bytes) in
  let rc := (decode ctx bytes 0 (initKey d key_zero).2 n).1 in
  (rc ≠ 0 →
     ∃ s', wp_ecx_dec_decode ctx cin selection dataCb s = Some ((1, ctx'), s') ∧
           heap s' !! p = None ∧
           log s' = log s ++ [EvClearFree bytes n;
                              EvFreeMutex p; EvFreeKey p; EvFree p] ∧
           count is_callback (log s') = count is_callback (log s)) ∧
  (rc = 0 → dataCb (decoded_params p tag) = 0 →
     ∃ s', wp_ecx_dec_decode ctx cin selection dataCb s = Some ((0, ctx'), s') ∧
           heap s' !! p = None ∧
           log s' = log s ++ [EvClearFree bytes n;
                              EvCallback (decoded_params p tag);
                              EvFreeMutex p; EvFreeKey p; EvFree p]).
Proof.
  intros Ht Hnew -> ctx' n rc.
  destruct (wp_ecx_new_some _ _ _ _ _ Hnew) as (Hfresh & Hh & _ & Hlog & Hjunk & Hfates).
  pose proof (decoder_makes ctx d tag s p s1 Ht Hnew) as Hmade.
  unfold wp_ecx_dec_decode. cbn [dec_keyType dec_provCtx decode format].
  split.
  - intros Hrc. rewrite (bind_Some _ _ _ _ _ Hmade).
    remember (wp_ecx_free (Some p)) as release eqn:Hrel.
    rewrite bool_decide_eq_false_2 by done.
    assert (Hp1 : heap s1 !! p = Some (mkEcx (initKey d key_zero).2 d 1 (dec_provCtx ctx)
                                         0 false false))
      by (rewrite Hh; apply lookup_insert_eq).
    clear Hh Hmade.
    unfold wp_ecx_dec_send_params. unfold_m. heap_steps.
    fold n. subst rc. destruct (decode ctx bytes 0 _ n) as [rc k]. simpl in *.
    heap_steps. apply nz_true in Hrc. rewrite Hrc. simpl.
    subst release. cbv beta.
    match goal with
    | |- context [bind (wc_LockMutex p) _ ?st] =>
        destruct (free_step_last p (set_key k (mkEcx (initKey d key_zero).2 d 1
                                                (dec_provCtx ctx) 0 false false)) st)
          as (h & Hfree & Hgone & _); [apply lookup_insert_eq|reflexivity|]
    end.
    unfold wp_ecx_free in Hfree. rewrite Hfree. simpl. eexists. split; [reflexivity|]. simpl.
    split; [done|]. rewrite Hlog, <- app_assoc. split; [done|].
    unfold count. rewrite List.filter_app. simpl. rewrite length_app. simpl. lia.
  - intros Hrc Hcb. rewrite (bind_Some _ _ _ _ _ Hmade).
    remember (wp_ecx_free (Some p)) as release eqn:Hrel.
    rewrite bool_decide_eq_false_2 by done.
    assert (Hp1 : heap s1 !! p = Some (mkEcx (initKey d key_zero).2 d 1 (dec_provCtx ctx)
                                         0 false false))
      by (rewrite Hh; apply lookup_insert_eq).
    clear Hh Hmade.
    unfold wp_ecx_dec_send_params. unfold_m. heap_steps.
    fold n. subst rc. destruct (decode ctx bytes 0 _ n) as [rc k]. simpl in *.
    heap_steps. subst rc. simpl.
    fold (decoded_params p tag). rewrite Hcb. simpl.
    subst release.
    destruct (format ctx =? WP_ENC_FORMAT_SPKI), (format ctx =? WP_ENC_FORMAT_PKI);
      simpl; heap_steps; cbv beta;
      match goal with
      | |- context [bind (wc_LockMutex p) _ ?st] =>
          evar (e0 : wp_Ecx);
          destruct (free_step_last p e0 st) as (h & Hfree & Hgone & _);
          subst e0; [apply lookup_insert_eq|reflexivity|]
      end;
      unfold wp_ecx_free in Hfree; rewrite Hfree; simpl;
      (eexists; split; [reflexivity|]); simpl;
      (split; [done|]); rewrite Hlog, <- !app_assoc; done.
Qed.

(** ** The X25519 and X448 public key import *)

Lemma byte_low_bits (b : Z) :
  0 ≤ b < 256 → Z.land b 128 = 0 → Z.land b 127 = b.
Proof.
  intros Hb H128.
  assert (Hb255 : Z.land b 255 = b).
  { change 255 with (Z.ones 8). rewrite Z.land_ones by lia.
    apply Z.mod_small. lia. }
  rewrite <- Hb255 at 2. change 255 with (Z.lor 127 128).
  rewrite Z.land_lor_distr_r, H128, Z.lor_0_r. reflexivity.
Qed.

Lemma byte_masked_top (b : Z) : Z.land (Z.land b 127) 128 = 0.
Proof. rewrite <- Z.land_assoc. simpl. apply Z.land_0_r. Qed.

(** C9 (amended). For X25519 the public-key import hands the primitive the
    input with the top bit of its last (32nd) byte cleared, so an input with
    that bit set gives the same return code and the same key as the input
    with the bit cleared. For X448 the import is the primitive itself: the
    bytes reach it unchanged. *)
Theorem C9_x25519_masks_top_bit (inb : list byte) (k : key_union) (endian : Z) :
  length inb = 32%nat →
  Forall (λ b, 0 ≤ b < 256) inb →
  importPub x25519Data inb CURVE25519_KEYSIZE k endian =
    wc_curve25519_import_public_ex (clear_top_bit inb) CURVE25519_KEYSIZE k endian ∧
  importPub x25519Data inb CURVE25519_KEYSIZE k endian =
    importPub x25519Data (clear_top_bit inb) CURVE25519_KEYSIZE k endian ∧
  (∀ inb' n, importPub x448Data inb' n k endian =
               wc_curve448_import_public_ex inb' n k endian).
Proof.
  intros Hlen Hbytes.
  assert (Hfirst :
    wp_x25519_import_public inb CURVE25519_KEYSIZE k endian =
      wc_curve25519_import_public_ex (clear_top_bit inb) CURVE25519_KEYSIZE k endian).
  { unfold wp_x25519_import_public, clear_top_bit, byte_and, buf_read.
    rewrite Hlen. change (Z.to_nat (CURVE25519_KEYSIZE - 1)) with 31%nat.
    change (Nat.pred 32) with 31%nat.
    change (Z.to_nat CURVE25519_KEYSIZE) with 32%nat.
    rewrite (take_ge inb 32) by lia.
    match goal with
    | |- context [if ?c then _ else _] => destruct c eqn:Htop
    end; [reflexivity|].
    f_equal. symmetry. apply list_insert_id.
    assert (Hlt : (31 < length inb)%nat) by lia.
    destruct (lookup_lt_is_Some_2 inb 31 Hlt) as [b Hb].
    rewrite (list_lookup_total_correct _ _ _ Hb) in *.
    rewrite Hb. f_equal. symmetry. apply byte_low_bits.
    - eapply Forall_lookup_1 in Hbytes; [|exact Hb]. exact Hbytes.
    - unfold nz in Htop. destruct (Z.eqb_spec (Z.land b 128) 0); done. }
  split; [exact Hfirst|]. split; [|reflexivity].
  simpl. rewrite Hfirst.
  unfold wp_x25519_import_public at 1.
  assert (Hclr : nz (byte_and (clear_top_bit inb !!! Z.to_nat (CURVE25519_KEYSIZE - 1)) 128)
                 = false).
  { unfold clear_top_bit, byte_and. rewrite Hlen.
    change (Z.to_nat (CURVE25519_KEYSIZE - 1)) with 31%nat.
    change (Nat.pred 32) with 31%nat.
    rewrite list_lookup_total_insert_eq by lia.
    rewrite byte_masked_top. reflexivity. }
  rewrite Hclr. reflexivity.
Qed.

(** ** The group name of a generation context *)

Lemma strncmp_prefix (a b : string) :
  strncmp_nat a b (String.length a) = 0 ↔ String.prefix a b = true.
Proof.
  revert b. induction a as [|x a IH]; intros b; simpl;
    [destruct b; split; reflexivity|].
  destruct b as [|y b]; simpl; [split; (lia || discriminate)|].
  destruct (Ascii.eqb_spec x y) as [->|Hne].
  - destruct (Ascii.ascii_dec y y) as [_|]; [apply IH|done].
  - destruct (Ascii.ascii_dec x y) as [->|_]; [done|].
    split; [|discriminate]. intros H. exfalso. apply Hne.
    rewrite <- (Ascii.ascii_nat_embedding x), <- (Ascii.ascii_nat_embedding y).
    f_equal. lia.
Qed.

(** What [wp_ecx_gen_set_params] does with a group name: it is accepted
    exactly when it is a prefix of the name the context was created for; a
    list without the entry is accepted. *)
Lemma gen_set_params_prefix (ctx : wp_EcxGenCtx) (name : string) :
  wp_ecx_gen_set_params ctx [group_name_param name] = 1 ↔
  String.prefix name (gen_name ctx) = true.
Proof.
  unfold wp_ecx_gen_set_params, wp_params_get_utf8_string_ptr, param_at. simpl.
  unfold XSTRNCMP, XSTRLEN. rewrite Nat2Z.id. rewrite <- strncmp_prefix.
  unfold nz. destruct (Z.eqb_spec (strncmp_nat name (gen_name ctx) (String.length name)) 0);
    simpl; split; (done || lia).
Qed.

Lemma gen_set_params_absent (ctx : wp_EcxGenCtx) (params : list OSSL_PARAM) :
  OSSL_PARAM_locate params OSSL_PKEY_PARAM_GROUP_NAME = None →
  wp_ecx_gen_set_params ctx params = 1.
Proof.
  intros H. unfold wp_ecx_gen_set_params, wp_params_get_utf8_string_ptr, param_at.
  rewrite H. reflexivity.
Qed.

Lemma prefix_refl (a : string) : String.prefix a a = true.
Proof.
  induction a as [|x a IH]; simpl; [done|].
  destruct (Ascii.ascii_dec x x); done.
Qed.

Lemma gen_set_params_same_name (ctx : wp_EcxGenCtx) :
  wp_ecx_gen_set_params ctx [group_name_param (gen_name ctx)] = 1.
Proof. apply gen_set_params_prefix, prefix_refl. Qed.

(** C6 (the code at the failing input). A generation context created for
    X25519 accepts the group names "X", "X2" and the empty name, and so does
    one created for X448 the name "X4", although none of them is the name
    of the curve. *)
Theorem C6_prefix_of_name_accepted (rng : WC_RNG) (d : wp_EcxData)
    (pc : WOLFPROV_CTX) (sel : Z) :
  wp_ecx_gen_set_params (mkGenCtx rng d pc sel SN_X25519) [group_name_param "X"] = 1 ∧
  wp_ecx_gen_set_params (mkGenCtx rng d pc sel SN_X25519) [group_name_param "X2"] = 1 ∧
  wp_ecx_gen_set_params (mkGenCtx rng d pc sel SN_X25519) [group_name_param ""] = 1 ∧
  wp_ecx_gen_set_params (mkGenCtx rng d pc sel SN_X448) [group_name_param "X4"] = 1 ∧
  wp_ecx_gen_set_params (mkGenCtx rng d pc sel SN_X25519) [group_name_param "X448"] = 0.
Proof. repeat split; reflexivity. Qed.


(** ** More on the life cycle *)

Lemma drop_fresh_block (h : gmap loc wp_Ecx) (p : loc) (x : wp_Ecx) :
  h !! p = None → delete p (<[p := x]> h) = h.
Proof. intros H. rewrite delete_insert_eq. by apply delete_id. Qed.

(** When [wp_ecx_new] returns NULL nothing stays allocated. *)
Lemma wp_ecx_new_none pc d s s' :
  wp_ecx_new pc d s = Some (None, s') → heap s' = heap s.
Proof.
  unfold wp_ecx_new. unfold_m.
  destruct wolfssl_prov_is_running; simpl; [|by intros [= <-]].
  destruct (hd 0 (fates s) =? 0); simpl; [|by intros [= <-]].
  heap_steps. destruct (initKey d key_zero) as [rc k]. simpl. heap_steps.
  pose proof (fresh_not_live (heap s)) as Hfresh.
  destruct (Z.eqb_spec rc 0) as [->|Hrc]; simpl; heap_steps.
  - destruct (hd 0 (tail (fates s)) =? 0); simpl; heap_steps; [discriminate|].
    intros [= <-]. simpl. rewrite !insert_insert_eq. by apply drop_fresh_block.
  - intros [= <-]. simpl. rewrite !insert_insert_eq. by apply drop_fresh_block.
Qed.

(** X1. [wp_ecx_new] always returns; it returns an object exactly when the
    provider is running, the allocation succeeds, the key initializer
    returns 0 and the mutex is created; when it returns NULL the heap is what
    it was before the call. A key whose initializer failed is deallocated
    without a call of [freeKey]; one whose mutex could not be created goes
    through [freeKey] first. *)
Theorem new_object_or_nothing (pc : WOLFPROV_CTX) (d : wp_EcxData) (s : State) :
  ∃ r s', wp_ecx_new pc d s = Some (r, s') ∧
    (is_Some r ↔
       wolfssl_prov_is_running = true ∧ hd 0 (fates s) = 0 ∧
       (initKey d key_zero).1 = 0 ∧ hd 0 (tail (fates s)) = 0) ∧
    (r = None → heap s' = heap s) ∧
    (wolfssl_prov_is_running = true → hd 0 (fates s) = 0 →
       let p := fresh (dom (heap s)) in
       ((initKey d key_zero).1 ≠ 0 → log s' = log s ++ [EvFree p]) ∧
       ((initKey d key_zero).1 = 0 → hd 0 (tail (fates s)) ≠ 0 →
          log s' = log s ++ [EvFreeKey p; EvFree p])).
Proof.
  destruct (wp_ecx_new_defined pc d s) as [[r s'] Hnew].
  exists r, s'. split; [exact Hnew|]. split; [|split].
  - revert Hnew. unfold wp_ecx_new. unfold_m.
    destruct wolfssl_prov_is_running; simpl.
    2:{ intros [= <- <-]. split; [intros [? [=]]|intros [[=] _]]. }
    destruct (Z.eqb_spec (hd 0 (fates s)) 0) as [Ha|Ha]; simpl.
    2:{ intros [= <- <-]. split; [intros [? [=]]|tauto]. }
    heap_steps. destruct (initKey d key_zero) as [rc k]. simpl. heap_steps.
    destruct (Z.eqb_spec rc 0) as [->|Hrc]; simpl; heap_steps.
    + destruct (Z.eqb_spec (hd 0 (tail (fates s))) 0) as [Hm|Hm]; simpl; heap_steps.
      * intros [= <- <-]. split; [done|eauto].
      * intros [= <- <-]. split; [intros [? [=]]|tauto].
    + intros [= <- <-]. split; [intros [? [=]]|tauto].
  - intros ->. by apply (wp_ecx_new_none pc d).
  - intros Hrun Ha p. revert Hnew. unfold wp_ecx_new. unfold_m.
    rewrite Hrun, Ha. simpl.
    heap_steps. destruct (initKey d key_zero) as [rc k]. simpl in *. heap_steps.
    destruct (Z.eqb_spec rc 0) as [->|Hrc]; simpl; heap_steps.
    + destruct (Z.eqb_spec (hd 0 (tail (fates s))) 0) as [Hm|Hm]; simpl; heap_steps.
      * intros _. split; done.
      * intros [= <- <-]. simpl. split; [done|]. intros _ _.
        by rewrite <- app_assoc.
    + intros [= <- <-]. simpl. split; done.
Qed.

(** X2. A share followed by a release leaves the key object, and the whole
    heap, as they were: the count goes up and comes down again, nothing is
    freed. The share must take effect (its lock acquired) and the count must
    have room. *)
Theorem share_then_release_restores (p : loc) (e : wp_Ecx) (s : State) :
  heap s !! p = Some e →
  0 ≤ hd 0 (fates s) →
  1 ≤ refCnt e < INT_MAX →
  bind (wp_ecx_up_ref p) (λ _, wp_ecx_free (Some p)) s =
    Some (tt, mkState (heap s) (tail (tail (fates s))) (junk s) (log s)).
Proof.
  intros Hp Hlock Hcnt. unfold bind. rewrite (up_ref_step p e s Hp Hlock).
  assert (Hw : wrap_int (refCnt e + 1) = refCnt e + 1)
    by (apply wrap_int_id; unfold INT_MAX in *; lia).
  assert (Hw' : wrap_int (refCnt e + 1 - 1) = refCnt e)
    by (rewrite wrap_int_id; unfold INT_MAX in *; lia).
  rewrite (free_step_keep p (set_refCnt (wrap_int (refCnt e + 1)) e)).
  - simpl. rewrite Hw, Hw', insert_insert_eq. f_equal. f_equal. f_equal.
    apply insert_id. rewrite Hp. f_equal. destruct e; reflexivity.
  - simpl. apply lookup_insert_eq.
  - simpl. rewrite Hw, Hw'. lia.
Qed.

(** X3. [wp_ecx_up_ref] gives up when the lock cannot be taken: it returns 0
    and the object is as it was. [wp_ecx_free] does not: whatever the lock
    call returns, the count goes down by one, and the object is destroyed
    when it reaches 0. *)
Theorem release_proceeds_without_lock (p : loc) (e : wp_Ecx) (s : State) :
  heap s !! p = Some e →
  (hd 0 (fates s) < 0 →
     ∃ s', wp_ecx_up_ref p s = Some (0, s') ∧ heap s' = heap s ∧ log s' = log s) ∧
  ∃ h l, ∀ fs,
    wp_ecx_free (Some p) (mkState (heap s) fs (junk s) (log s)) =
      Some (tt, mkState h (tail fs) (junk s) l) ∧
    h !! p = (if wrap_int (refCnt e - 1) =? 0 then None
              else Some (set_refCnt (wrap_int (refCnt e - 1)) e)) ∧
    (∀ q, q ≠ p → h !! q = heap s !! q).
Proof.
  intros Hp. split.
  - intros Hrc. rewrite (up_ref_lock_failure p e s Hp Hrc). eauto.
  - destruct (Z.eqb_spec (wrap_int (refCnt e - 1)) 0) as [Hc|Hc].
    + exists (delete p (heap s)), (log s ++ [EvFreeMutex p; EvFreeKey p; EvFree p]).
      intros fs. split; [|split].
      * unfold wp_ecx_free. unfold_m. heap_steps. rewrite Hc. simpl.
        destruct (hd 0 fs =? 0); simpl; heap_steps;
          rewrite <- !app_assoc; simpl; rewrite ?delete_insert_eq; reflexivity.
      * apply lookup_delete_eq.
      * intros q Hq. by rewrite lookup_delete_ne.
    + exists (<[p := set_refCnt (wrap_int (refCnt e - 1)) e]> (heap s)), (log s).
      intros fs. split; [|split].
      * apply (free_step_keep p e (mkState (heap s) fs (junk s) (log s))); done.
      * apply lookup_insert_eq.
      * intros q Hq. by rewrite lookup_insert_ne.
Qed.

(** What [wp_ecx_dup] leaves when it returns an object. *)
Lemma wp_ecx_dup_some src selection s e d s1 :
  heap s !! src = Some e →
  wp_ecx_dup src selection s = Some (Some d, s1) →
  heap s !! d = None ∧ d ≠ src ∧
  heap s1 = <[d := mkEcx (key e) (data e) 1 (provCtx e) (includePublic e)
                     (hasPub e) (hasPriv e)]> (heap s) ∧
  log s1 = log s ∧ junk s1 = junk s.
Proof.
  intros Hsrc. unfold wp_ecx_dup. unfold bind at 1. unfold deref at 1. rewrite Hsrc.
  unfold bind at 1.
  destruct (wp_ecx_new_defined (provCtx e) (data e) s) as [[[d'|] s0] Hnew];
    rewrite Hnew; [|unfold ret; discriminate].
  destruct (wp_ecx_new_some _ _ _ _ _ Hnew) as (Hfresh & Hh & _ & Hl & Hj & _).
  assert (Hne : d' ≠ src) by (intros ->; congruence).
  unfold_m. rewrite Hh. rewrite lookup_insert_ne by done. rewrite Hsrc.
  simpl. rewrite Hh, lookup_insert_eq. simpl. rewrite Hh, lookup_insert_eq.
  intros [= <- <-]. simpl. rewrite insert_insert_eq. done.
Qed.

Lemma heap_back (h h' : gmap loc wp_Ecx) (p : loc) :
  h !! p = None → h' !! p = None → (∀ q, q ≠ p → h' !! q = h !! q) → h' = h.
Proof.
  intros Hp Hp' Hq. apply map_eq. intros q.
  destruct (decide (q = p)) as [->|Hne]; [congruence|auto].
Qed.

(** X4. Releasing a duplicate undoes the duplication: the store is what it
    was before [wp_ecx_dup], the source included, and the only releases
    logged are those of the duplicate. *)
Theorem dup_then_free_restores (src : loc) (selection : Z) (s : State) (e : wp_Ecx)
    (d : loc) (s1 : State) :
  heap s !! src = Some e →
  wp_ecx_dup src selection s = Some (Some d, s1) →
  ∃ s2, wp_ecx_free (Some d) s1 = Some (tt, s2) ∧
        heap s2 = heap s ∧
        log s2 = log s ++ [EvFreeMutex d; EvFreeKey d; EvFree d].
Proof.
  intros Hsrc Hdup.
  destruct (wp_ecx_dup_some _ _ _ _ _ _ Hsrc Hdup) as (Hfresh & Hne & Hh & Hl & _).
  destruct (free_step_last d (mkEcx (key e) (data e) 1 (provCtx e) (includePublic e)
                                (hasPub e) (hasPriv e)) s1)
    as (h & Hfree & Hgone & Hrest).
  { rewrite Hh. apply lookup_insert_eq. }
  { reflexivity. }
  rewrite Hfree. eexists. split; [reflexivity|]. simpl. split; [|by rewrite Hl].
  apply (heap_back _ _ d Hfresh Hgone). intros q Hq.
  rewrite (Hrest q Hq), Hh. by rewrite lookup_insert_ne.
Qed.

(** The answers of [wp_ecx_has] and [wp_ecx_match] are read off the key
    material, the descriptor and the two flags. *)
Lemma has_reads (a a' : wp_Ecx) selection :
  hasPub a' = hasPub a → hasPriv a' = hasPriv a →
  wp_ecx_has (Some a') selection = wp_ecx_has (Some a) selection.
Proof. intros Hpub Hpriv. unfold wp_ecx_has. by rewrite Hpub, Hpriv. Qed.

Lemma match_reads_left fr (a a' b : wp_Ecx) selection :
  key a' = key a → data a' = data a → hasPub a' = hasPub a → hasPriv a' = hasPriv a →
  wp_ecx_match fr a' b selection = wp_ecx_match fr a b selection.
Proof.
  intros Hk Hd Hpub Hpriv. rewrite !match_spec. unfold exported_priv, exported_pub.
  by rewrite Hk, Hd, Hpub, Hpriv.
Qed.

Lemma match_reads_right fr (a b b' : wp_Ecx) selection :
  key b' = key b → data b' = data b → hasPub b' = hasPub b → hasPriv b' = hasPriv b →
  wp_ecx_match fr a b' selection = wp_ecx_match fr a b selection.
Proof.
  intros Hk Hd Hpub Hpriv. rewrite !match_spec. unfold exported_priv, exported_pub.
  by rewrite Hk, Hd, Hpub, Hpriv.
Qed.

(** X5. A duplicate cannot be told from its source through the key
    manager: [wp_ecx_has], [wp_ecx_match] on either side against any other
    key, [wp_ecx_get_params] and [wp_ecx_export] answer for the duplicate as
    for the source, although the duplicate starts with a reference count of
    its own. *)
Theorem dup_answers_as_source (src : loc) (selection : Z) (s : State) (e : wp_Ecx)
    (d : loc) (s1 : State) :
  heap s !! src = Some e →
  wp_ecx_dup src selection s = Some (Some d, s1) →
  ∃ e', heap s1 !! d = Some e' ∧ refCnt e' = 1 ∧
    (∀ sel, wp_ecx_has (Some e') sel = wp_ecx_has (Some e) sel) ∧
    (∀ fr other sel,
       wp_ecx_match fr e' other sel = wp_ecx_match fr e other sel ∧
       wp_ecx_match fr other e' sel = wp_ecx_match fr other e sel) ∧
    (∀ params, wp_ecx_get_params e' params = wp_ecx_get_params e params) ∧
    (∀ sel cb, wp_ecx_export e' sel cb = wp_ecx_export e sel cb).
Proof.
  intros Hsrc Hdup.
  destruct (wp_ecx_dup_some _ _ _ _ _ _ Hsrc Hdup) as (_ & _ & Hh & _).
  eexists. split; [rewrite Hh; apply lookup_insert_eq|]. simpl.
  split; [done|]. split; [|split; [|split]].
  - intros sel. by apply has_reads.
  - intros fr other sel. split; [by apply match_reads_left|by apply match_reads_right].
  - reflexivity.
  - reflexivity.
Qed.

(** The last release of the object at [p], met in the middle of a run. *)
Ltac release_last p h Hfree Hgone Hrest :=
  match goal with
  | |- context [bind (bind (wc_LockMutex p) _) _ ?st] =>
      let e0 := fresh "e0" in
      evar (e0 : wp_Ecx);
      destruct (free_step_last p e0 st) as (h & Hfree & Hgone & Hrest);
      subst e0; [apply lookup_insert_eq|reflexivity|];
      unfold wp_ecx_free in Hfree; unfold bind at 1; rewrite Hfree
  end.

(** [wp_ecx_gen] never touches a dead object. *)
Lemma wp_ecx_gen_defined ctx s : is_Some (wp_ecx_gen ctx s).
Proof.
  unfold wp_ecx_gen. unfold bind at 1.
  destruct (wp_ecx_new_defined (gen_provCtx ctx) (gen_data ctx) s) as [[[p|] s1] Hnew];
    rewrite Hnew; [|unfold ret; eauto].
  destruct (wp_ecx_new_some _ _ _ _ _ Hnew) as (Hfresh & Hh & _).
  destruct (nz (Z.land (gen_selection ctx) OSSL_KEYMGMT_SELECT_KEYPAIR)); [|unfold ret; eauto].
  unfold bind at 1. unfold deref at 1. rewrite Hh, lookup_insert_eq. simpl.
  destruct (makeKey _ _ _ _) as [rc k]. 
  unfold bind at 1. unfold assign at 1. rewrite Hh, lookup_insert_eq. simpl.
  destruct (nz rc).
  - release_last p h Hfree Hgone Hrest. unfold ret. eauto.
  - unfold_m. heap_steps. eauto.
Qed.

(** X6. [wp_ecx_gen] always returns. When it returns a key, the key is a
    new object of the context's curve with a reference count of 1; with a
    key-pair bit in the selection it holds the key the generator made, the
    generator returned 0 and both components are marked present; without one
    the generator is not called and the object is empty. When it returns
    NULL the store is what it was: the object of a failed generation is
    released. *)
Theorem gen_key_or_nothing (ctx : wp_EcxGenCtx) (s : State) :
  ∃ r s', wp_ecx_gen ctx s = Some (r, s') ∧
    match r with
    | Some p =>
        heap s !! p = None ∧
        let k0 := (initKey (gen_data ctx) key_zero).2 in
        let made := makeKey (gen_data ctx) (gen_rng ctx) (len (gen_data ctx)) k0 in
        let pair := nz (Z.land (gen_selection ctx) OSSL_KEYMGMT_SELECT_KEYPAIR) in
        (pair = true → made.1 = 0) ∧
        heap s' = <[p := mkEcx (if pair then made.2 else k0) (gen_data ctx) 1
                           (gen_provCtx ctx) 0 pair pair]> (heap s) ∧
        log s' = log s
    | None => heap s' = heap s
    end.
Proof.
  destruct (wp_ecx_gen_defined ctx s) as [[r s'] Hgen]. exists r, s'.
  split; [exact Hgen|]. revert Hgen.
  unfold wp_ecx_gen. unfold bind at 1.
  destruct (wp_ecx_new_defined (gen_provCtx ctx) (gen_data ctx) s) as [[[p|] s1] Hnew];
    rewrite Hnew.
  2:{ unfold ret. intros [= <- <-]. by apply (wp_ecx_new_none _ _ _ _ Hnew). }
  destruct (wp_ecx_new_some _ _ _ _ _ Hnew) as (Hfresh & Hh & _ & Hl & _).
  destruct (nz (Z.land (gen_selection ctx) OSSL_KEYMGMT_SELECT_KEYPAIR)).
  2:{ unfold ret. intros [= <- <-]. simpl. done. }
  unfold bind at 1. unfold deref at 1. rewrite Hh, lookup_insert_eq. simpl.
  destruct (makeKey _ _ _ _) as [rc k].
  unfold bind at 1. unfold assign at 1. rewrite Hh, lookup_insert_eq. simpl.
  destruct (nz rc) eqn:Hrc.
  - release_last p h Hfree Hgone Hrest. unfold ret. intros [= <- <-]. simpl.
    apply (heap_back _ _ p Hfresh Hgone). intros q Hq.
    rewrite (Hrest q Hq). simpl. by rewrite !lookup_insert_ne.
  - unfold_m. heap_steps. intros [= <- <-]. simpl.
    split; [done|]. split; [intros _; unfold nz in Hrc; destruct (Z.eqb_spec rc 0); done|].
    rewrite !insert_insert_eq. done.
Qed.
(** ** Components of a key *)

Lemma land_sub (s m k : Z) : Z.land m k = k → Z.land s m = 0 → Z.land s k = 0.
Proof. intros Hk Hm. rewrite <- Hk, Z.land_assoc, Hm. apply Z.land_0_l. Qed.

Lemma nz_false z : nz z = false ↔ z = 0.
Proof. unfold nz. destruct (Z.eqb_spec z 0); simpl; split; (done || lia). Qed.

Lemma wp_ecx_has_value (e : wp_Ecx) (selection : Z) :
  wp_ecx_has (Some e) selection =
    Z.b2z (wolfssl_prov_is_running &&
           (negb (nz (Z.land selection OSSL_KEYMGMT_SELECT_PUBLIC_KEY)) || hasPub e) &&
           (negb (nz (Z.land selection OSSL_KEYMGMT_SELECT_PRIVATE_KEY)) || hasPriv e)).
Proof.
  unfold wp_ecx_has.
  destruct wolfssl_prov_is_running; simpl; [|reflexivity].
  destruct (nz (Z.land selection WP_ECX_POSSIBLE_SELECTIONS)) eqn:Hposs.
  - destruct (nz (Z.land selection OSSL_KEYMGMT_SELECT_PUBLIC_KEY)),
      (nz (Z.land selection OSSL_KEYMGMT_SELECT_PRIVATE_KEY)), (hasPub e), (hasPriv e);
      reflexivity.
  - apply nz_false in Hposs.
    rewrite (land_sub selection WP_ECX_POSSIBLE_SELECTIONS OSSL_KEYMGMT_SELECT_PUBLIC_KEY eq_refl Hposs).
    rewrite (land_sub selection WP_ECX_POSSIBLE_SELECTIONS OSSL_KEYMGMT_SELECT_PRIVATE_KEY eq_refl Hposs).
    reflexivity.
Qed.

Lemma wp_ecx_has_iff (e : wp_Ecx) (selection : Z) :
  wp_ecx_has (Some e) selection = 1 ↔
    wolfssl_prov_is_running = true ∧
    (Z.land selection OSSL_KEYMGMT_SELECT_PUBLIC_KEY ≠ 0 → hasPub e = true) ∧
    (Z.land selection OSSL_KEYMGMT_SELECT_PRIVATE_KEY ≠ 0 → hasPriv e = true).
Proof.
  rewrite wp_ecx_has_value, b2z_1, !andb_true_iff.
  rewrite (selected_or (hasPub e = true)), (selected_or (hasPriv e = true)) by done.
  tauto.
Qed.

(** X7. [wp_ecx_has] answers 1 or 0; for a NULL object 0; for an object 1
    exactly when the provider is running and the object has each of the
    public and the private component that the selection names. Bits of the
    selection other than these two have no influence, and a selection
    composed of two is satisfied exactly when both are. *)
Theorem has_selected_components (e : wp_Ecx) (selection : Z) :
  (wp_ecx_has (Some e) selection = 1 ∨ wp_ecx_has (Some e) selection = 0) ∧
  wp_ecx_has None selection = 0 ∧
  (wp_ecx_has (Some e) selection = 1 ↔
     wolfssl_prov_is_running = true ∧
     (Z.land selection OSSL_KEYMGMT_SELECT_PUBLIC_KEY ≠ 0 → hasPub e = true) ∧
     (Z.land selection OSSL_KEYMGMT_SELECT_PRIVATE_KEY ≠ 0 → hasPriv e = true)) ∧
  wp_ecx_has (Some e) selection =
    wp_ecx_has (Some e) (Z.land selection OSSL_KEYMGMT_SELECT_KEYPAIR) ∧
  (∀ other, wp_ecx_has (Some e) (Z.lor selection other) = 1 ↔
              wp_ecx_has (Some e) selection = 1 ∧ wp_ecx_has (Some e) other = 1).
Proof.
  assert (H01 : ∀ sel, wp_ecx_has (Some e) sel = 1 ∨ wp_ecx_has (Some e) sel = 0).
  { intros sel. rewrite wp_ecx_has_value. destruct (_ && _); auto. }
  split; [apply H01|]. split; [reflexivity|]. split; [apply wp_ecx_has_iff|].
  split.
  - assert (Hiff : wp_ecx_has (Some e) selection = 1 ↔
                   wp_ecx_has (Some e) (Z.land selection OSSL_KEYMGMT_SELECT_KEYPAIR) = 1).
    { rewrite !wp_ecx_has_iff. rewrite <- !Z.land_assoc. simpl. reflexivity. }
    destruct (H01 selection) as [H|H],
      (H01 (Z.land selection OSSL_KEYMGMT_SELECT_KEYPAIR)) as [H'|H']; try congruence.
    + apply Hiff in H. congruence.
    + apply Hiff in H'. congruence.
  - intros other. rewrite !wp_ecx_has_iff.
    rewrite !Z.land_lor_distr_l.
    assert (Hor : ∀ a b : Z, Z.lor a b ≠ 0 ↔ a ≠ 0 ∨ b ≠ 0).
    { intros a b. rewrite Z.lor_eq_0_iff. lia. }
    rewrite !Hor. tauto.
Qed.


(** ** More on import *)

Lemma octet_of_None_any_len params key_ n :
  octet_of params key_ = None →
  ∃ r m, wp_params_get_octet_string_ptr params key_ None n = (r, None, m).
Proof.
  unfold octet_of. intros H.
  destruct (get_octet_len_indep params key_ n) as [Heq _].
  destruct (wp_params_get_octet_string_ptr params key_ None 0) as [[r0 [d0|]] m0];
    [discriminate|].
  destruct (wp_params_get_octet_string_ptr params key_ None n) as [[r [d|]] m];
    simpl in Heq; [discriminate|eauto].
Qed.

(** X9. [wp_ecx_import] returns 0 and leaves the object as it is: for a
    NULL object; when the provider is not running; when the selection names
    neither the private nor the public key, parameter bits alone not being
    enough; and when the parameters hold neither key. When it succeeds the
    object has its public component marked present, also when only a private
    key was imported. With the private key not selected the private flag
    stays as it is, and the key material is either untouched or what the
    public import primitive left. *)
Theorem import_needs_a_key (e : wp_Ecx) (selection : Z) (params : list OSSL_PARAM) :
  let r := wp_ecx_import (Some e) selection params in
  wp_ecx_import None selection params = (0, None) ∧
  (wolfssl_prov_is_running = false ∨
   Z.land selection OSSL_KEYMGMT_SELECT_KEYPAIR = 0 ∨
   (octet_of params OSSL_PKEY_PARAM_PRIV_KEY = None ∧
    octet_of params OSSL_PKEY_PARAM_PUB_KEY = None) →
   r = (0, Some e)) ∧
  (r.1 ≠ 0 → ∃ e', r.2 = Some e' ∧ hasPub e' = true) ∧
  (Z.land selection OSSL_KEYMGMT_SELECT_PRIVATE_KEY = 0 →
     ∃ e', r.2 = Some e' ∧ hasPriv e' = hasPriv e ∧
       (key e' = key e ∨
        ∃ d n, octet_of params OSSL_PKEY_PARAM_PUB_KEY = Some (d, n) ∧
               key e' = (importPub (data e) d n (key e) EC25519_LITTLE_ENDIAN).2)).
Proof.
  intros r. subst r. split; [|split; [|split]].
  - unfold wp_ecx_import. destruct wolfssl_prov_is_running; reflexivity.
  - intros [Hrun|[Hsel|[Hpriv Hpub]]]; unfold wp_ecx_import.
    + rewrite Hrun. reflexivity.
    + rewrite (land_sub selection OSSL_KEYMGMT_SELECT_KEYPAIR
                 OSSL_KEYMGMT_SELECT_PRIVATE_KEY eq_refl Hsel).
      rewrite (land_sub selection OSSL_KEYMGMT_SELECT_KEYPAIR
                 OSSL_KEYMGMT_SELECT_PUBLIC_KEY eq_refl Hsel).
      destruct wolfssl_prov_is_running; simpl; [|reflexivity].
      destruct (Z.land selection WP_ECX_POSSIBLE_SELECTIONS =? 0); reflexivity.
    + destruct wolfssl_prov_is_running; simpl; [|reflexivity].
      destruct (Z.land selection WP_ECX_POSSIBLE_SELECTIONS =? 0); simpl; [reflexivity|].
      destruct (octet_of_None_any_len _ _ 0 Hpriv) as (r1 & m1 & H1). rewrite H1.
      destruct (nz (Z.land selection OSSL_KEYMGMT_SELECT_PRIVATE_KEY)); simpl.
      * destruct (octet_of_None_any_len _ _ m1 Hpub) as (r2 & m2 & H2).
        destruct (r1 =? 0); simpl.
        -- reflexivity.
        -- rewrite H2. destruct (nz (Z.land selection OSSL_KEYMGMT_SELECT_PUBLIC_KEY));
             simpl; [destruct (r2 =? 0)|]; reflexivity.
      * destruct (octet_of_None_any_len _ _ 0 Hpub) as (r2 & m2 & H2). rewrite H2.
        destruct (nz (Z.land selection OSSL_KEYMGMT_SELECT_PUBLIC_KEY));
          simpl; [destruct (r2 =? 0)|]; reflexivity.
  - unfold wp_ecx_import.
    destruct wolfssl_prov_is_running; simpl; [|done].
    repeat import_case; try done; intros _; eexists; (split; [reflexivity|]); done.
  - intros Hsel. unfold wp_ecx_import. rewrite Hsel.
    destruct wolfssl_prov_is_running; simpl; [|eauto].
    repeat import_case; eexists; (split; [reflexivity|]); simpl; (split; [done|]);
      try (by left).
    all: right;
      match goal with
      | H : wp_params_get_octet_string_ptr _ _ None _ = (_, Some _, _) |- _ =>
          apply octet_of_other_len in H
      end;
      eexists _, _; (split; [eassumption|]);
      match goal with
      | H : importPub _ _ _ _ _ = _ |- _ => rewrite H
      end; done.
Qed.

(** ** Validation *)

Lemma land_pow2 (s k : Z) :
  0 ≤ k → Z.land s (2 ^ k) = if Z.testbit s k then 2 ^ k else 0.
Proof.
  intros Hk. apply Z.bits_inj'. intros i Hi.
  rewrite Z.land_spec, Z.pow2_bits_eqb by lia.
  destruct (Z.eqb_spec k i) as [->|Hne].
  - destruct (Z.testbit s i) eqn:E; simpl.
    + by rewrite Z.pow2_bits_eqb, Z.eqb_refl by lia.
    + by rewrite Z.bits_0.
  - rewrite andb_false_r. destruct (Z.testbit s k).
    + rewrite Z.pow2_bits_eqb by lia. symmetry. by apply Z.eqb_neq.
    + by rewrite Z.bits_0.
Qed.

(** Both key bits are in a selection exactly when each of them is. *)
Lemma keypair_selected (selection : Z) :
  (Z.land selection OSSL_KEYMGMT_SELECT_KEYPAIR =? OSSL_KEYMGMT_SELECT_KEYPAIR) =
    nz (Z.land selection OSSL_KEYMGMT_SELECT_PUBLIC_KEY) &&
    nz (Z.land selection OSSL_KEYMGMT_SELECT_PRIVATE_KEY).
Proof.
  unfold OSSL_KEYMGMT_SELECT_KEYPAIR. rewrite Z.land_lor_distr_r.
  change OSSL_KEYMGMT_SELECT_PRIVATE_KEY with (2 ^ 0).
  change OSSL_KEYMGMT_SELECT_PUBLIC_KEY with (2 ^ 1).
  rewrite !land_pow2 by lia.
  destruct (Z.testbit selection 0), (Z.testbit selection 1); reflexivity.
Qed.

Lemma x_validate_value (key_ : list byte) (ecx : wp_Ecx) (selection checkType : Z)
    (check : list byte → Z → Z → Z) :
  checkPub (data ecx) = Some check →
  wp_ecx_x_validate key_ ecx selection checkType =
    Some (Z.b2z
      ((negb (nz (Z.land selection OSSL_KEYMGMT_SELECT_PUBLIC_KEY)) ||
        (hasPub ecx &&
         let '(rc, out, n) := exportPub (data ecx) (key ecx) key_ (len (data ecx))
                                EC25519_LITTLE_ENDIAN in
         (rc =? 0) && (check out n EC25519_LITTLE_ENDIAN =? 0))) &&
       (negb (nz (Z.land selection OSSL_KEYMGMT_SELECT_PRIVATE_KEY)) || hasPriv ecx))).
Proof.
  intros Hcheck. unfold wp_ecx_x_validate, wp_ecx_validate_pub_key. rewrite Hcheck.
  destruct (exportPub _ _ _ _ _) as [[rc out] n]. unfold nz.
  destruct (Z.land selection OSSL_KEYMGMT_SELECT_PUBLIC_KEY =? 0),
    (Z.land selection OSSL_KEYMGMT_SELECT_PRIVATE_KEY =? 0),
    (hasPub ecx), (hasPriv ecx), (rc =? 0); simpl;
    try destruct (check out n EC25519_LITTLE_ENDIAN =? 0); reflexivity.
Qed.

(** X10. For a key of a curve that has a public key check (X25519, X448),
    [wp_ecx_x_validate] returns 1 or 0, and 1 exactly when: if the public
    key is selected, the key has one, its export succeeds and the check
    accepts the exported bytes; and if the private key is selected, the key
    has one. The private key itself is not examined, and neither is the
    check type. With the provider running, a key that validates for a
    selection has the components of that selection. *)
Theorem x_validate_checks_public_key (key_ : list byte) (ecx : wp_Ecx)
    (selection checkType : Z) (check : list byte → Z → Z → Z) :
  checkPub (data ecx) = Some check →
  ∃ r, wp_ecx_x_validate key_ ecx selection checkType = Some r ∧
    (r = 1 ∨ r = 0) ∧
    (r = 1 ↔
       (Z.land selection OSSL_KEYMGMT_SELECT_PUBLIC_KEY ≠ 0 →
          hasPub ecx = true ∧
          ∃ out n, exportPub (data ecx) (key ecx) key_ (len (data ecx))
                     EC25519_LITTLE_ENDIAN = (0, out, n) ∧
                   check out n EC25519_LITTLE_ENDIAN = 0) ∧
       (Z.land selection OSSL_KEYMGMT_SELECT_PRIVATE_KEY ≠ 0 → hasPriv ecx = true)) ∧
    (∀ checkType', wp_ecx_x_validate key_ ecx selection checkType' = Some r) ∧
    (r = 1 → wolfssl_prov_is_running = true → wp_ecx_has (Some ecx) selection = 1).
Proof.
  intros Hcheck. eexists. split; [by apply x_validate_value|].
  split; [destruct (_ && _); auto|].
  assert (Hpub :
    hasPub ecx &&
      (let '(rc, out, n) := exportPub (data ecx) (key ecx) key_ (len (data ecx))
                              EC25519_LITTLE_ENDIAN in
       (rc =? 0) && (check out n EC25519_LITTLE_ENDIAN =? 0)) = true ↔
    hasPub ecx = true ∧
    ∃ out n, exportPub (data ecx) (key ecx) key_ (len (data ecx))
               EC25519_LITTLE_ENDIAN = (0, out, n) ∧
             check out n EC25519_LITTLE_ENDIAN = 0).
  { rewrite andb_true_iff. destruct (exportPub _ _ _ _ _) as [[rc out] n].
    rewrite andb_true_iff, !Z.eqb_eq. split.
    - intros (? & -> & ?). eauto.
    - intros (? & ? & ? & [= -> -> ->] & ?). done. }
  assert (Hiff : ∀ P Q : Prop, ∀ x y : bool,
            (x = true ↔ P) → (y = true ↔ Q) → (Z.b2z (x && y) = 1 ↔ P ∧ Q)).
  { intros P Q x y <- <-. rewrite b2z_1, andb_true_iff. done. }
  split; [|split].
  - apply Hiff; by apply selected_or.
  - intros checkType'. by apply x_validate_value.
  - intros H1 Hrun. apply wp_ecx_has_iff.
    eapply (Hiff _ _ _ _ (selected_or _ _ _ Hpub)
              (selected_or (hasPriv ecx = true) _ _ (reflexivity _))) in H1
      as [Hp Hq].
    split; [done|]. split; [|done]. intros Hsel. by destruct (Hp Hsel).
Qed.

Lemma ed_validate_value (ecx : wp_Ecx) (selection checkType : Z) (check : key_union → Z) :
  checkKey (data ecx) = Some check →
  wp_ecx_ed_validate ecx selection checkType =
    Some (Z.b2z
      ((negb (nz (Z.land selection OSSL_KEYMGMT_SELECT_PUBLIC_KEY)) || hasPub ecx) &&
       (negb (nz (Z.land selection OSSL_KEYMGMT_SELECT_PRIVATE_KEY)) || hasPriv ecx) &&
       (negb (nz (Z.land selection OSSL_KEYMGMT_SELECT_PUBLIC_KEY) &&
              nz (Z.land selection OSSL_KEYMGMT_SELECT_PRIVATE_KEY)) ||
        (check (key ecx) =? 0)))).
Proof.
  intros Hcheck. unfold wp_ecx_ed_validate. rewrite Hcheck, keypair_selected.
  unfold nz.
  destruct (Z.land selection OSSL_KEYMGMT_SELECT_PUBLIC_KEY =? 0),
    (Z.land selection OSSL_KEYMGMT_SELECT_PRIVATE_KEY =? 0),
    (hasPub ecx), (hasPriv ecx), (check (key ecx) =? 0); reflexivity.
Qed.

(** X11. For a key of a curve that has a key check (Ed25519, Ed448),
    [wp_ecx_ed_validate] returns 1 or 0, and 1 exactly when the key has each
    selected component and, if both are selected, the key check accepts the
    key. The check is not consulted for a selection of one component only,
    and the check type never. With the provider running, a key that
    validates for a selection has the components of that selection. *)
Theorem ed_validate_checks_key_pair (ecx : wp_Ecx) (selection checkType : Z)
    (check : key_union → Z) :
  checkKey (data ecx) = Some check →
  ∃ r, wp_ecx_ed_validate ecx selection checkType = Some r ∧
    (r = 1 ∨ r = 0) ∧
    (r = 1 ↔
       (Z.land selection OSSL_KEYMGMT_SELECT_PUBLIC_KEY ≠ 0 → hasPub ecx = true) ∧
       (Z.land selection OSSL_KEYMGMT_SELECT_PRIVATE_KEY ≠ 0 → hasPriv ecx = true) ∧
       (Z.land selection OSSL_KEYMGMT_SELECT_PUBLIC_KEY ≠ 0 →
        Z.land selection OSSL_KEYMGMT_SELECT_PRIVATE_KEY ≠ 0 → check (key ecx) = 0)) ∧
    (∀ checkType', wp_ecx_ed_validate ecx selection checkType' = Some r) ∧
    (r = 1 → wolfssl_prov_is_running = true → wp_ecx_has (Some ecx) selection = 1).
Proof.
  intros Hcheck. eexists. split; [by apply ed_validate_value|].
  split; [destruct (_ && _); auto|].
  assert (Hiff :
    Z.b2z
      ((negb (nz (Z.land selection OSSL_KEYMGMT_SELECT_PUBLIC_KEY)) || hasPub ecx) &&
       (negb (nz (Z.land selection OSSL_KEYMGMT_SELECT_PRIVATE_KEY)) || hasPriv ecx) &&
       (negb (nz (Z.land selection OSSL_KEYMGMT_SELECT_PUBLIC_KEY) &&
              nz (Z.land selection OSSL_KEYMGMT_SELECT_PRIVATE_KEY)) ||
        (check (key ecx) =? 0))) = 1 ↔
    (Z.land selection OSSL_KEYMGMT_SELECT_PUBLIC_KEY ≠ 0 → hasPub ecx = true) ∧
    (Z.land selection OSSL_KEYMGMT_SELECT_PRIVATE_KEY ≠ 0 → hasPriv ecx = true) ∧
    (Z.land selection OSSL_KEYMGMT_SELECT_PUBLIC_KEY ≠ 0 →
     Z.land selection OSSL_KEYMGMT_SELECT_PRIVATE_KEY ≠ 0 → check (key ecx) = 0)).
  { rewrite b2z_1, !andb_true_iff.
    rewrite (selected_or (hasPub ecx = true)), (selected_or (hasPriv ecx = true)) by done.
    rewrite orb_true_iff, negb_true_iff, andb_false_iff, Z.eqb_eq, !nz_false.
    split; [intros [[? ?] Hc]|intros (? & ? & Hc)].
    - split; [done|]. split; [done|]. intros ? ?. destruct Hc as [[|]|]; done.
    - split; [done|].
      destruct (Z.eq_dec (Z.land selection OSSL_KEYMGMT_SELECT_PUBLIC_KEY) 0); [auto|].
      destruct (Z.eq_dec (Z.land selection OSSL_KEYMGMT_SELECT_PRIVATE_KEY) 0); auto. }
  split; [exact Hiff|]. split.
  - intros checkType'. by apply ed_validate_value.
  - intros H1 Hrun. apply wp_ecx_has_iff. apply Hiff in H1 as (? & ? & _). done.
Qed.

(** ** The parameters of a key, by selection *)

(** X12. The parameter types [wp_ecx_key_types] gives for a selection, up
    to the end marker, are the private key entry if the private key is
    selected, followed by the public key entry if the public key is; no
    other bit of the selection matters, and the list for importing is the
    list for exporting. What is returned lies within the table and ends in
    an end marker. *)
Theorem key_types_follow_selection (selection : Z) :
  params_upto_end (wp_ecx_key_types selection) =
    (if nz (Z.land selection OSSL_KEYMGMT_SELECT_PRIVATE_KEY)
     then [WP_ECX_PRIVATE_KEY_PARAMS] else []) ++
    (if nz (Z.land selection OSSL_KEYMGMT_SELECT_PUBLIC_KEY)
     then [WP_ECX_PUBLIC_KEY_PARAMS] else []) ∧
  (∃ rest, wp_ecx_key_types selection =
             (Some <$> params_upto_end (wp_ecx_key_types selection)) ++ None :: rest) ∧
  wp_ecx_import_types selection = wp_ecx_export_types selection.
Proof.
  unfold wp_ecx_import_types, wp_ecx_export_types, wp_ecx_key_types.
  destruct (nz (Z.land selection OSSL_KEYMGMT_SELECT_PUBLIC_KEY)),
    (nz (Z.land selection OSSL_KEYMGMT_SELECT_PRIVATE_KEY)); simpl;
    (split; [reflexivity|]); (split; [eexists; reflexivity|reflexivity]).
Qed.

(** ** More on export *)

(** X13. [wp_ecx_export] always returns and leaves the key objects alone.
    When the buffer cannot be allocated it returns 0 and nothing is handed
    out or released. When the public export fails it returns 0 without
    calling the callback, and the buffer is released with a length of 0 to
    clear. Otherwise the callback is called once, with one entry, or two
    when the private key is selected; its result is the result of the
    export; and the buffer is released afterwards, the length to clear
    being that of the public key, also when the private key was written
    behind it. *)
Theorem export_outcomes (ecx : wp_Ecx) (selection : Z) (paramCb : list OSSL_PARAM → Z)
    (s : State) :
  let priv := nz (Z.land selection OSSL_KEYMGMT_SELECT_PRIVATE_KEY) in
  let size := if priv then len (data ecx) + len (data ecx) else len (data ecx) in
  let pub := exportPub (data ecx) (key ecx) (buf_read (junk s) size) (len (data ecx))
               EC25519_LITTLE_ENDIAN in
  ∃ r s', wp_ecx_export ecx selection paramCb s = Some (r, s') ∧
    heap s' = heap s ∧ fates s' = tail (fates s) ∧
    (hd 0 (fates s) ≠ 0 → r = 0 ∧ log s' = log s) ∧
    (hd 0 (fates s) = 0 → pub.1.1 ≠ 0 →
       r = 0 ∧ log s' = log s ++ [EvClearFree pub.1.2 0]) ∧
    (hd 0 (fates s) = 0 → pub.1.1 = 0 →
       ∃ params buf,
         r = paramCb params ∧
         log s' = log s ++ [EvCallback params; EvClearFree buf pub.2] ∧
         length params = (if priv then 2 else 1)%nat ∧
         buf = if priv
               then buf_put pub.2 pub.1.2
                      (exportPriv (data ecx) (key ecx) (buf_at pub.2 pub.1.2)
                         (len (data ecx))).1.2
               else pub.1.2).
Proof.
  intros priv size pub. subst priv size pub.
  unfold wp_ecx_export. unfold_m.
  destruct (Z.eqb_spec (hd 0 (fates s)) 0) as [Hf|Hf]; simpl.
  2:{ eexists _, _. split; [reflexivity|]. simpl. repeat split; try done. }
  unfold wp_ecx_export_keypair_alloc_size, wp_ecx_export_keypair.
  destruct (nz (Z.land selection OSSL_KEYMGMT_SELECT_PRIVATE_KEY)) eqn:Hpriv; simpl.
  - change (buf_at 0 ?b) with b.
    destruct (exportPub _ _ _ _ _) as [[rc out] n]. simpl.
    unfold nz. destruct (Z.eqb_spec rc 0) as [->|Hrc]; simpl.
    + change (buf_put 0 ?b out) with out.
      destruct (exportPriv _ _ _ _) as [[rcp outp] np]. simpl.
      eexists _, _. split; [reflexivity|]. simpl.
      split; [done|]. split; [done|]. split; [done|]. split; [done|].
      intros _ _. eexists _, _. split; [reflexivity|].
      rewrite <- app_assoc. split; [reflexivity|]. split; reflexivity.
    + eexists _, _. split; [reflexivity|]. simpl.
      split; [done|]. split; [done|]. split; [done|]. split; [|done].
      intros _ _. split; [done|]. reflexivity.
  - change (buf_at 0 ?b) with b.
    destruct (exportPub _ _ _ _ _) as [[rc out] n]. simpl.
    unfold nz. destruct (Z.eqb_spec rc 0) as [->|Hrc]; simpl.
    + eexists _, _. split; [reflexivity|]. simpl.
      split; [done|]. split; [done|]. split; [done|]. split; [done|].
      intros _ _. eexists _, _. split; [reflexivity|].
      rewrite <- app_assoc. split; [reflexivity|]. split; reflexivity.
    + eexists _, _. split; [reflexivity|]. simpl.
      split; [done|]. split; [done|]. split; [done|]. split; [|done].
      intros _ _. split; [done|]. reflexivity.
Qed.

(** ** More on the parameters of a key *)

Lemma updates_only_step (ks : list string) (k : string) (params ps ps' : list OSSL_PARAM) :
  k ∈ ks →
  (map p_key ps = map p_key params ∧
   ∀ i p, params !! i = Some p → p_key p ∉ ks → ps !! i = Some p) →
  updates_only k ps ps' →
  map p_key ps' = map p_key params ∧
  ∀ i p, params !! i = Some p → p_key p ∉ ks → ps' !! i = Some p.
Proof.
  intros Hk [Hm Hu] [Hm' Hu']. split; [congruence|].
  intros i p Hi Hp. apply Hu'; [by apply Hu|]. intros Heq. apply Hp. by rewrite Heq.
Qed.

(** X14. [wp_ecx_get_params] returns 1 or 0 and, whatever it returns, keeps
    the shape of the parameter array: the same entries under the same names
    in the same order, and every entry that is not named max-size, bits,
    security-bits, encoded-public-key, public-key or private-key exactly as
    it was. *)
Theorem get_params_keeps_other_entries (ecx : wp_Ecx) (params : list OSSL_PARAM) :
  let r := wp_ecx_get_params ecx params in
  (r.1 = 1 ∨ r.1 = 0) ∧
  length r.2 = length params ∧
  map p_key r.2 = map p_key params ∧
  ∀ i p, params !! i = Some p →
    p_key p ∉ [ OSSL_PKEY_PARAM_MAX_SIZE; OSSL_PKEY_PARAM_BITS;
                OSSL_PKEY_PARAM_SECURITY_BITS; OSSL_PKEY_PARAM_ENCODED_PUBLIC_KEY;
                OSSL_PKEY_PARAM_PUB_KEY; OSSL_PKEY_PARAM_PRIV_KEY ] →
    r.2 !! i = Some p.
Proof.
  set (ks := [ OSSL_PKEY_PARAM_MAX_SIZE; OSSL_PKEY_PARAM_BITS;
               OSSL_PKEY_PARAM_SECURITY_BITS; OSSL_PKEY_PARAM_ENCODED_PUBLIC_KEY;
               OSSL_PKEY_PARAM_PUB_KEY; OSSL_PKEY_PARAM_PRIV_KEY ]).
  assert (H0 : map p_key params = map p_key params ∧
               ∀ i p, params !! i = Some p → p_key p ∉ ks → params !! i = Some p)
    by done.
  assert (Hgoal : let r := wp_ecx_get_params ecx params in
            (r.1 = 1 ∨ r.1 = 0) ∧
            (map p_key r.2 = map p_key params ∧
             ∀ i p, params !! i = Some p → p_key p ∉ ks → r.2 !! i = Some p)).
  { unfold wp_ecx_get_params.
    pose proof (locate_set_int_fails_updates params OSSL_PKEY_PARAM_MAX_SIZE
                  (len (data ecx))) as U1.
    destruct (locate_set_int_fails params OSSL_PKEY_PARAM_MAX_SIZE _) as [b1 ps1].
    simpl in U1.
    assert (H1 := updates_only_step ks OSSL_PKEY_PARAM_MAX_SIZE params params ps1 ltac:(subst ks; repeat constructor) H0 U1).
    destruct b1; simpl; [auto|].
    pose proof (locate_set_int_fails_updates ps1 OSSL_PKEY_PARAM_BITS
                  (bits (data ecx))) as U2.
    destruct (locate_set_int_fails ps1 OSSL_PKEY_PARAM_BITS _) as [b2 ps2].
    simpl in U2.
    assert (H2 := updates_only_step ks OSSL_PKEY_PARAM_BITS params ps1 ps2 ltac:(subst ks; repeat constructor) H1 U2).
    destruct b2; simpl; [auto|].
    pose proof (locate_set_int_fails_updates ps2 OSSL_PKEY_PARAM_SECURITY_BITS
                  (wp_ecx_get_security_bits ecx)) as U3.
    destruct (locate_set_int_fails ps2 OSSL_PKEY_PARAM_SECURITY_BITS _) as [b3 ps3].
    simpl in U3.
    assert (H3 := updates_only_step ks OSSL_PKEY_PARAM_SECURITY_BITS params ps2 ps3 ltac:(subst ks; repeat constructor) H2 U3).
    destruct b3; simpl; [auto|].
    pose proof (get_params_enc_pub_key_updates ecx ps3
                  OSSL_PKEY_PARAM_ENCODED_PUBLIC_KEY) as U4.
    destruct (wp_ecx_get_params_enc_pub_key ecx ps3 _) as [r4 ps4].
    simpl in U4.
    assert (H4 := updates_only_step ks OSSL_PKEY_PARAM_ENCODED_PUBLIC_KEY params ps3 ps4 ltac:(subst ks; repeat constructor) H3 U4).
    destruct (r4 =? 0); simpl; [auto|].
    pose proof (get_params_enc_pub_key_updates ecx ps4 OSSL_PKEY_PARAM_PUB_KEY) as U5.
    destruct (wp_ecx_get_params_enc_pub_key ecx ps4 _) as [r5 ps5].
    simpl in U5.
    assert (H5 := updates_only_step ks OSSL_PKEY_PARAM_PUB_KEY params ps4 ps5 ltac:(subst ks; repeat constructor) H4 U5).
    destruct (r5 =? 0); simpl; [auto|].
    pose proof (get_params_priv_key_updates ecx ps5) as U6.
    destruct (wp_ecx_get_params_priv_key ecx ps5) as [r6 ps6].
    simpl in U6.
    assert (H6 := updates_only_step ks OSSL_PKEY_PARAM_PRIV_KEY params ps5 ps6 ltac:(subst ks; repeat constructor) H5 U6).
    destruct (r6 =? 0); simpl; auto. }
  simpl in Hgoal. destruct Hgoal as (H01 & Hm & Hu). simpl.
  split; [done|]. split; [|done].
  rewrite <- (length_map p_key), Hm. apply length_map.
Qed.

(** An integer entry that has a buffer takes the value. *)
Lemma set_int_stores (p : OSSL_PARAM) (val : Z) (d0 : param_data) :
  p_data_type p = OSSL_PARAM_INTEGER → p_data p = Some d0 →
  OSSL_PARAM_set_int p val =
    (1, mkParam (p_key p) (p_data_type p) (Some (DataInt val)) (p_data_size p) 4).
Proof. intros Hty Hd. unfold OSSL_PARAM_set_int. by rewrite Hty, Hd. Qed.

(** X15. After a successful [wp_ecx_get_params], an integer max-size entry
    that has a buffer holds the length of the curve in bytes, and an integer
    bits entry that has a buffer the number of bits of the curve. *)
Theorem get_params_reports_size_and_bits (ecx : wp_Ecx) (params : list OSSL_PARAM)
    (k : string) (i : nat) (p : OSSL_PARAM) :
  k = OSSL_PKEY_PARAM_MAX_SIZE ∨ k = OSSL_PKEY_PARAM_BITS →
  OSSL_PARAM_locate params k = Some i →
  params !! i = Some p →
  p_data_type p = OSSL_PARAM_INTEGER → is_Some (p_data p) →
  (wp_ecx_get_params ecx params).1 ≠ 0 →
  ∃ p', (wp_ecx_get_params ecx params).2 !! i = Some p' ∧
        p_key p' = k ∧
        p_data p' = Some (DataInt (if String.eqb k OSSL_PKEY_PARAM_MAX_SIZE
                                   then len (data ecx) else bits (data ecx))).
Proof.
  intros Hk Hloc Hi Hty [d0 Hd].
  destruct (wp_ecx_get_params ecx params) as [ok params'] eqn:Hget. simpl. intros Hok.
  destruct (locate_Some _ _ _ Hloc) as (p0 & Hp0 & Hkey).
  assert (p0 = p) by congruence. subst p0.
  unfold wp_ecx_get_params in Hget.
  destruct Hk as [-> | ->]; simpl String.eqb.
  - unfold locate_set_int_fails in Hget at 1. rewrite Hloc, Hi in Hget.
    rewrite (set_int_stores p _ d0 Hty Hd) in Hget. simpl in Hget.
    set (p1 := mkParam _ _ _ _ _) in Hget. set (ps1 := <[i := p1]> params) in Hget.
    assert (Hi1 : ps1 !! i = Some p1).
    { apply list_lookup_insert_eq. by apply lookup_lt_Some in Hi. }
    assert (Hk1 : p_key p1 = OSSL_PKEY_PARAM_MAX_SIZE) by done.
    pose proof (locate_set_int_fails_updates ps1 OSSL_PKEY_PARAM_BITS
                  (bits (data ecx))) as [_ Hu2].
    destruct (locate_set_int_fails ps1 OSSL_PKEY_PARAM_BITS _) as [b2 ps2].
    simpl in Hu2. destruct b2; simpl in Hget; [inversion Hget; subst; done|].
    pose proof (locate_set_int_fails_updates ps2 OSSL_PKEY_PARAM_SECURITY_BITS
                  (wp_ecx_get_security_bits ecx)) as [_ Hu3].
    destruct (locate_set_int_fails ps2 OSSL_PKEY_PARAM_SECURITY_BITS _) as [b3 ps3].
    simpl in Hu3. destruct b3; simpl in Hget; [inversion Hget; subst; done|].
    pose proof (get_params_enc_pub_key_updates ecx ps3
                  OSSL_PKEY_PARAM_ENCODED_PUBLIC_KEY) as [_ Hu4].
    destruct (wp_ecx_get_params_enc_pub_key ecx ps3 _) as [r4 ps4].
    simpl in Hu4. destruct (r4 =? 0); simpl in Hget; [inversion Hget; subst; done|].
    pose proof (get_params_enc_pub_key_updates ecx ps4 OSSL_PKEY_PARAM_PUB_KEY)
      as [_ Hu5].
    destruct (wp_ecx_get_params_enc_pub_key ecx ps4 _) as [r5 ps5].
    simpl in Hu5. destruct (r5 =? 0); simpl in Hget; [inversion Hget; subst; done|].
    pose proof (get_params_priv_key_updates ecx ps5) as [_ Hu6].
    destruct (wp_ecx_get_params_priv_key ecx ps5) as [r6 ps6].
    simpl in Hu6. destruct (r6 =? 0); simpl in Hget; [inversion Hget; subst; done|].
    inversion Hget; subst. exists p1. split; [|done].
    apply Hu6; [apply Hu5; [apply Hu4; [apply Hu3; [apply Hu2; [done|]|]|]|]|];
      rewrite Hk1; done.
  - pose proof (locate_set_int_fails_updates params OSSL_PKEY_PARAM_MAX_SIZE
                  (len (data ecx))) as [Hk1 Hu1].
    destruct (locate_set_int_fails params OSSL_PKEY_PARAM_MAX_SIZE _) as [b1 ps1].
    simpl in Hk1, Hu1. destruct b1; simpl in Hget; [inversion Hget; subst; done|].
    assert (Hi1 : ps1 !! i = Some p) by (apply Hu1; [done|]; rewrite Hkey; done).
    assert (Hloc1 : OSSL_PARAM_locate ps1 OSSL_PKEY_PARAM_BITS = Some i)
      by (rewrite (locate_same_keys params ps1) by done; done).
    unfold locate_set_int_fails in Hget at 1. rewrite Hloc1, Hi1 in Hget.
    rewrite (set_int_stores p _ d0 Hty Hd) in Hget. simpl in Hget.
    set (p2 := mkParam _ _ _ _ _) in Hget. set (ps2 := <[i := p2]> ps1) in Hget.
    assert (Hi2 : ps2 !! i = Some p2).
    { apply list_lookup_insert_eq. by apply lookup_lt_Some in Hi1. }
    assert (Hk2 : p_key p2 = OSSL_PKEY_PARAM_BITS) by done.
    pose proof (locate_set_int_fails_updates ps2 OSSL_PKEY_PARAM_SECURITY_BITS
                  (wp_ecx_get_security_bits ecx)) as [_ Hu3].
    destruct (locate_set_int_fails ps2 OSSL_PKEY_PARAM_SECURITY_BITS _) as [b3 ps3].
    simpl in Hu3. destruct b3; simpl in Hget; [inversion Hget; subst; done|].
    pose proof (get_params_enc_pub_key_updates ecx ps3
                  OSSL_PKEY_PARAM_ENCODED_PUBLIC_KEY) as [_ Hu4].
    destruct (wp_ecx_get_params_enc_pub_key ecx ps3 _) as [r4 ps4].
    simpl in Hu4. destruct (r4 =? 0); simpl in Hget; [inversion Hget; subst; done|].
    pose proof (get_params_enc_pub_key_updates ecx ps4 OSSL_PKEY_PARAM_PUB_KEY)
      as [_ Hu5].
    destruct (wp_ecx_get_params_enc_pub_key ecx ps4 _) as [r5 ps5].
    simpl in Hu5. destruct (r5 =? 0); simpl in Hget; [inversion Hget; subst; done|].
    pose proof (get_params_priv_key_updates ecx ps5) as [_ Hu6].
    destruct (wp_ecx_get_params_priv_key ecx ps5) as [r6 ps6].
    simpl in Hu6. destruct (r6 =? 0); simpl in Hget; [inversion Hget; subst; done|].
    inversion Hget; subst. exists p2. split; [|done].
    apply Hu6; [apply Hu5; [apply Hu4; [apply Hu3; [done|]|]|]|];
      rewrite Hk2; done.
Qed.

(** ** More on matching *)



(** ** More on decoding *)

(** X17. When the key object is created, the input read, the bytes accepted
    by the decode primitive and the parameters accepted by the data
    callback, [wp_ecx_dec_decode] returns 1 and the new object stays: it has
    a reference count of 1, the descriptor of the decoder's key type, the
    key the primitive left, the public component marked present for either
    format and the private one for the private key format only. The input
    buffer is released before the callback is called, the callback is called
    once, with the type tag of the curve and a reference to the object, and
    a later export through the context uses the selection of this call. *)
Theorem decode_hands_over_new_key (ctx : wp_EcxEncDecCtx)
    (cin : OSSL_CORE_BIO) (selection : Z) (dataCb : list OSSL_PARAM → Z)
    (s : State) (d : wp_EcxData) (tag : string) (p : loc) (s1 : State)
    (bytes : list byte) :
  decoder_target (dec_keyType ctx) = Some (d, tag) →
  wp_ecx_new (dec_provCtx ctx) d s = Some (Some p, s1) →
  cin = Some bytes →
  let ctx' := mkEncDecCtx (decode ctx) (dec_provCtx ctx) selection (dec_keyType ctx)
                (format ctx) (encoder ctx) in
  let n := Z.of_nat (length bytes) in
  let dec := decode ctx bytes 0 (initKey d key_zero).2 n in
  dec.1 = 0 → dataCb (decoded_params p tag) ≠ 0 →
  ∃ s', wp_ecx_dec_decode ctx cin selection dataCb s = Some ((1, ctx'), s') ∧
        heap s !! p = None ∧
        heap s' = <[p := mkEcx dec.2 d 1 (dec_provCtx ctx) 0
                          ((format ctx =? WP_ENC_FORMAT_SPKI) ||
                           (format ctx =? WP_ENC_FORMAT_PKI))
                          (format ctx =? WP_ENC_FORMAT_PKI)]> (heap s) ∧
        log s' = log s ++ [EvClearFree bytes n; EvCallback (decoded_params p tag)] ∧
        (∀ e cb, wp_ecx_export_object ctx' e cb = wp_ecx_export e selection cb).
Proof.
  intros Ht Hnew -> ctx' n dec Hrc Hcb.
  destruct (wp_ecx_new_some _ _ _ _ _ Hnew) as (Hfresh & Hh & _ & Hlog & Hjunk & Hfates).
  pose proof (decoder_makes ctx d tag s p s1 Ht Hnew) as Hmade.
  unfold wp_ecx_dec_decode. cbn [dec_keyType dec_provCtx decode format].
  rewrite (bind_Some _ _ _ _ _ Hmade).
  remember (wp_ecx_free (Some p)) as release eqn:Hrel.
  rewrite bool_decide_eq_false_2 by done.
  assert (Hp1 : heap s1 !! p = Some (mkEcx (initKey d key_zero).2 d 1 (dec_provCtx ctx)
                                       0 false false))
    by (rewrite Hh; apply lookup_insert_eq).
  unfold wp_ecx_dec_send_params. unfold_m. heap_steps.
  fold n. subst dec. fold n in Hrc. destruct (decode ctx bytes 0 _ n) as [rc k].
  simpl in *. heap_steps. subst rc. simpl.
  fold (decoded_params p tag).
  destruct (Z.eqb_spec (dataCb (decoded_params p tag)) 0) as [|_]; [done|]. simpl.
  destruct (format ctx =? WP_ENC_FORMAT_SPKI), (format ctx =? WP_ENC_FORMAT_PKI);
    simpl; heap_steps;
    fold (decoded_params p tag);
    destruct (Z.eqb_spec (dataCb (decoded_params p tag)) 0) as [|_]; try done; simpl;
    (eexists; split; [reflexivity|]); simpl;
    (split; [done|]); rewrite Hh, Hlog, <- ?app_assoc, !insert_insert_eq; done.
Qed.

Lemma decoder_makes_any ctx d tag s r s1 :
  decoder_target (dec_keyType ctx) = Some (d, tag) →
  wp_ecx_new (dec_provCtx ctx) d s = Some (r, s1) →
  (if dec_keyType ctx =? WP_KEY_TYPE_X25519 then
     bind (wp_x25519_new (dec_provCtx ctx)) (λ ecx, ret (ecx, Some "X25519"%string))
   else if dec_keyType ctx =? WP_KEY_TYPE_ED25519 then
     bind (wp_ed25519_new (dec_provCtx ctx)) (λ ecx, ret (ecx, Some "ED25519"%string))
   else if dec_keyType ctx =? WP_KEY_TYPE_X448 then
     bind (wp_x448_new (dec_provCtx ctx)) (λ ecx, ret (ecx, Some "X448"%string))
   else if dec_keyType ctx =? WP_KEY_TYPE_ED448 then
     bind (wp_ed448_new (dec_provCtx ctx)) (λ ecx, ret (ecx, Some "ED448"%string))
   else ret (None, None)) s = Some ((r, Some tag), s1).
Proof.
  unfold decoder_target, wp_x25519_new, wp_ed25519_new, wp_x448_new, wp_ed448_new.
  intros Ht Hnew.
  repeat match type of Ht with
         | (if ?c then _ else _) = _ => destruct c
         end; try discriminate;
    injection Ht as <- <-; unfold bind; rewrite Hnew; reflexivity.
Qed.

Lemma decoder_makes_nothing ctx s :
  decoder_target (dec_keyType ctx) = None →
  (if dec_keyType ctx =? WP_KEY_TYPE_X25519 then
     bind (wp_x25519_new (dec_provCtx ctx)) (λ ecx, ret (ecx, Some "X25519"%string))
   else if dec_keyType ctx =? WP_KEY_TYPE_ED25519 then
     bind (wp_ed25519_new (dec_provCtx ctx)) (λ ecx, ret (ecx, Some "ED25519"%string))
   else if dec_keyType ctx =? WP_KEY_TYPE_X448 then
     bind (wp_x448_new (dec_provCtx ctx)) (λ ecx, ret (ecx, Some "X448"%string))
   else if dec_keyType ctx =? WP_KEY_TYPE_ED448 then
     bind (wp_ed448_new (dec_provCtx ctx)) (λ ecx, ret (ecx, Some "ED448"%string))
   else ret (None, None)) s = Some ((None, None), s).
Proof.
  unfold decoder_target. intros Ht.
  repeat match type of Ht with
         | (if ?c then _ else _) = _ => destruct c
         end; try discriminate. reflexivity.
Qed.

Lemma count_app f l1 l2 : count f (l1 ++ l2) = (count f l1 + count f l2)%nat.
Proof. unfold count. by rewrite List.filter_app, length_app. Qed.

(** [wp_ecx_new] calls no callback. *)
Lemma wp_ecx_new_no_callback pc d s r s' :
  wp_ecx_new pc d s = Some (r, s') →
  count is_callback (log s') = count is_callback (log s).
Proof.
  unfold wp_ecx_new. unfold_m.
  destruct wolfssl_prov_is_running; simpl; [|by intros [= <- <-]].
  destruct (hd 0 (fates s) =? 0); simpl; [|by intros [= <- <-]].
  heap_steps. destruct (initKey d key_zero) as [rc k]. simpl. heap_steps.
  destruct (Z.eqb_spec rc 0) as [->|Hrc]; simpl; heap_steps.
  - destruct (hd 0 (tail (fates s)) =? 0); simpl; heap_steps.
    + by intros [= <- <-].
    + intros [= <- <-]. cbn [log]. unfold count.
      rewrite !List.filter_app, !length_app. simpl. lia.
  - intros [= <- <-]. cbn [log]. unfold count.
      rewrite !List.filter_app, !length_app. simpl. lia.
Qed.

(** X18. [wp_ecx_dec_decode] always returns, with 1 or 0, and records the
    selection in the context. It returns 0 without calling the callback for
    a key type it does not know, when the key object cannot be created and
    when the input cannot be read. Whenever it returns, either the store is
    what it was before the call, or it holds exactly one object more, and
    then the result is 1 and the data callback has accepted a reference to
    that object: an object the caller did not accept is never left behind. *)
Theorem decode_leaves_no_object_behind (ctx : wp_EcxEncDecCtx)
    (cin : OSSL_CORE_BIO) (selection : Z) (dataCb : list OSSL_PARAM → Z) (s : State) :
  ∃ r ctx' s', wp_ecx_dec_decode ctx cin selection dataCb s = Some ((r, ctx'), s') ∧
    ctx' = mkEncDecCtx (decode ctx) (dec_provCtx ctx) selection (dec_keyType ctx)
             (format ctx) (encoder ctx) ∧
    (r = 1 ∨ r = 0) ∧
    (decoder_target (dec_keyType ctx) = None ∨
     (∃ d tag s1, decoder_target (dec_keyType ctx) = Some (d, tag) ∧
                  wp_ecx_new (dec_provCtx ctx) d s = Some (None, s1)) ∨
     cin = None →
     r = 0 ∧ count is_callback (log s') = count is_callback (log s)) ∧
    (heap s' = heap s ∨
     ∃ p e d tag, heap s !! p = None ∧ heap s' = <[p := e]> (heap s) ∧
       decoder_target (dec_keyType ctx) = Some (d, tag) ∧
       data e = d ∧ refCnt e = 1 ∧ r = 1 ∧
       dataCb (decoded_params p tag) ≠ 0 ∧
       count is_callback (log s') = S (count is_callback (log s))).
Proof.
  unfold wp_ecx_dec_decode. cbn [dec_keyType dec_provCtx decode format].
  destruct (decoder_target (dec_keyType ctx)) as [[d tag]|] eqn:Ht.
  2:{ rewrite (bind_Some _ _ _ _ _ (decoder_makes_nothing ctx s Ht)).
      unfold_m. eexists _, _, _. split; [reflexivity|]. simpl.
      split; [done|]. split; [by right|]. split; [done|]. by left. }
  destruct (wp_ecx_new_defined (dec_provCtx ctx) d s) as [[[p|] s1] Hnew].
  2:{ rewrite (bind_Some _ _ _ _ _ (decoder_makes_any ctx d tag s None s1 Ht Hnew)).
      pose proof (wp_ecx_new_none _ _ _ _ Hnew) as Hheap.
      pose proof (wp_ecx_new_no_callback _ _ _ _ _ Hnew) as Hcount.
      unfold_m. eexists _, _, _. split; [reflexivity|]. simpl.
      split; [done|]. split; [by right|]. split; [done|]. by left. }
  destruct (wp_ecx_new_some _ _ _ _ _ Hnew) as (Hfresh & Hh & _ & Hlog & Hjunk & Hfates).
  rewrite (bind_Some _ _ _ _ _ (decoder_makes_any ctx d tag s (Some p) s1 Ht Hnew)).
  remember (wp_ecx_free (Some p)) as release eqn:Hrel.
  rewrite bool_decide_eq_false_2 by done.
  assert (Hp1 : heap s1 !! p = Some (mkEcx (initKey d key_zero).2 d 1 (dec_provCtx ctx)
                                       0 false false))
    by (rewrite Hh; apply lookup_insert_eq).
  assert (Hnone : ∀ d' tag' s1',
            Some (d, tag) = Some (d', tag') →
            wp_ecx_new (dec_provCtx ctx) d' s = Some (None, s1') → False).
  { intros d' tag' s1' [= <- <-]. rewrite Hnew. discriminate. }
  assert (Hback : ∀ h : gmap loc wp_Ecx, h !! p = None →
            (∀ q, q ≠ p → h !! q = heap s1 !! q) → h = heap s).
  { intros h Hgone Hrest. apply (heap_back _ _ p Hfresh Hgone). intros q Hq.
    rewrite (Hrest q Hq), Hh. by rewrite lookup_insert_ne. }
  unfold wp_ecx_dec_send_params.
  destruct cin as [bytes|]; unfold_m; heap_steps.
  - destruct (decode ctx bytes 0 _ _) as [rc k]. simpl. heap_steps.
    unfold nz. destruct (Z.eqb_spec rc 0) as [->|Hrc]; simpl.
    + fold (decoded_params p tag).
      destruct (format ctx =? WP_ENC_FORMAT_SPKI), (format ctx =? WP_ENC_FORMAT_PKI);
        simpl; heap_steps; fold (decoded_params p tag);
        (destruct (Z.eqb_spec (dataCb (decoded_params p tag)) 0) as [Hcb|Hcb]; simpl;
         [ subst release; simpl; cbv beta;
           match goal with
           | |- context [bind (wc_LockMutex p) _ ?st] =>
               evar (e0 : wp_Ecx);
               destruct (free_step_last p e0 st) as (h & Hfree & Hgone & Hrest);
               subst e0; [apply lookup_insert_eq|reflexivity|]
           end;
           unfold wp_ecx_free in Hfree; rewrite Hfree; simpl;
           eexists _, _, _; (split; [reflexivity|]); simpl;
           (split; [done|]); (split; [by right|]);
           (split; [intros [|[(? & ? & ? & ? & ?)|]]; [done|exfalso; eauto|done]|]);
           left; apply Hback; [done|];
           intros q Hq; rewrite (Hrest q Hq); simpl; by rewrite !lookup_insert_ne
         | eexists _, _, _; (split; [reflexivity|]); simpl;
           (split; [done|]); (split; [by left|]);
           (split; [intros [|[(? & ? & ? & ? & ?)|]]; [done|exfalso; eauto|done]|]);
           right; eexists p, _, d, tag; (split; [done|]);
           (split; [rewrite Hh, !insert_insert_eq; reflexivity|]);
           (split; [done|]); (split; [done|]); (split; [done|]); (split; [done|]);
           (split; [done|]);
           rewrite Hlog; unfold count; rewrite !List.filter_app, !length_app; simpl; lia ]).
    + subst release. simpl. cbv beta.
      match goal with
      | |- context [bind (wc_LockMutex p) _ ?st] =>
          evar (e0 : wp_Ecx);
          destruct (free_step_last p e0 st) as (h & Hfree & Hgone & Hrest);
          subst e0; [apply lookup_insert_eq|reflexivity|]
      end.
      unfold wp_ecx_free in Hfree. rewrite Hfree. simpl.
      eexists _, _, _. split; [reflexivity|]. simpl.
      split; [done|]. split; [by left|].
      split; [intros [|[(? & ? & ? & ? & ?)|]]; [done|exfalso; eauto|done]|].
      left. apply Hback; [done|].
      intros q Hq. rewrite (Hrest q Hq). simpl. by rewrite !lookup_insert_ne.
  - subst release. simpl. cbv beta.
    match goal with
    | |- context [bind (wc_LockMutex p) _ ?st] =>
        evar (e0 : wp_Ecx);
        destruct (free_step_last p e0 st) as (h & Hfree & Hgone & Hrest);
        subst e0; [exact Hp1|reflexivity|]
    end.
    unfold wp_ecx_free in Hfree. rewrite Hfree. simpl.
    eexists _, _, _. split; [reflexivity|]. simpl.
    split; [done|]. split; [by right|].
    split.
    + intros _. split; [done|]. rewrite Hlog. unfold count.
      rewrite !List.filter_app, !length_app. simpl. lia.
    + left. apply Hback; [done|]. intros q Hq. by rewrite (Hrest q Hq).
Qed.

End Properties.

(** ** Runs on the reference primitives *)

(** Three holders of one key: two share attempts, three releases. *)
Lemma C1_witness :
  wp_ecx_new (WC:=RefCrypt) (PV:=Running) 1%positive x25519Data ref_state =
    Some (Some 1%positive, ref_first_state) ∧
  (∀ k, (k < 3)%nat →
     ∃ s, share_then_release (WC:=RefCrypt) 1%positive 2 k ref_first_state = Some (tt, s) ∧
          is_Some (heap s !! 1%positive) ∧ log s = log ref_first_state) ∧
  (∃ s, share_then_release (WC:=RefCrypt) 1%positive 2 3 ref_first_state = Some (tt, s) ∧
        heap s !! 1%positive = None ∧
        log s = log ref_first_state ++
                  [EvFreeMutex 1%positive; EvFreeKey 1%positive; EvFree 1%positive] ∧
        count (is_freeKey 1%positive) (log s) =
          S (count (is_freeKey 1%positive) (log ref_first_state)) ∧
        count (is_free 1%positive) (log s) =
          S (count (is_free 1%positive) (log ref_first_state))).
Proof.
  split; [vm_compute; reflexivity|].
  apply (C1_destroyed_exactly_at_last_release (WC:=RefCrypt) (PV:=Running) 3 1%positive
           x25519Data ref_state 1%positive ref_first_state).
  - lia.
  - unfold INT_MAX. lia.
  - vm_compute. reflexivity.
  - simpl. constructor.
Defined.

(** Duplicating a fully populated key with the public-only selection gives
    a second object, and it has the private key. *)
Lemma C3_witness :
  heap ref_full_state !! 1%positive = Some ref_full_key ∧
  ∃ s' e',
    wp_ecx_dup (WC:=RefCrypt) (PV:=Running) 1%positive OSSL_KEYMGMT_SELECT_PUBLIC_KEY
      ref_full_state = Some (Some 2%positive, s') ∧
    heap s' !! 2%positive = Some e' ∧
    heap s' !! 1%positive = Some ref_full_key ∧
    data e' = data ref_full_key ∧ key e' = key ref_full_key ∧
    hasPub e' = hasPub ref_full_key ∧ hasPriv e' = hasPriv ref_full_key ∧
    includePublic e' = includePublic ref_full_key ∧
    provCtx e' = provCtx ref_full_key ∧ refCnt e' = 1 ∧
    wp_ecx_has (PV:=Running) (Some e') OSSL_KEYMGMT_SELECT_PRIVATE_KEY = 1.
Proof.
  split; [reflexivity|].
  destruct (C3_dup_is_full_copy (WC:=RefCrypt) (PV:=Running) 1%positive OSSL_KEYMGMT_SELECT_PUBLIC_KEY
              ref_full_state ref_full_key) as [(r & s' & Hdup & Hiff & Hcopy) _];
    [reflexivity|].
  assert (Hrun : wp_ecx_dup (WC:=RefCrypt) (PV:=Running) 1%positive
                   OSSL_KEYMGMT_SELECT_PUBLIC_KEY ref_full_state =
                 Some (Some 2%positive, ref_dup_state))
    by (vm_compute; reflexivity).
  rewrite Hrun in Hdup. injection Hdup as <- <-.
  destruct Hcopy as (e' & He' & _ & Hsrc & Hdata & Hkey & Hpub & Hpriv & Hinc & Hctx & Hcnt
                     & Hhas).
  exists ref_dup_state, e'. rewrite <- Hrun.
  split; [reflexivity|]. split; [exact He'|]. split; [exact Hsrc|].
  split; [exact Hdata|]. split; [exact Hkey|]. split; [exact Hpub|].
  split; [exact Hpriv|]. split; [exact Hinc|]. split; [exact Hctx|].
  split; [exact Hcnt|]. rewrite Hhas. reflexivity.
Defined.

(** The duplicate asked for with the public-only selection has the private
    key. *)
Example dup_public_only_has_private :
  ∃ s' e', wp_ecx_dup (WC:=RefCrypt) (PV:=Running) 1%positive OSSL_KEYMGMT_SELECT_PUBLIC_KEY
             ref_full_state = Some (Some 2%positive, s') ∧
           heap s' !! 2%positive = Some e' ∧
           wp_ecx_has (PV:=Running) (Some e') OSSL_KEYMGMT_SELECT_PRIVATE_KEY = 1.
Proof. eexists _, _. split; [vm_compute; reflexivity|]. split; vm_compute; reflexivity. Qed.

Lemma ref_export_any_buffer (set : bool) (bytes b1 b2 : list byte) :
  length bytes = 32%nat →
  (let '(rc, out, n) := ref_export 32 set bytes b1 32 in
   if rc =? 0 then Some (buf_read out n, n) else None) =
  (let '(rc, out, n) := ref_export 32 set bytes b2 32 in
   if rc =? 0 then Some (buf_read out n, n) else None).
Proof.
  intros Hlen. unfold ref_export. destruct set; simpl; [|reflexivity].
  unfold buf_read. rewrite Hlen. simpl Z.to_nat.
  change (Pos.to_nat 32) with 32%nat.
  rewrite !take_app_length' by done. reflexivity.
Qed.

Lemma ref_keys_export_determined :
  export_determined ref_full_key ∧ export_determined ref_other_key.
Proof.
  split; intros b1 b2; split;
    apply (ref_export_any_buffer true _ b1 b2); reflexivity.
Qed.

(** A fully populated key matches itself on both components, and matching
    two keys on the public component gives the same answer in both orders. *)
Lemma C4_witness :
  wp_ecx_match (WC:=RefCrypt) (PV:=Running) ref_frames ref_full_key ref_full_key
    OSSL_KEYMGMT_SELECT_KEYPAIR = 1 ∧
  (∀ fr', wp_ecx_match (WC:=RefCrypt) (PV:=Running) fr' ref_other_key ref_full_key
            OSSL_KEYMGMT_SELECT_PUBLIC_KEY =
          wp_ecx_match (WC:=RefCrypt) (PV:=Running) ref_frames ref_full_key ref_other_key
            OSSL_KEYMGMT_SELECT_PUBLIC_KEY) ∧
  keyType (data ref_full_key) = keyType (data ref_other_key).
Proof.
  destruct ref_keys_export_determined as [Hfull Hother].
  destruct (C4_match (WC:=RefCrypt) (PV:=Running) ref_frames ref_full_key ref_full_key
              OSSL_KEYMGMT_SELECT_KEYPAIR) as (_ & _ & Htype & _ & _ & Hrefl & _).
  destruct (C4_match (WC:=RefCrypt) (PV:=Running) ref_frames ref_full_key ref_other_key
              OSSL_KEYMGMT_SELECT_PUBLIC_KEY) as (_ & _ & _ & _ & _ & _ & Hsym).
  assert (Hself : wp_ecx_match (WC:=RefCrypt) (PV:=Running) ref_frames ref_full_key ref_full_key
                    OSSL_KEYMGMT_SELECT_KEYPAIR = 1).
  { apply Hrefl; try reflexivity; try exact Hfull; vm_compute; eauto. }
  split; [exact Hself|]. split; [exact (Hsym Hfull Hother)|].
  reflexivity.
Defined.

(** An X25519 key (255 bits) reports 128. *)
Lemma C5_witness :
  wp_ecx_get_security_bits ref_full_key = 128 ∧
  ∃ p', (wp_ecx_get_params ref_full_key ref_secbits_params).2 !! 1%nat = Some p' ∧
        p_key p' = OSSL_PKEY_PARAM_SECURITY_BITS ∧
        p_data p' = Some (DataInt 128).
Proof.
  destruct (C5_security_bits (WC:=RefCrypt) ref_full_key) as (_ & H128 & _ & Hget).
  split; [apply H128; simpl; lia|].
  destruct (Hget ref_secbits_params 1%nat
              (mkParam OSSL_PKEY_PARAM_SECURITY_BITS OSSL_PARAM_INTEGER (Some (DataInt 0)) 4
                 OSSL_PARAM_UNMODIFIED)
              (wp_ecx_get_params ref_full_key ref_secbits_params).1
              (wp_ecx_get_params ref_full_key ref_secbits_params).2)
    as (p' & Hp' & Hk & Hd).
  - reflexivity.
  - reflexivity.
  - reflexivity.
  - eauto.
  - reflexivity.
  - vm_compute. discriminate.
  - exists p'. split; [exact Hp'|]. split; [exact Hk|]. rewrite Hd.
    rewrite (H128 ltac:(simpl; lia)). reflexivity.
Defined.

(** Five bytes are not an X25519 key: the decoder does not recognize them;
    thirty-two are one, and the callback then refuses it. *)
Lemma C8_witness :
  (∃ s', wp_ecx_dec_decode (WC:=RefCrypt) (PV:=Running) ref_spki_ctx (Some (zeros 5))
           OSSL_KEYMGMT_SELECT_PUBLIC_KEY (λ _, 1) ref_state
         = Some ((1, mkEncDecCtx wp_x25519_pub_deocde 1%positive
                       OSSL_KEYMGMT_SELECT_PUBLIC_KEY WP_KEY_TYPE_X25519
                       WP_ENC_FORMAT_SPKI 0), s') ∧
         heap s' !! 1%positive = None ∧
         log s' = [EvClearFree (zeros 5) 5;
                   EvFreeMutex 1%positive; EvFreeKey 1%positive; EvFree 1%positive]) ∧
  (∃ s', wp_ecx_dec_decode (WC:=RefCrypt) (PV:=Running) ref_spki_ctx (Some (zeros 32))
           OSSL_KEYMGMT_SELECT_PUBLIC_KEY (λ _, 0) ref_state
         = Some ((0, mkEncDecCtx wp_x25519_pub_deocde 1%positive
                       OSSL_KEYMGMT_SELECT_PUBLIC_KEY WP_KEY_TYPE_X25519
                       WP_ENC_FORMAT_SPKI 0), s') ∧
         heap s' !! 1%positive = None ∧
         log s' = [EvClearFree (zeros 32) 32;
                   EvCallback (decoded_params 1%positive "X25519");
                   EvFreeMutex 1%positive; EvFreeKey 1%positive; EvFree 1%positive]).
Proof.
  split.
  - destruct (C8_decode_rejection_and_late_failure (WC:=RefCrypt) (PV:=Running) ref_spki_ctx
                (Some (zeros 5)) OSSL_KEYMGMT_SELECT_PUBLIC_KEY (λ _, 1) ref_state
                x25519Data "X25519" 1%positive ref_first_state (zeros 5))
      as [Hreject _]; [reflexivity|vm_compute; reflexivity|reflexivity|].
    destruct Hreject as (s' & Hrun & Hgone & Hlog & _); [vm_compute; discriminate|].
    exists s'. split; [exact Hrun|]. split; [exact Hgone|exact Hlog].
  - destruct (C8_decode_rejection_and_late_failure (WC:=RefCrypt) (PV:=Running) ref_spki_ctx
                (Some (zeros 32)) OSSL_KEYMGMT_SELECT_PUBLIC_KEY (λ _, 0) ref_state
                x25519Data "X25519" 1%positive ref_first_state (zeros 32))
      as [_ Hlate]; [reflexivity|vm_compute; reflexivity|reflexivity|].
    destruct Hlate as (s' & Hrun & Hgone & Hlog); [vm_compute; reflexivity|reflexivity|].
    exists s'. split; [exact Hrun|]. split; [exact Hgone|exact Hlog].
Defined.

(** The private export fails with [ECC_BAD_ARG_E]; the callback is called
    and the export returns its 1. *)
Lemma C10_witness :
  (exportPriv (data ref_public_only_key) (key ref_public_only_key) (zeros 32) 32).1.1
    = ECC_BAD_ARG_E ∧
  ∃ params s',
    wp_ecx_export (WC:=RefCrypt) ref_public_only_key OSSL_KEYMGMT_SELECT_PRIVATE_KEY
      (λ _, 1) ref_malloc_state = Some (1, s') ∧
    log s' = [EvCallback params;
              EvClearFree (replicate 32 7 ++ zeros 32) 32].
Proof.
  split; [reflexivity|].
  destruct (C10_private_export_code_ignored (WC:=RefCrypt) ref_public_only_key
              OSSL_KEYMGMT_SELECT_PRIVATE_KEY (λ _, 1) ref_malloc_state
              (replicate 32 7 ++ zeros 32) 32 ECC_BAD_ARG_E (zeros 32) 32)
    as [_ Hrun]; [vm_compute; discriminate|reflexivity|reflexivity|reflexivity|].
  eexists _, _. split; [exact Hrun|]. reflexivity.
Defined.



(** C9, as stated, fails for X448: both imports succeed, and the keys
    differ in the last byte. *)
Lemma C9_x448_keeps_top_bit :
  byte_and (ref_x448_top_set !!! 55%nat) 128 ≠ 0 ∧
  (importPub (@x448Data RefCrypt) ref_x448_top_set CURVE448_KEY_SIZE key_zero
     EC448_LITTLE_ENDIAN).1 = 0 ∧
  (importPub (@x448Data RefCrypt) (clear_top_bit ref_x448_top_set) CURVE448_KEY_SIZE
     key_zero EC448_LITTLE_ENDIAN).1 = 0 ∧
  (importPub (@x448Data RefCrypt) ref_x448_top_set CURVE448_KEY_SIZE key_zero
     EC448_LITTLE_ENDIAN).2 ≠
  (importPub (@x448Data RefCrypt) (clear_top_bit ref_x448_top_set) CURVE448_KEY_SIZE
     key_zero EC448_LITTLE_ENDIAN).2.
Proof. repeat split; vm_compute; discriminate. Qed.

(** Importing it gives what importing the bytes with 127 in the last place
    gives. *)
Lemma C9_witness :
  byte_and (ref_x25519_top_set !!! 31%nat) 128 ≠ 0 ∧
  importPub (@x25519Data RefCrypt) ref_x25519_top_set CURVE25519_KEYSIZE key_zero
    EC25519_LITTLE_ENDIAN =
  importPub (@x25519Data RefCrypt) (zeros 31 ++ [127]) CURVE25519_KEYSIZE key_zero
    EC25519_LITTLE_ENDIAN.
Proof.
  split; [vm_compute; discriminate|].
  destruct (C9_x25519_masks_top_bit (WC:=RefCrypt) ref_x25519_top_set key_zero
              EC25519_LITTLE_ENDIAN) as (_ & Hsame & _).
  - reflexivity.
  - unfold ref_x25519_top_set, zeros. simpl. repeat constructor; lia.
  - exact Hsame.
Defined.

(** C7 (the code at the failing input). Exporting a fully populated key with
    the private key selected hands the callback two entries, both named as
    the public key: the second one carries the private key bytes, and no
    entry carries the private-key name. *)
Theorem C7_private_key_exported_under_public_name :
  ∃ s',
    wp_ecx_export (WC:=RefCrypt) ref_full_key OSSL_KEYMGMT_SELECT_PRIVATE_KEY (λ _, 1)
      ref_malloc_state = Some (1, s') ∧
    log s' =
      [ EvCallback [ octet_param OSSL_PKEY_PARAM_PUB_KEY (replicate 32 7);
                     octet_param OSSL_PKEY_PARAM_PUB_KEY (replicate 32 9) ];
        EvClearFree (replicate 32 7 ++ replicate 32 9) 32 ] ∧
    OSSL_PARAM_locate [ octet_param OSSL_PKEY_PARAM_PUB_KEY (replicate 32 7);
                        octet_param OSSL_PKEY_PARAM_PUB_KEY (replicate 32 9) ]
      OSSL_PKEY_PARAM_PRIV_KEY = None.
Proof. eexists. repeat split; vm_compute; reflexivity. Qed.


(** ** Further runs on the reference primitives *)

(** One share and one release of a fully populated key. *)
Lemma share_then_release_restores_witness :
  bind (wp_ecx_up_ref (WC:=RefCrypt) 1%positive) (λ _, wp_ecx_free (Some 1%positive))
    ref_full_state = Some (tt, ref_full_state).
Proof.
  apply (share_then_release_restores (WC:=RefCrypt) 1%positive ref_full_key ref_full_state).
  - reflexivity.
  - simpl. lia.
  - simpl. unfold INT_MAX. lia.
Defined.

(** The lock fails: the share attempt is refused, the release goes through
    and, the count being 1, destroys the key. *)
Lemma release_proceeds_without_lock_witness :
  (∃ s', wp_ecx_up_ref (WC:=RefCrypt) 1%positive ref_locked_state = Some (0, s') ∧
         heap s' = heap ref_locked_state) ∧
  (∃ s', wp_ecx_free (WC:=RefCrypt) (Some 1%positive) ref_locked_state = Some (tt, s') ∧
         heap s' !! 1%positive = None).
Proof.
  destruct (release_proceeds_without_lock (WC:=RefCrypt) 1%positive ref_full_key
              ref_locked_state) as [Hup (h & l & Hfree)]; [reflexivity|].
  split.
  - destruct Hup as (s' & Hrun & Hheap & _); [simpl; lia|]. eauto.
  - destruct (Hfree [-1]) as (Hrun & Hgone & _). eexists. split; [exact Hrun|].
    exact Hgone.
Defined.

(** Duplicating the key of [ref_full_state] and releasing the duplicate. *)
Lemma dup_then_free_restores_witness :
  ∃ s2, wp_ecx_free (WC:=RefCrypt) (Some 2%positive) ref_dup_state = Some (tt, s2) ∧
        heap s2 = heap ref_full_state ∧
        log s2 = log ref_full_state ++
                   [EvFreeMutex 2%positive; EvFreeKey 2%positive; EvFree 2%positive].
Proof.
  apply (dup_then_free_restores (WC:=RefCrypt) (PV:=Running) 1%positive
           OSSL_KEYMGMT_SELECT_KEYPAIR ref_full_state ref_full_key 2%positive
           ref_dup_state).
  - reflexivity.
  - vm_compute. reflexivity.
Defined.

(** The duplicate of [ref_full_key] answers as [ref_full_key] does. *)
Lemma dup_answers_as_source_witness :
  ∃ e', heap ref_dup_state !! 2%positive = Some e' ∧ refCnt e' = 1 ∧
    (∀ sel, wp_ecx_has (PV:=Running) (Some e') sel =
            wp_ecx_has (PV:=Running) (Some ref_full_key) sel) ∧
    (∀ fr other sel,
       wp_ecx_match (PV:=Running) fr e' other sel =
         wp_ecx_match (PV:=Running) fr ref_full_key other sel ∧
       wp_ecx_match (PV:=Running) fr other e' sel =
         wp_ecx_match (PV:=Running) fr other ref_full_key sel) ∧
    (∀ params, wp_ecx_get_params e' params = wp_ecx_get_params ref_full_key params) ∧
    (∀ sel cb, wp_ecx_export e' sel cb = wp_ecx_export ref_full_key sel cb).
Proof.
  apply (dup_answers_as_source (WC:=RefCrypt) (PV:=Running) 1%positive
           OSSL_KEYMGMT_SELECT_PUBLIC_KEY ref_full_state ref_full_key 2%positive
           ref_dup_state).
  - reflexivity.
  - vm_compute. reflexivity.
Defined.

(** A fully populated X25519 key validates as a key pair. *)
Lemma x_validate_checks_public_key_witness :
  wp_ecx_x_validate (WC:=RefCrypt) (zeros 56) ref_full_key OSSL_KEYMGMT_SELECT_KEYPAIR 0
    = Some 1.
Proof.
  destruct (x_validate_checks_public_key (WC:=RefCrypt) (PV:=Running) (zeros 56)
              ref_full_key OSSL_KEYMGMT_SELECT_KEYPAIR 0
              (wc_curve_check_public (wc_curve25519 (WolfCrypt:=RefCrypt))))
    as (r & Hr & _ & Hiff & _); [reflexivity|].
  rewrite Hr. f_equal. apply Hiff. split.
  - intros _. split; [reflexivity|]. eexists _, _. split; vm_compute; reflexivity.
  - intros _. reflexivity.
Defined.

(** A fully populated Ed25519 key validates as a key pair. *)
Lemma ed_validate_checks_key_pair_witness :
  wp_ecx_ed_validate (WC:=RefCrypt) ref_ed_key OSSL_KEYMGMT_SELECT_KEYPAIR 0 = Some 1.
Proof.
  destruct (ed_validate_checks_key_pair (WC:=RefCrypt) (PV:=Running) ref_ed_key
              OSSL_KEYMGMT_SELECT_KEYPAIR 0
              (wc_ed_check_key (wc_ed25519 (WolfCrypt:=RefCrypt))))
    as (r & Hr & _ & Hiff & _); [reflexivity|].
  rewrite Hr. f_equal. apply Hiff. repeat split; intros; reflexivity.
Defined.

(** An X25519 key reports 255 bits. *)
Lemma get_params_reports_size_and_bits_witness :
  ∃ p', (wp_ecx_get_params ref_full_key ref_size_params).2 !! 1%nat = Some p' ∧
        p_key p' = OSSL_PKEY_PARAM_BITS ∧
        p_data p' = Some (DataInt 255).
Proof.
  apply (get_params_reports_size_and_bits (WC:=RefCrypt) ref_full_key ref_size_params
           OSSL_PKEY_PARAM_BITS 1%nat
           (mkParam OSSL_PKEY_PARAM_BITS OSSL_PARAM_INTEGER (Some (DataInt 0)) 4
              OSSL_PARAM_UNMODIFIED)).
  - right. reflexivity.
  - reflexivity.
  - reflexivity.
  - reflexivity.
  - eauto.
  - vm_compute. discriminate.
Defined.


(** Thirty-two bytes decode into an X25519 key that has the public
    component only. *)
Lemma decode_hands_over_new_key_witness :
  ∃ s', wp_ecx_dec_decode (WC:=RefCrypt) (PV:=Running) ref_spki_ctx (Some (zeros 32))
          OSSL_KEYMGMT_SELECT_PUBLIC_KEY (λ _, 1) ref_state
        = Some ((1, mkEncDecCtx wp_x25519_pub_deocde 1%positive
                      OSSL_KEYMGMT_SELECT_PUBLIC_KEY WP_KEY_TYPE_X25519
                      WP_ENC_FORMAT_SPKI 0), s') ∧
        (∃ e, heap s' !! 1%positive = Some e ∧ hasPub e = true ∧ hasPriv e = false) ∧
        log s' = [EvClearFree (zeros 32) 32;
                  EvCallback (decoded_params 1%positive "X25519")].
Proof.
  destruct (decode_hands_over_new_key (WC:=RefCrypt) (PV:=Running) ref_spki_ctx
              (Some (zeros 32)) OSSL_KEYMGMT_SELECT_PUBLIC_KEY (λ _, 1) ref_state
              x25519Data "X25519" 1%positive ref_first_state (zeros 32))
    as (s' & Hrun & _ & Hheap & Hlog & _).
  - reflexivity.
  - vm_compute. reflexivity.
  - reflexivity.
  - vm_compute. reflexivity.
  - discriminate.
  - exists s'. split; [exact Hrun|]. split; [|exact Hlog].
    rewrite Hheap. eexists. split; [apply lookup_insert_eq|]. split; reflexivity.
Defined.
